(** * chatgpt-mcp-server: the JSON-RPC dispatcher and its tool handlers

    A shallow embedding of the TypeScript sources
    ([functions/mcp.ts], [tools/index.ts], [tools/memory.ts],
    [lib/supabase.ts], [types/mcp.ts], [types/memory.ts]) together with the
    properties the specification states about them.

    Conventions.
    - A JavaScript string is the list of its UTF-16 code units.
    - A JavaScript number is an IEEE-754 binary64 value ([PrimFloat.float]).
    - Text that the runtime produces with [JSON.stringify] is kept as the
      value the text denotes, that is the value as JSON writes it
      ([as_written], [Text], [Body]), instead of as characters.
    - The clock, [Math.random], the process environment, the library's
      [createClient] and the remote store are fields of an explicit
      [World] threaded through the code; a promise that rejects is a
      computation that throws. *)

From Stdlib Require Import List String Ascii ZArith NArith Bool Lia Floats.
From Stdlib Require Import DecimalString.
Import ListNotations.
Local Open Scope list_scope.
Set Warnings "-register-all".

(* ================================================================== *)
(** * The JavaScript runtime, as far as the sources use it *)
(* ================================================================== *)

Module JS.

(** ** Strings *)

Definition jsstring := list N.

Definition str (s : string) : jsstring := map N_of_ascii (list_ascii_of_string s).
Arguments str s%_string.

Fixpoint jsstring_eqb (a b : jsstring) : bool :=
  match a, b with
  | [], [] => true
  | x :: a', y :: b' => N.eqb x y && jsstring_eqb a' b'
  | _, _ => false
  end.

(** [Array.prototype.join] on strings. *)
Fixpoint join (sep : jsstring) (parts : list jsstring) : jsstring :=
  match parts with
  | [] => []
  | [p] => p
  | p :: rest => p ++ sep ++ join sep rest
  end.

(** The characters matched by [\s], which are also those removed by
    [String.prototype.trim]: WhiteSpace and LineTerminator. *)
Definition is_white_space (c : N) : bool :=
  ((9 <=? c) && (c <=? 13) || (c =? 32) || (c =? 160) || (c =? 5760)
   || (8192 <=? c) && (c <=? 8202) || (c =? 8232) || (c =? 8233)
   || (c =? 8239) || (c =? 8287) || (c =? 12288) || (c =? 65279))%N.

Fixpoint trimStart (s : jsstring) : jsstring :=
  match s with
  | [] => []
  | c :: s' => if is_white_space c then trimStart s' else s
  end.

Definition trimEnd (s : jsstring) : jsstring := rev (trimStart (rev s)).

Definition trim (s : jsstring) : jsstring := trimEnd (trimStart s).

(** [s.split(/[C]+/)] for a character class [C] given as a predicate: the
    pieces between the maximal runs of separator characters, with an empty
    first (last) piece when [s] begins (ends) with a separator, and the
    single piece [""] for the empty string.  [in_run] tells that the
    previous character was a separator. *)
Fixpoint split_from (sep : N -> bool) (in_run : bool) (s : jsstring)
  : list jsstring :=
  match s with
  | [] => [[]]
  | c :: s' =>
      if sep c then
        if in_run then split_from sep true s'
        else [] :: split_from sep true s'
      else
        match split_from sep false s' with
        | piece :: pieces => (c :: piece) :: pieces
        | [] => [[c]]
        end
  end.

Definition split_class (sep : N -> bool) (s : jsstring) : list jsstring :=
  split_from sep false s.

(** ** Numbers *)

(** The double of an integer (exact below 2^53). *)
Definition Number_of_Z (z : Z) : float :=
  if (z <? 0)%Z then (- of_uint63 (Uint63.of_Z (- z)))%float
  else of_uint63 (Uint63.of_Z z).

Definition Number_isNaN (x : float) : bool := negb (x =? x)%float.

(** [Number.isInteger]. *)
Definition Number_isInteger (x : float) : bool :=
  match Prim2SF x with
  | S754_zero _ => true
  | S754_finite _ m e =>
      if (0 <=? e)%Z then true else (Zpos m mod 2 ^ (- e) =? 0)%Z
  | _ => false
  end.

(** The mathematical integer obtained by dropping the fraction
    (0 for NaN and the infinities, as in ToInt32). *)
Definition truncate (x : float) : Z :=
  match Prim2SF x with
  | S754_finite s m e =>
      let a := if (0 <=? e)%Z then (Zpos m * 2 ^ e)%Z
               else (Zpos m / 2 ^ (- e))%Z in
      if s then (- a)%Z else a
  | _ => 0%Z
  end.

Definition ToInt32 (x : float) : Z :=
  let k := (truncate x mod 2 ^ 32)%Z in
  if (k <? 2 ^ 31)%Z then k else (k - 2 ^ 32)%Z.

(** Decimal text of an integer ([String(n)] for a safe integer). *)
Definition Z_toString (z : Z) : jsstring :=
  str (NilEmpty.string_of_int (Z.to_int z)).

(** [parseFloat(x.toFixed(2))].  [toFixed(2)] writes the integer [n] of
    hundredths nearest to the exact value of [x] (the larger one on a tie)
    with two decimals; [parseFloat] reads that decimal back as the nearest
    double.  From 1e21 on, and for NaN and the infinities, [toFixed] prints
    [x] itself. *)
Definition hundredths (m : positive) (e : Z) : Z :=
  if (0 <=? e)%Z then (100 * Zpos m * 2 ^ e)%Z
  else ((200 * Zpos m + 2 ^ (- e)) / 2 ^ (1 - e))%Z.

Definition nearest_quotient (n d : positive) : float :=
  SF2Prim (SF64div (S754_finite false n 0) (S754_finite false d 0)).

Definition parseFloat_toFixed2 (x : float) : float :=
  match Prim2SF x with
  | S754_zero _ => 0%float
  | S754_finite s m e =>
      if (1e21 <=? abs x)%float then x
      else
        let r := match hundredths m e with
                 | Zpos n => nearest_quotient n 100
                 | _ => 0%float
                 end in
        if s then (- r)%float else r
  | _ => x
  end.

(** [new Date(ms).toISOString()] for a time value [ms] (at most
    8.64e15 in absolute value, as every [Date] made from the clock holds):
    YYYY-MM-DDTHH:mm:ss.sssZ, the year written with a sign and six digits
    when it lies outside 0000-9999. *)
Definition pad (width : nat) (z : Z) : jsstring :=
  let digits := Z_toString z in
  repeat 48%N (width - List.length digits) ++ digits.

Definition civil_from_days (days : Z) : Z * Z * Z :=
  let z := (days + 719468)%Z in
  let era := (z / 146097)%Z in
  let doe := (z - era * 146097)%Z in
  let yoe := ((doe - doe / 1460 + doe / 36524 - doe / 146096) / 365)%Z in
  let doy := (doe - (365 * yoe + yoe / 4 - yoe / 100))%Z in
  let mp := ((5 * doy + 2) / 153)%Z in
  let d := (doy - (153 * mp + 2) / 5 + 1)%Z in
  let m := if (mp <? 10)%Z then (mp + 3)%Z else (mp - 9)%Z in
  let y := (yoe + era * 400 + (if (m <=? 2)%Z then 1 else 0))%Z in
  (y, m, d).

Definition year_text (y : Z) : jsstring :=
  if ((0 <=? y) && (y <=? 9999))%Z then pad 4 y
  else if (y <? 0)%Z then str "-" ++ pad 6 (- y)
  else str "+" ++ pad 6 y.

Definition toISOString (ms : Z) : jsstring :=
  let '(y, m, d) := civil_from_days (ms / 86400000) in
  let t := (ms mod 86400000)%Z in
  year_text y ++ str "-" ++ pad 2 m ++ str "-" ++ pad 2 d ++ str "T"
    ++ pad 2 (t / 3600000) ++ str ":" ++ pad 2 (t / 60000 mod 60) ++ str ":"
    ++ pad 2 (t / 1000 mod 60) ++ str "." ++ pad 3 (t mod 1000) ++ str "Z".

(** [v.toString(16)] for an integer [v]. *)
Definition hex_digit (d : Z) : N :=
  if (d <? 10)%Z then Z.to_N (48 + d) else Z.to_N (87 + d).

Fixpoint hex_digits (fuel : nat) (v : Z) (acc : jsstring) : jsstring :=
  match fuel with
  | O => acc
  | S fuel' =>
      if (v <? 16)%Z then hex_digit v :: acc
      else hex_digits fuel' (v / 16) (hex_digit (v mod 16) :: acc)
  end.

Definition toString16 (v : Z) : jsstring :=
  if (v <? 0)%Z then str "-" ++ hex_digits 64 (- v) []
  else hex_digits 64 v [].

(** ** JSON values *)

Inductive JSON : Type :=
| JNull
| JBool (b : bool)
| JNumber (x : float)
| JString (s : jsstring)
| JArray (items : list JSON)
| JObject (members : list (jsstring * JSON)).

(** Property access [o[k]]; [None] is [undefined]. *)
Fixpoint get (k : jsstring) (members : list (jsstring * JSON)) : option JSON :=
  match members with
  | [] => None
  | (k', v) :: rest => if jsstring_eqb k k' then Some v else get k rest
  end.

(** ToBoolean. *)
Definition truthy (v : option JSON) : bool :=
  match v with
  | None | Some JNull => false
  | Some (JBool b) => b
  | Some (JNumber x) => negb (x =? 0)%float && negb (Number_isNaN x)
  | Some (JString s) => match s with [] => false | _ => true end
  | Some (JArray _) | Some (JObject _) => true
  end.

Definition truthy_string (s : option jsstring) : bool :=
  match s with Some (_ :: _) => true | _ => false end.

(** What [JSON.stringify] writes of a value: a number that is not finite
    is written [null], a negative zero is written [0], everything else as
    it is ([undefined] members are left out where the object is built). *)
Definition written_number (x : float) : JSON :=
  match Prim2SF x with
  | S754_zero _ => JNumber 0
  | S754_finite _ _ _ => JNumber x
  | _ => JNull
  end.

Fixpoint as_written (v : JSON) : JSON :=
  match v with
  | JNumber x => written_number x
  | JArray items => JArray (map as_written items)
  | JObject members =>
      JObject (map (fun kv => (fst kv, as_written (snd kv))) members)
  | _ => v
  end.

End JS.
Import JS.


(* ================================================================== *)
(** * The part of the zod validation library the schemas use *)
(* ================================================================== *)

Module Zod.

Inductive ZodIssueCode : Type :=
| invalid_type | invalid_literal | invalid_union | invalid_enum_value
| too_small | too_big | custom.

Inductive PathElem : Type := Key (k : jsstring) | Index (i : nat).

Record ZodIssue : Type := mkIssue {
  code : ZodIssueCode;
  path : list PathElem;
  message : jsstring
}.

(** The status of a parse: OK, DIRTY (a value together with issues) or
    INVALID (aborted). *)
Inductive ParseResult (A : Type) : Type :=
| Valid (a : A)
| Dirty (a : A) (issues : list ZodIssue)
| Aborted (issues : list ZodIssue).
Arguments Valid {A} a.
Arguments Dirty {A} a issues.
Arguments Aborted {A} issues.

Definition issues_of {A} (r : ParseResult A) : list ZodIssue :=
  match r with
  | Valid _ => []
  | Dirty _ i | Aborted i => i
  end.

Definition with_issues {A} (a : A) (i : list ZodIssue) : ParseResult A :=
  match i with
  | [] => Valid a
  | _ => Dirty a i
  end.

Definition fmap {A B} (f : A -> B) (r : ParseResult A) : ParseResult B :=
  match r with
  | Valid a => Valid (f a)
  | Dirty a i => Dirty (f a) i
  | Aborted i => Aborted i
  end.

(** Merging the results of the members of an object (or of an array): the
    issues are kept in order, one aborted member aborts the whole. *)
Definition ap {A B} (f : ParseResult (A -> B)) (x : ParseResult A)
  : ParseResult B :=
  match f, x with
  | Valid g, Valid a => Valid (g a)
  | Valid g, Dirty a j => Dirty (g a) j
  | Dirty g i, Valid a => Dirty (g a) i
  | Dirty g i, Dirty a j => Dirty (g a) (i ++ j)
  | Aborted i, _ => Aborted (i ++ issues_of x)
  | _, Aborted j => Aborted (issues_of f ++ j)
  end.

(** A schema reads the input found at a path; [None] is [undefined]. *)
Definition Schema (A : Type) : Type :=
  list PathElem -> option JSON -> ParseResult A.

Inductive SafeParseReturnType (A : Type) : Type :=
| Success (data : A)
| Failure (issues : list ZodIssue).
Arguments Success {A} data.
Arguments Failure {A} issues.

Definition safeParse {A} (schema : Schema A) (input : option JSON)
  : SafeParseReturnType A :=
  match schema [] input with
  | Valid a => Success a
  | Dirty _ i | Aborted i => Failure i
  end.

(** [getParsedType]. *)
Definition getParsedType (input : option JSON) : jsstring :=
  match input with
  | None => str "undefined"
  | Some JNull => str "null"
  | Some (JBool _) => str "boolean"
  | Some (JNumber x) => if Number_isNaN x then str "nan" else str "number"
  | Some (JString _) => str "string"
  | Some (JArray _) => str "array"
  | Some (JObject _) => str "object"
  end.

(** The default (English) error map. *)
Definition invalid_type_issue (p : list PathElem) (expected : jsstring)
  (input : option JSON) : ZodIssue :=
  mkIssue invalid_type p
    match input with
    | None => str "Required"
    | _ => str "Expected " ++ expected ++ str ", received " ++ getParsedType input
    end.

Definition joinValues (values : list jsstring) : jsstring :=
  join (str " | ") (map (fun v => str "'" ++ v ++ str "'") values).

Definition message_or (custom_message : option jsstring) (default : jsstring)
  : jsstring :=
  match custom_message with
  | Some m => m
  | None => default
  end.

(** [z.string()] with its [.min(n, message?)] and [.max(n, message?)] checks. *)
Inductive StringCheck : Type :=
| SMin (n : Z) (msg : option jsstring)
| SMax (n : Z) (msg : option jsstring).

Definition string_check (p : list PathElem) (s : jsstring) (c : StringCheck)
  : list ZodIssue :=
  match c with
  | SMin n msg =>
      if (Z.of_nat (List.length s) <? n)%Z then
        [mkIssue too_small p (message_or msg
           (str "String must contain at least " ++ Z_toString n
              ++ str " character(s)"))]
      else []
  | SMax n msg =>
      if (n <? Z.of_nat (List.length s))%Z then
        [mkIssue too_big p (message_or msg
           (str "String must contain at most " ++ Z_toString n
              ++ str " character(s)"))]
      else []
  end.

Definition z_string (checks : list StringCheck) : Schema jsstring :=
  fun p input =>
    match input with
    | Some (JString s) => with_issues s (flat_map (string_check p s) checks)
    | _ => Aborted [invalid_type_issue p (str "string") input]
    end.

(** [z.number()] with [.int()], [.min(n)] and [.max(n)]; the bounds of all
    schemas here are integers. *)
Inductive NumberCheck : Type :=
| NInt
| NMin (n : Z)
| NMax (n : Z).

Definition number_check (p : list PathElem) (x : float) (c : NumberCheck)
  : list ZodIssue :=
  match c with
  | NInt =>
      if Number_isInteger x then []
      else [mkIssue invalid_type p (str "Expected integer, received float")]
  | NMin n =>
      if (x <? Number_of_Z n)%float then
        [mkIssue too_small p
           (str "Number must be greater than or equal to " ++ Z_toString n)]
      else []
  | NMax n =>
      if (Number_of_Z n <? x)%float then
        [mkIssue too_big p
           (str "Number must be less than or equal to " ++ Z_toString n)]
      else []
  end.

Definition z_number (checks : list NumberCheck) : Schema float :=
  fun p input =>
    match input with
    | Some (JNumber x) =>
        if Number_isNaN x then Aborted [invalid_type_issue p (str "number") input]
        else with_issues x (flat_map (number_check p x) checks)
    | _ => Aborted [invalid_type_issue p (str "number") input]
    end.

Definition z_null : Schema unit :=
  fun p input =>
    match input with
    | Some JNull => Valid tt
    | _ => Aborted [invalid_type_issue p (str "null") input]
    end.

Definition z_unknown : Schema (option JSON) :=
  fun _ input => Valid input.

(** [z.literal(v)] for a string [v]; the message quotes [v] as JSON. *)
Definition z_literal (v : jsstring) : Schema jsstring :=
  fun p input =>
    match input with
    | Some (JString s) =>
        if jsstring_eqb s v then Valid s
        else Aborted [mkIssue invalid_literal p
               (str "Invalid literal value, expected " ++ [34%N] ++ v ++ [34%N])]
    | _ => Aborted [mkIssue invalid_literal p
               (str "Invalid literal value, expected " ++ [34%N] ++ v ++ [34%N])]
    end.

(** [z.enum(values)]; each value is paired with its meaning at the result
    type. *)
Fixpoint enum_lookup {A} (s : jsstring) (values : list (jsstring * A))
  : option A :=
  match values with
  | [] => None
  | (v, a) :: rest => if jsstring_eqb s v then Some a else enum_lookup s rest
  end.

Definition z_enum {A} (values : list (jsstring * A)) : Schema A :=
  fun p input =>
    match input with
    | Some (JString s) =>
        match enum_lookup s values with
        | Some a => Valid a
        | None => Aborted [mkIssue invalid_enum_value p
               (str "Invalid enum value. Expected " ++ joinValues (map fst values)
                  ++ str ", received '" ++ s ++ str "'")]
        end
    | _ => Aborted [invalid_type_issue p (joinValues (map fst values)) input]
    end.

(** [z.array(item)]. *)
Fixpoint parse_items {A} (item : Schema A) (p : list PathElem) (i : nat)
  (xs : list JSON) : ParseResult (list A) :=
  match xs with
  | [] => Valid []
  | x :: xs' =>
      ap (fmap cons (item (p ++ [Index i]) (Some x)))
         (parse_items item p (S i) xs')
  end.

Definition z_array {A} (item : Schema A) : Schema (list A) :=
  fun p input =>
    match input with
    | Some (JArray xs) => parse_items item p 0 xs
    | _ => Aborted [invalid_type_issue p (str "array") input]
    end.

(** [z.record(z.unknown())]. *)
Definition z_record_unknown : Schema (list (jsstring * JSON)) :=
  fun p input =>
    match input with
    | Some (JObject members) => Valid members
    | _ => Aborted [invalid_type_issue p (str "object") input]
    end.

(** [schema.optional()]. *)
Definition z_optional {A} (schema : Schema A) : Schema (option A) :=
  fun p input =>
    match input with
    | None => Valid None
    | _ => fmap Some (schema p input)
    end.

(** [inner.default(d)]: an [undefined] input is replaced by [d] before
    [inner] runs, so the result is never [undefined]; [d'] is [d] at the
    result type. *)
Definition z_default {A} (inner : Schema (option A)) (d : JSON) (d' : A)
  : Schema A :=
  fun p input =>
    fmap (fun o => match o with Some a => a | None => d' end)
      (inner p (match input with None => Some d | _ => input end)).

(** [z.union(options)]: the first valid option wins; failing that the
    first dirty one; otherwise one [invalid_union] issue. *)
Fixpoint first_valid {A} (results : list (ParseResult A)) : option A :=
  match results with
  | [] => None
  | Valid a :: _ => Some a
  | _ :: rest => first_valid rest
  end.

Fixpoint first_dirty {A} (results : list (ParseResult A))
  : option (A * list ZodIssue) :=
  match results with
  | [] => None
  | Dirty a i :: _ => Some (a, i)
  | _ :: rest => first_dirty rest
  end.

Definition z_union {A} (options : list (Schema A)) : Schema A :=
  fun p input =>
    let results := map (fun o => o p input) options in
    match first_valid results with
    | Some a => Valid a
    | None =>
        match first_dirty results with
        | Some (a, i) => Dirty a i
        | None => Aborted [mkIssue invalid_union p (str "Invalid input")]
        end
    end.

(** [z.object(shape)]: the input must be a plain object; [shape] parses
    the members it names (unknown keys are stripped). *)
Definition z_object {A}
  (shape : list PathElem -> list (jsstring * JSON) -> ParseResult A)
  : Schema A :=
  fun p input =>
    match input with
    | Some (JObject members) => shape p members
    | _ => Aborted [invalid_type_issue p (str "object") input]
    end.

Definition prop {A} (p : list PathElem) (members : list (jsstring * JSON))
  (key : jsstring) (schema : Schema A) : ParseResult A :=
  schema (p ++ [Key key]) (get key members).

(** [schema.refine(check, {message})]: skipped when [schema] aborted. *)
Definition refine {A} (schema : Schema A) (check : A -> bool) (msg : jsstring)
  : Schema A :=
  fun p input =>
    match schema p input with
    | Valid a => if check a then Valid a else Dirty a [mkIssue custom p msg]
    | Dirty a i => if check a then Dirty a i else Dirty a (i ++ [mkIssue custom p msg])
    | Aborted i => Aborted i
    end.

End Zod.
Import Zod.

Notation "f <$> x" := (fmap f x) (at level 61, left associativity).
Notation "f <*> x" := (ap f x) (at level 61, left associativity).

(* ================================================================== *)
(** * types/mcp.ts *)
(* ================================================================== *)

Module Types.

(** [string | number | null]. *)
Inductive RequestId : Type :=
| IdString (s : jsstring)
| IdNumber (x : float)
| IdNull.

Record JsonRpcRequest : Type := mkRequest {
  jsonrpc : jsstring;
  id : option RequestId;                       (* absent for notifications *)
  method : jsstring;
  params : option (list (jsstring * JSON))
}.

Definition JsonRpcRequestSchema : Schema JsonRpcRequest :=
  z_object (fun p o =>
    mkRequest
      <$> prop p o (str "jsonrpc") (z_literal (str "2.0"))
      <*> prop p o (str "id")
            (z_optional (z_union [
               (fun p i => IdString <$> z_string [] p i);
               (fun p i => IdNumber <$> z_number [] p i);
               (fun p i => (fun _ => IdNull) <$> z_null p i)]))
      <*> prop p o (str "method") (z_string [])
      <*> prop p o (str "params") (z_optional z_record_unknown)).

(** Text produced at run time: literal characters, the JSON text that
    denotes the value [v] ([Stringified v], for a [v] as JSON writes it),
    the [message] of a [ZodError] (the JSON dump of its issues), and
    concatenations of these. *)
Inductive Text : Type :=
| Plain (s : jsstring)
| Stringified (v : JSON)
| ZodErrorMessage (issues : list ZodIssue)
| Concat (a b : Text).

(** [JSON.stringify(v)]: the text that denotes what is written of [v].
    The handlers use it where a number comes from the caller, from the
    store or from arithmetic on such numbers; where the numbers are
    lengths, counts or readings of the clock, which are finite, the text
    is given as [Stringified v] at once. *)
Definition JSON_stringify (v : JSON) : Text := Stringified (as_written v).

Inductive ContentType : Type := text_type | image_type | resource_type.

Record McpContent : Type := mkContent {
  type : ContentType;
  text : option Text;
  data : option jsstring;
  mimeType : option jsstring
}.

Record McpToolResult : Type := mkToolResult {
  content : list McpContent;
  isError : option bool
}.

Record McpTool : Type := mkTool {
  name : jsstring;
  description : jsstring;
  inputSchema : JSON
}.

Record McpServerInfo : Type := mkServerInfo {
  server_name : jsstring;
  server_version : jsstring
}.

Record McpInitializeResult : Type := mkInitializeResult {
  protocolVersion : jsstring;
  capabilities_tools_listChanged : bool;   (* capabilities.tools.listChanged *)
  serverInfo : McpServerInfo
}.

(** The values that flow into [result] and [error.data] (both [unknown]
    in the source). *)
Inductive ResultValue : Type :=
| InitializeResult (r : McpInitializeResult)
| ToolsListResult (tools : list McpTool)
| ToolCallResult (r : McpToolResult)
| EmptyObject.

Inductive ErrorData : Type :=
| DataString (s : jsstring)
| DataIssues (issues : list ZodIssue).

Record JsonRpcError : Type := mkError {
  error_code : Z;
  error_message : jsstring;
  error_data : option ErrorData
}.

(** [response_id] is [None] when the [id] key holds [undefined]. *)
Record JsonRpcResponse : Type := mkResponse {
  response_jsonrpc : jsstring;
  response_id : option RequestId;
  result : option ResultValue;
  error : option JsonRpcError
}.

(** The envelope as [JSON.stringify] writes it: the numbers that can be
    other than finite are the [id] and those of the tools' input schemas
    (texts, codes and issues are written as they are). *)
Definition written_id (id : RequestId) : RequestId :=
  match id with
  | IdNumber x =>
      match written_number x with
      | JNumber y => IdNumber y
      | _ => IdNull
      end
  | _ => id
  end.

Definition written_tool (t : McpTool) : McpTool :=
  mkTool (name t) (description t) (as_written (inputSchema t)).

Definition written_result (r : ResultValue) : ResultValue :=
  match r with
  | ToolsListResult tools => ToolsListResult (map written_tool tools)
  | _ => r
  end.

Definition written (r : JsonRpcResponse) : JsonRpcResponse :=
  mkResponse (response_jsonrpc r) (option_map written_id (response_id r))
    (option_map written_result (result r)) (error r).

Module ErrorCodes.
Definition PARSE_ERROR : Z := -32700.
Definition INVALID_REQUEST : Z := -32600.
Definition METHOD_NOT_FOUND : Z := -32601.
Definition INVALID_PARAMS : Z := -32602.
Definition INTERNAL_ERROR : Z := -32603.
End ErrorCodes.

Module McpMethods.
Definition INITIALIZE : jsstring := str "initialize".
Definition TOOLS_LIST : jsstring := str "tools/list".
Definition TOOLS_CALL : jsstring := str "tools/call".
Definition PING : jsstring := str "ping".
End McpMethods.

(** What can be thrown: [InvalidParamsError] (types/mcp.ts),
    [SupabaseConfigError] (lib/supabase.ts), any other [Error], or a value
    that is not an [Error]. *)
Inductive Exception : Type :=
| InvalidParamsError (msg : jsstring)
| SupabaseConfigError (msg : jsstring)
| OtherError (msg : jsstring)
| NonError.

Definition exception_message (e : Exception) : option jsstring :=
  match e with
  | InvalidParamsError m | SupabaseConfigError m | OtherError m => Some m
  | NonError => None
  end.

End Types.
Import Types.

(* ================================================================== *)
(** * The world around the handlers: clock, random source, environment,
      the Supabase client of lib/supabase.ts and the remote store *)
(* ================================================================== *)

Module Supabase.

(** A query as the client's builder assembles it: the operation on a
    table followed by the chained calls, in call order. *)
Inductive Operation : Type :=
| Insert (row : list (jsstring * JSON))
| Select (columns : jsstring) (count_exact : bool)
| Update (values : list (jsstring * JSON))
| Delete.

Inductive Modifier : Type :=
| Eq (column : jsstring) (value : jsstring)
| Ilike (column : jsstring) (pattern : jsstring)
| Order (column : jsstring) (ascending : bool) (nullsFirst : option bool)
| Limit (count : float)
| Range (from to : float)
| Returning (columns : jsstring)        (* [.select(columns)] after a write *)
| Single.

Record Query : Type := mkQuery {
  table : jsstring;
  operation : Operation;
  modifiers : list Modifier
}.

Definition from (t : jsstring) (op : Operation) : Query := mkQuery t op [].

Definition chain (q : Query) (m : Modifier) : Query :=
  mkQuery (table q) (operation q) (modifiers q ++ [m]).

(** What awaiting a query yields: [{ data, error, count }]. *)
Record PostgrestResponse : Type := mkPostgrestResponse {
  response_data : JSON;                       (* [JNull] when there is none *)
  response_error : option jsstring;           (* [error.message] *)
  response_count : option float
}.

Record SupabaseClient : Type := mkClient {
  client_url : jsstring;
  client_key : jsstring
}.

Record World : Type := mkWorld {
  clock : nat -> Z;            (* the successive readings of the clock, in ms *)
  clock_reads : nat;
  random : nat -> float;       (* the successive results of Math.random() *)
  random_draws : nat;
  SUPABASE_URL : option jsstring;             (* process.env *)
  SUPABASE_ANON_KEY : option jsstring;
  supabaseInstance : option SupabaseClient;   (* the module-level singleton *)
  remote : list Query -> Query -> Exception + PostgrestResponse;
                               (* the store's answer, given the history *)
  sent : list Query;           (* the queries sent so far, oldest first *)
  createClient : jsstring -> jsstring -> Exception + SupabaseClient
                               (* the library's [createClient(url, key, ...)]:
                                  it throws on a URL it cannot use *)
}.

Inductive Outcome (A : Type) : Type :=
| Return (a : A)
| Throw (e : Exception).
Arguments Return {A} a.
Arguments Throw {A} e.

(** A computation: it returns or throws, and leaves a world behind. *)
Definition Eff (A : Type) : Type := World -> Outcome A * World.

Definition ret {A} (a : A) : Eff A := fun w => (Return a, w).

Definition throw {A} (e : Exception) : Eff A := fun w => (Throw e, w).

Definition bind {A B} (m : Eff A) (k : A -> Eff B) : Eff B :=
  fun w =>
    match m w with
    | (Return a, w') => k a w'
    | (Throw e, w') => (Throw e, w')
    end.

Definition try_catch {A} (body : Eff A) (handler : Exception -> Eff A) : Eff A :=
  fun w =>
    match body w with
    | (Return a, w') => (Return a, w')
    | (Throw e, w') => handler e w'
    end.

(** [Date.now()] and [new Date()]: one reading of the clock. *)
Definition Date_now : Eff Z :=
  fun w =>
    (Return (clock w (clock_reads w)),
     mkWorld (clock w) (S (clock_reads w)) (random w) (random_draws w)
       (SUPABASE_URL w) (SUPABASE_ANON_KEY w) (supabaseInstance w)
       (remote w) (sent w) (createClient w)).

Definition Math_random : Eff float :=
  fun w =>
    (Return (random w (random_draws w)),
     mkWorld (clock w) (clock_reads w) (random w) (S (random_draws w))
       (SUPABASE_URL w) (SUPABASE_ANON_KEY w) (supabaseInstance w)
       (remote w) (sent w) (createClient w)).

(** [await query]: the query goes out and the store answers. *)
Definition await (q : Query) : Eff PostgrestResponse :=
  fun w =>
    let w' := mkWorld (clock w) (clock_reads w) (random w) (random_draws w)
                (SUPABASE_URL w) (SUPABASE_ANON_KEY w) (supabaseInstance w)
                (remote w) (sent w ++ [q]) (createClient w) in
    match remote w (sent w) q with
    | inl e => (Throw e, w')
    | inr r => (Return r, w')
    end.

(** lib/supabase.ts.  Whatever [createClient] throws goes through. *)
Definition getSupabaseClient : Eff SupabaseClient :=
  fun w =>
    match supabaseInstance w with
    | Some client => (Return client, w)
    | None =>
        if negb (truthy_string (SUPABASE_URL w)) then
          (Throw (SupabaseConfigError (str
             "Missing SUPABASE_URL environment variable. Please set it to your Supabase project URL.")), w)
        else if negb (truthy_string (SUPABASE_ANON_KEY w)) then
          (Throw (SupabaseConfigError (str
             "Missing SUPABASE_ANON_KEY environment variable. Please set it to your Supabase anon/public key.")), w)
        else
          match createClient w
                  (match SUPABASE_URL w with Some u => u | None => [] end)
                  (match SUPABASE_ANON_KEY w with Some k => k | None => [] end)
          with
          | inl e => (Throw e, w)
          | inr client =>
              (Return client,
               mkWorld (clock w) (clock_reads w) (random w) (random_draws w)
                 (SUPABASE_URL w) (SUPABASE_ANON_KEY w) (Some client)
                 (remote w) (sent w) (createClient w))
          end
    end.

Definition resetSupabaseClient : Eff unit :=
  fun w =>
    (Return tt,
     mkWorld (clock w) (clock_reads w) (random w) (random_draws w)
       (SUPABASE_URL w) (SUPABASE_ANON_KEY w) None (remote w) (sent w)
       (createClient w)).

End Supabase.
Import Supabase.

Notation "x <- m ;; k" := (bind m (fun x => k))
  (at level 62, m at next level, right associativity).

(* ================================================================== *)
(** * tools/index.ts: the utility tools and their router *)
(* ================================================================== *)

Module Tools.

Definition member (k : string) (v : JSON) : jsstring * JSON := (str k, v).
Arguments member k%_string v.

Definition jstr (s : string) : JSON := JString (str s).
Arguments jstr s%_string.

Definition text_content (t : Text) : McpContent :=
  mkContent text_type (Some t) None None.

(** The parsed data of the one-member objects is their [text] member. *)
Definition EchoInputSchema : Schema jsstring :=
  z_object (fun p o =>
    prop p o (str "text") (z_string [SMin 1 None; SMax 10000 None])).

Inductive Operation : Type := add | subtract | multiply | divide.

Definition operation_name (op : Operation) : jsstring :=
  match op with
  | add => str "add"
  | subtract => str "subtract"
  | multiply => str "multiply"
  | divide => str "divide"
  end.

Record CalculateInput : Type := mkCalculateInput {
  operation : Operation;
  a : float;
  b : float
}.

Definition CalculateInputSchema : Schema CalculateInput :=
  z_object (fun p o =>
    mkCalculateInput
      <$> prop p o (str "operation")
            (z_enum [(str "add", add); (str "subtract", subtract);
                     (str "multiply", multiply); (str "divide", divide)])
      <*> prop p o (str "a") (z_number [])
      <*> prop p o (str "b") (z_number [])).

Definition TextStatsInputSchema : Schema jsstring :=
  z_object (fun p o =>
    prop p o (str "text") (z_string [SMin 1 None; SMax 50000 None])).

(** The definitions served by [tools/list]. *)
Definition toolDefinitions : list McpTool := [
  mkTool (str "echo")
    (str "Returns the input text back. Useful for testing connectivity.")
    (JObject [
      member "type" (jstr "object");
      member "properties" (JObject [
          member "text" (JObject [
              member "type" (jstr "string");
              member "description" (jstr "The text to echo back");
              member "minLength" (JNumber 1);
              member "maxLength" (JNumber 10000)])]);
      member "required" (JArray [jstr "text"])]);
  mkTool (str "get_current_time")
    (str "Returns the current UTC timestamp in ISO 8601 format.")
    (JObject [
      member "type" (jstr "object");
      member "properties" (JObject []);
      member "required" (JArray [])]);
  mkTool (str "calculate")
    (str "Performs basic arithmetic operations: add, subtract, multiply, divide.")
    (JObject [
      member "type" (jstr "object");
      member "properties" (JObject [
          member "operation" (JObject [
              member "type" (jstr "string");
              member "enum" (JArray [
                  jstr "add";
                  jstr "subtract";
                  jstr "multiply";
                  jstr "divide"]);
              member "description" (jstr "The arithmetic operation to perform")]);
          member "a" (JObject [
              member "type" (jstr "number");
              member "description" (jstr "First operand")]);
          member "b" (JObject [
              member "type" (jstr "number");
              member "description" (jstr "Second operand")])]);
      member "required" (JArray [jstr "operation"; jstr "a"; jstr "b"])]);
  mkTool (str "generate_uuid")
    (str "Generates a random UUID v4.")
    (JObject [
      member "type" (jstr "object");
      member "properties" (JObject []);
      member "required" (JArray [])]);
  mkTool (str "text_stats")
    (str "Analyzes text and returns statistics: character count, word count, sentence count, and average word length.")
    (JObject [
      member "type" (jstr "object");
      member "properties" (JObject [
          member "text" (JObject [
              member "type" (jstr "string");
              member "description" (jstr "The text to analyze");
              member "minLength" (JNumber 1);
              member "maxLength" (JNumber 50000)])]);
      member "required" (JArray [jstr "text"])])
].

Definition invalid_input (issues : list ZodIssue) : McpToolResult :=
  mkToolResult
    [text_content (Concat (Plain (str "Invalid input: ")) (ZodErrorMessage issues))]
    (Some true).

Definition echo (args : option JSON) : McpToolResult :=
  match safeParse EchoInputSchema args with
  | Failure issues => invalid_input issues
  | Success text => mkToolResult [text_content (Plain text)] None
  end.

Definition getCurrentTime : Eff McpToolResult :=
  now <- Date_now ;;
  timestamp <- Date_now ;;
  ret (mkToolResult
         [text_content (Stringified (JObject [
            member "utc" (JString (toISOString now));
            member "timestamp" (JNumber (Number_of_Z timestamp))]))]
         None).

Definition calculate (args : option JSON) : McpToolResult :=
  match safeParse CalculateInputSchema args with
  | Failure issues => invalid_input issues
  | Success (mkCalculateInput operation a b) =>
      let answer (result : float) :=
        mkToolResult
          [text_content (JSON_stringify (JObject [
             member "operation" (JString (operation_name operation));
             member "a" (JNumber a);
             member "b" (JNumber b);
             member "result" (JNumber result)]))]
          None in
      match operation with
      | add => answer (a + b)%float
      | subtract => answer (a - b)%float
      | multiply => answer (a * b)%float
      | divide =>
          if (b =? 0)%float then
            mkToolResult [text_content (Plain (str "Error: Division by zero"))]
              (Some true)
          else answer (a / b)%float
      end
  end.

(** ['x' = 120], ['y' = 121]. *)
Definition uuid_template : jsstring := str "xxxxxxxx-xxxx-4xxx-yxxx-xxxxxxxxxxxx".

Definition uuid_digit (c : N) (rnd : float) : jsstring :=
  let r := ToInt32 (rnd * 16)%float in
  let v := if (c =? 120)%N then r else Z.lor (Z.land r 3) 8 in
  toString16 v.

(** [template.replace(/[xy]/g, c => ...)], left to right. *)
Fixpoint replace_xy (template : jsstring) : Eff jsstring :=
  match template with
  | [] => ret []
  | c :: rest =>
      if ((c =? 120) || (c =? 121))%N then
        rnd <- Math_random ;;
        tail <- replace_xy rest ;;
        ret (uuid_digit c rnd ++ tail)
      else
        tail <- replace_xy rest ;;
        ret (c :: tail)
  end.

Definition generateUuid : Eff McpToolResult :=
  uuid <- replace_xy uuid_template ;;
  ret (mkToolResult
         [text_content (Stringified (JObject [member "uuid" (JString uuid)]))]
         None).

(** ['.' = 46], ['!' = 33], ['?' = 63]. *)
Definition is_sentence_end (c : N) : bool :=
  ((c =? 46) || (c =? 33) || (c =? 63))%N.

Definition nonempty (s : jsstring) : bool := Nat.ltb 0 (List.length s).

Definition total_length (words : list jsstring) : nat :=
  fold_left (fun sum w => sum + List.length w) words 0.

Definition number_of_nat (n : nat) : float := Number_of_Z (Z.of_nat n).

(** Lengths and counts are small non-negative integers and are computed
    as such; they become doubles where the source divides. *)
Definition textStats (args : option JSON) : McpToolResult :=
  match safeParse TextStatsInputSchema args with
  | Failure issues => invalid_input issues
  | Success text =>
      let characters := List.length text in
      let words := filter nonempty (split_class is_white_space (trim text)) in
      let wordCount := List.length words in
      let sentences :=
        List.length (filter (fun s => nonempty (trim s))
                       (split_class is_sentence_end text)) in
      let averageWordLength :=
        if Nat.ltb 0 wordCount then
          parseFloat_toFixed2
            (number_of_nat (total_length words) / number_of_nat wordCount)%float
        else 0%float in
      mkToolResult
        [text_content (Stringified (JObject [
           member "characters" (JNumber (number_of_nat characters));
           member "words" (JNumber (number_of_nat wordCount));
           member "sentences" (JNumber (number_of_nat sentences));
           member "averageWordLength" (JNumber averageWordLength)]))]
        None
  end.

Definition executeTool (name : jsstring) (args : option JSON) : Eff McpToolResult :=
  if jsstring_eqb name (str "echo") then ret (echo args)
  else if jsstring_eqb name (str "get_current_time") then getCurrentTime
  else if jsstring_eqb name (str "calculate") then ret (calculate args)
  else if jsstring_eqb name (str "generate_uuid") then generateUuid
  else if jsstring_eqb name (str "text_stats") then ret (textStats args)
  else ret (mkToolResult
              [text_content (Plain (str "Unknown tool: " ++ name))]
              (Some true)).

End Tools.

(* ================================================================== *)
(** * types/memory.ts and tools/memory.ts: the storage-backed tools *)
(* ================================================================== *)

Module Memory.
Import Tools.

Inductive MemoryType : Type := preference | profile | task | note | fact.

Definition memory_type_name (t : MemoryType) : jsstring :=
  match t with
  | preference => str "preference"
  | profile => str "profile"
  | task => str "task"
  | note => str "note"
  | fact => str "fact"
  end.

Definition MemoryTypeSchema : Schema MemoryType :=
  z_enum [(str "preference", preference); (str "profile", profile);
          (str "task", task); (str "note", note); (str "fact", fact)].

Record MemorySaveInput : Type := mkMemorySaveInput {
  save_userId : jsstring;
  save_content : jsstring;
  save_type : MemoryType;
  save_tags : option (list jsstring);
  save_importance : float;
  save_sessionId : option jsstring
}.

Definition MemorySaveInputSchema : Schema MemorySaveInput :=
  z_object (fun p o =>
    mkMemorySaveInput
      <$> prop p o (str "userId") (z_string [SMin 1 (Some (str "userId is required"))])
      <*> prop p o (str "content")
            (z_string [SMin 1 (Some (str "content is required"));
                       SMax 50000 (Some (str "content too long"))])
      <*> prop p o (str "type")
            (z_default (z_optional MemoryTypeSchema) (jstr "note") note)
      <*> prop p o (str "tags") (z_optional (z_array (z_string [])))
      <*> prop p o (str "importance")
            (z_default (z_optional (z_number [NInt; NMin (-10); NMax 10]))
               (JNumber 0) 0%float)
      <*> prop p o (str "sessionId") (z_optional (z_string []))).

Record MemorySearchInput : Type := mkMemorySearchInput {
  search_userId : jsstring;
  search_query : jsstring;
  search_limit : float;
  search_type : option MemoryType;
  search_sessionId : option jsstring
}.

Definition MemorySearchInputSchema : Schema MemorySearchInput :=
  z_object (fun p o =>
    mkMemorySearchInput
      <$> prop p o (str "userId") (z_string [SMin 1 (Some (str "userId is required"))])
      <*> prop p o (str "query")
            (z_string [SMin 1 (Some (str "query is required"));
                       SMax 1000 (Some (str "query too long"))])
      <*> prop p o (str "limit")
            (z_default (z_optional (z_number [NInt; NMin 1; NMax 100]))
               (JNumber 10) 10%float)
      <*> prop p o (str "type") (z_optional MemoryTypeSchema)
      <*> prop p o (str "sessionId") (z_optional (z_string []))).

Record MemoryForgetInput : Type := mkMemoryForgetInput {
  forget_userId : jsstring;
  forget_id : option jsstring;
  forget_contentMatch : option jsstring
}.

Definition MemoryForgetInputSchema : Schema MemoryForgetInput :=
  refine
    (z_object (fun p o =>
       mkMemoryForgetInput
         <$> prop p o (str "userId") (z_string [SMin 1 (Some (str "userId is required"))])
         <*> prop p o (str "id") (z_optional (z_string []))
         <*> prop p o (str "contentMatch") (z_optional (z_string []))))
    (fun data => truthy_string (forget_id data)
                 || truthy_string (forget_contentMatch data))
    (str "Either id or contentMatch must be provided").

Record MemoryListInput : Type := mkMemoryListInput {
  list_userId : jsstring;
  list_type : option MemoryType;
  list_limit : float;
  list_offset : float
}.

Definition MemoryListInputSchema : Schema MemoryListInput :=
  z_object (fun p o =>
    mkMemoryListInput
      <$> prop p o (str "userId") (z_string [SMin 1 (Some (str "userId is required"))])
      <*> prop p o (str "type") (z_optional MemoryTypeSchema)
      <*> prop p o (str "limit")
            (z_default (z_optional (z_number [NInt; NMin 1; NMax 100]))
               (JNumber 20) 20%float)
      <*> prop p o (str "offset")
            (z_default (z_optional (z_number [NInt; NMin 0]))
               (JNumber 0) 0%float)).

Record MemoryUpdateInput : Type := mkMemoryUpdateInput {
  update_userId : jsstring;
  update_id : jsstring;
  update_content : option jsstring;
  update_type : option MemoryType;
  update_tags : option (list jsstring);
  update_importance : option float
}.

Definition MemoryUpdateInputSchema : Schema MemoryUpdateInput :=
  z_object (fun p o =>
    mkMemoryUpdateInput
      <$> prop p o (str "userId") (z_string [SMin 1 (Some (str "userId is required"))])
      <*> prop p o (str "id") (z_string [SMin 1 (Some (str "id is required"))])
      <*> prop p o (str "content") (z_optional (z_string [SMin 1 None; SMax 50000 None]))
      <*> prop p o (str "type") (z_optional MemoryTypeSchema)
      <*> prop p o (str "tags") (z_optional (z_array (z_string [])))
      <*> prop p o (str "importance")
            (z_optional (z_number [NInt; NMin (-10); NMax 10]))).

(** The definitions of the memory tools. *)
Definition memoryToolDefinitions : list McpTool := [
  mkTool (str "memory_save")
    (str "Save a memory item (fact, preference, note, task, or profile info) for a user. Use this when the user explicitly asks to remember something or expresses stable preferences.")
    (JObject [
      member "type" (jstr "object");
      member "properties" (JObject [
          member "userId" (JObject [
              member "type" (jstr "string");
              member "description" (jstr "Unique identifier for the user")]);
          member "content" (JObject [
              member "type" (jstr "string");
              member "description" (jstr "The memory content to save (concise summary, not raw conversation)");
              member "maxLength" (JNumber 50000)]);
          member "type" (JObject [
              member "type" (jstr "string");
              member "enum" (JArray [
                  jstr "preference";
                  jstr "profile";
                  jstr "task";
                  jstr "note";
                  jstr "fact"]);
              member "description" (JString (str "Category of memory. Defaults to " ++ [34%N] ++ str "note" ++ [34%N] ++ str "."))]);
          member "tags" (JObject [
              member "type" (jstr "array");
              member "items" (JObject [member "type" (jstr "string")]);
              member "description" (jstr "Optional tags for categorization and search")]);
          member "importance" (JObject [
              member "type" (jstr "integer");
              member "description" (jstr "Importance level from -10 to 10. Defaults to 0.");
              member "minimum" (JNumber (-10));
              member "maximum" (JNumber 10)]);
          member "sessionId" (JObject [
              member "type" (jstr "string");
              member "description" (jstr "Optional session identifier for grouping related memories")])]);
      member "required" (JArray [jstr "userId"; jstr "content"])]);
  mkTool (str "memory_search")
    (str "Search for relevant memories for a user. Call this before answering to retrieve context from previous interactions.")
    (JObject [
      member "type" (jstr "object");
      member "properties" (JObject [
          member "userId" (JObject [
              member "type" (jstr "string");
              member "description" (jstr "Unique identifier for the user")]);
          member "query" (JObject [
              member "type" (jstr "string");
              member "description" (jstr "Search query to find relevant memories");
              member "maxLength" (JNumber 1000)]);
          member "limit" (JObject [
              member "type" (jstr "integer");
              member "description" (jstr "Maximum number of results to return. Defaults to 10.");
              member "minimum" (JNumber 1);
              member "maximum" (JNumber 100)]);
          member "type" (JObject [
              member "type" (jstr "string");
              member "enum" (JArray [
                  jstr "preference";
                  jstr "profile";
                  jstr "task";
                  jstr "note";
                  jstr "fact"]);
              member "description" (jstr "Filter by memory type")]);
          member "sessionId" (JObject [
              member "type" (jstr "string");
              member "description" (jstr "Filter by session identifier")])]);
      member "required" (JArray [jstr "userId"; jstr "query"])]);
  mkTool (str "memory_forget")
    (str "Delete one or more memories for a user. Use when the user asks to forget something.")
    (JObject [
      member "type" (jstr "object");
      member "properties" (JObject [
          member "userId" (JObject [
              member "type" (jstr "string");
              member "description" (jstr "Unique identifier for the user")]);
          member "id" (JObject [
              member "type" (jstr "string");
              member "description" (jstr "Specific memory ID to delete")]);
          member "contentMatch" (JObject [
              member "type" (jstr "string");
              member "description" (jstr "Delete memories where content contains this text (case-insensitive)")])]);
      member "required" (JArray [jstr "userId"])]);
  mkTool (str "memory_list")
    (str "List all memories for a user with optional filtering. Useful for inspection and debugging.")
    (JObject [
      member "type" (jstr "object");
      member "properties" (JObject [
          member "userId" (JObject [
              member "type" (jstr "string");
              member "description" (jstr "Unique identifier for the user")]);
          member "type" (JObject [
              member "type" (jstr "string");
              member "enum" (JArray [
                  jstr "preference";
                  jstr "profile";
                  jstr "task";
                  jstr "note";
                  jstr "fact"]);
              member "description" (jstr "Filter by memory type")]);
          member "limit" (JObject [
              member "type" (jstr "integer");
              member "description" (jstr "Maximum number of results. Defaults to 20.");
              member "minimum" (JNumber 1);
              member "maximum" (JNumber 100)]);
          member "offset" (JObject [
              member "type" (jstr "integer");
              member "description" (jstr "Number of results to skip for pagination. Defaults to 0.");
              member "minimum" (JNumber 0)])]);
      member "required" (JArray [jstr "userId"])]);
  mkTool (str "memory_update")
    (str "Update an existing memory record. Only provided fields will be updated.")
    (JObject [
      member "type" (jstr "object");
      member "properties" (JObject [
          member "userId" (JObject [
              member "type" (jstr "string");
              member "description" (jstr "Unique identifier for the user")]);
          member "id" (JObject [
              member "type" (jstr "string");
              member "description" (jstr "ID of the memory to update")]);
          member "content" (JObject [
              member "type" (jstr "string");
              member "description" (jstr "New content for the memory");
              member "maxLength" (JNumber 50000)]);
          member "type" (JObject [
              member "type" (jstr "string");
              member "enum" (JArray [
                  jstr "preference";
                  jstr "profile";
                  jstr "task";
                  jstr "note";
                  jstr "fact"]);
              member "description" (jstr "New type for the memory")]);
          member "tags" (JObject [
              member "type" (jstr "array");
              member "items" (JObject [member "type" (jstr "string")]);
              member "description" (jstr "New tags for the memory")]);
          member "importance" (JObject [
              member "type" (jstr "integer");
              member "description" (jstr "New importance level from -10 to 10");
              member "minimum" (JNumber (-10));
              member "maximum" (JNumber 10)])]);
      member "required" (JArray [jstr "userId"; jstr "id"])])
].

(** Reading a property of a value the store returned: [null.k] throws a
    TypeError, a missing property is [undefined]. *)
Definition property (v : JSON) (k : string) : Outcome (option JSON) :=
  match v with
  | JNull => Throw (OtherError (str "Cannot read properties of null"))
  | JObject members => Return (get (str k) members)
  | _ => Return None
  end.
Arguments property v k%_string.

(** An object member that [JSON.stringify] drops when it is [undefined]. *)
Definition optional_member (k : string) (v : option JSON) : list (jsstring * JSON) :=
  match v with
  | Some x => [member k x]
  | None => []
  end.
Arguments optional_member k%_string v.

Definition toMemoryOutput (record : JSON) : Outcome JSON :=
  match record with
  | JNull => Throw (OtherError (str "Cannot read properties of null"))
  | JObject r =>
      Return (JObject (
        optional_member "id" (get (str "id") r)
        ++ optional_member "userId" (get (str "user_id") r)
        ++ optional_member "sessionId" (get (str "session_id") r)
        ++ optional_member "type" (get (str "type") r)
        ++ optional_member "content" (get (str "content") r)
        ++ optional_member "tags" (get (str "tags") r)
        ++ optional_member "importance" (get (str "importance") r)
        ++ optional_member "createdAt" (get (str "created_at") r)
        ++ optional_member "updatedAt" (get (str "updated_at") r)))
  | _ => Return (JObject [])
  end.

(** [(data as MemoryRecord[]).map(toMemoryOutput)]. *)
Fixpoint map_toMemoryOutput (records : list JSON) : Outcome (list JSON) :=
  match records with
  | [] => Return []
  | r :: rest =>
      match toMemoryOutput r with
      | Throw e => Throw e
      | Return o =>
          match map_toMemoryOutput rest with
          | Throw e => Throw e
          | Return os => Return (o :: os)
          end
      end
  end.

Definition memories_of (data : JSON) : Outcome (list JSON) :=
  match data with
  | JArray records => map_toMemoryOutput records
  | _ => Throw (OtherError (str "data.map is not a function"))
  end.

Definition lift {A} (o : Outcome A) : Eff A := fun w => (o, w).

Definition createErrorResult (message : jsstring) : McpToolResult :=
  mkToolResult
    [text_content (Stringified (JObject [member "error" (JString message)]))]
    (Some true).

Definition json_result (v : JSON) : McpToolResult :=
  mkToolResult [text_content (JSON_stringify v)] None.

Definition validation_message (issues : list ZodIssue) : jsstring :=
  join (str ", ") (map message issues).

(** The [catch (err)] block shared by the five handlers (their
    [console.error] lines write to the log only and are left out). *)
Definition on_failure (unexpected : string) (err : Exception) : Eff McpToolResult :=
  match err with
  | SupabaseConfigError m => ret (createErrorResult m)
  | _ => ret (createErrorResult (str unexpected))
  end.
Arguments on_failure unexpected%_string err.

Definition memorySave (args : option JSON) : Eff McpToolResult :=
  match safeParse MemorySaveInputSchema args with
  | Failure issues => throw (InvalidParamsError (validation_message issues))
  | Success (mkMemorySaveInput userId content type tags importance sessionId) =>
      try_catch
        (supabase <- getSupabaseClient ;;
         r <- await
                (chain (chain
                   (from (str "memories") (Insert [
                      member "user_id" (JString userId);
                      member "content" (JString content);
                      member "type" (JString (memory_type_name type));
                      member "tags" (JArray (map JString
                                       (match tags with Some t => t | None => [] end)));
                      member "importance" (JNumber importance);
                      member "session_id"
                        (if truthy_string sessionId
                         then match sessionId with Some s => JString s | None => JNull end
                         else JNull)]))
                   (Returning (str "id"))) Single) ;;
         match response_error r with
         | Some msg => ret (createErrorResult (str "Failed to save memory: " ++ msg))
         | None =>
             id <- lift (property (response_data r) "id") ;;
             ret (json_result (JObject (optional_member "id" id
                                        ++ [member "saved" (JBool true)])))
         end)
        (on_failure "An unexpected error occurred while saving memory")
  end.

Definition memorySearch (args : option JSON) : Eff McpToolResult :=
  match safeParse MemorySearchInputSchema args with
  | Failure issues => throw (InvalidParamsError (validation_message issues))
  | Success (mkMemorySearchInput userId query limit type sessionId) =>
      try_catch
        (supabase <- getSupabaseClient ;;
         let q0 :=
           chain (chain (chain (chain (chain
             (from (str "memories") (Select (str "*") false))
             (Eq (str "user_id") userId))
             (Ilike (str "content") (str "%" ++ query ++ str "%")))
             (Order (str "importance") false (Some false)))
             (Order (str "created_at") false None))
             (Limit limit) in
         let q1 := match type with
                   | Some t => chain q0 (Eq (str "type") (memory_type_name t))
                   | None => q0
                   end in
         let q2 := match sessionId with
                   | Some (c :: s) => chain q1 (Eq (str "session_id") (c :: s))
                   | _ => q1
                   end in
         r <- await q2 ;;
         match response_error r with
         | Some msg => ret (createErrorResult (str "Failed to search memories: " ++ msg))
         | None =>
             memories <- lift (memories_of (response_data r)) ;;
             ret (json_result (JObject [member "memories" (JArray memories)]))
         end)
        (on_failure "An unexpected error occurred while searching memories")
  end.

(** [data?.length || 0]: the length of an array or of a string, the
    [length] member of an object, and 0 when that is missing or falsy. *)
Definition deleted_count (data : JSON) : JSON :=
  let length :=
    match data with
    | JArray rows => Some (JNumber (number_of_nat (List.length rows)))
    | JString s => Some (JNumber (number_of_nat (List.length s)))
    | JObject members => get (str "length") members
    | _ => None
    end in
  match length with
  | Some v => if truthy length then v else JNumber 0
  | None => JNumber 0
  end.

Definition memoryForget (args : option JSON) : Eff McpToolResult :=
  match safeParse MemoryForgetInputSchema args with
  | Failure issues => throw (InvalidParamsError (validation_message issues))
  | Success (mkMemoryForgetInput userId id contentMatch) =>
      try_catch
        (supabase <- getSupabaseClient ;;
         let q0 := chain (from (str "memories") Delete) (Eq (str "user_id") userId) in
         let q1 := match id, contentMatch with
                   | Some (c :: s), _ => chain q0 (Eq (str "id") (c :: s))
                   | _, Some (c :: s) =>
                       chain q0 (Ilike (str "content") (str "%" ++ (c :: s) ++ str "%"))
                   | _, _ => q0
                   end in
         r <- await (chain q1 (Returning (str "id"))) ;;
         match response_error r with
         | Some msg => ret (createErrorResult (str "Failed to delete memories: " ++ msg))
         | None =>
             ret (json_result (JObject [
                    member "deletedCount" (deleted_count (response_data r))]))
         end)
        (on_failure "An unexpected error occurred while deleting memories")
  end.

Definition memoryList (args : option JSON) : Eff McpToolResult :=
  match safeParse MemoryListInputSchema args with
  | Failure issues => throw (InvalidParamsError (validation_message issues))
  | Success (mkMemoryListInput userId type limit offset) =>
      try_catch
        (supabase <- getSupabaseClient ;;
         let q0 :=
           chain (chain (chain
             (from (str "memories") (Select (str "*") true))
             (Eq (str "user_id") userId))
             (Order (str "created_at") false None))
             (Range offset (offset + limit - 1)%float) in
         let q1 := match type with
                   | Some t => chain q0 (Eq (str "type") (memory_type_name t))
                   | None => q0
                   end in
         r <- await q1 ;;
         match response_error r with
         | Some msg => ret (createErrorResult (str "Failed to list memories: " ++ msg))
         | None =>
             memories <- lift (memories_of (response_data r)) ;;
             ret (json_result (JObject [
                    member "memories" (JArray memories);
                    member "total"
                      (JNumber (if truthy (option_map JNumber (response_count r))
                                then match response_count r with
                                     | Some c => c
                                     | None => 0%float
                                     end
                                else 0%float))]))
         end)
        (on_failure "An unexpected error occurred while listing memories")
  end.

(** The payload of [memoryUpdate]: [updated_at] and the supplied fields. *)
Definition updateData (now : Z) (content : option jsstring)
  (type : option MemoryType) (tags : option (list jsstring))
  (importance : option float) : list (jsstring * JSON) :=
  [member "updated_at" (JString (toISOString now))]
  ++ optional_member "content" (option_map JString content)
  ++ optional_member "type" (option_map (fun t => JString (memory_type_name t)) type)
  ++ optional_member "tags" (option_map (fun t => JArray (map JString t)) tags)
  ++ optional_member "importance" (option_map JNumber importance).

Definition memoryUpdate (args : option JSON) : Eff McpToolResult :=
  match safeParse MemoryUpdateInputSchema args with
  | Failure issues => throw (InvalidParamsError (validation_message issues))
  | Success (mkMemoryUpdateInput userId id content type tags importance) =>
      try_catch
        (supabase <- getSupabaseClient ;;
         now <- Date_now ;;
         r <- await
                (chain (chain (chain (chain
                   (from (str "memories")
                      (Update (updateData now content type tags importance)))
                   (Eq (str "user_id") userId))
                   (Eq (str "id") id))
                   (Returning (str "*")))
                   Single) ;;
         match response_error r with
         | Some msg => ret (createErrorResult (str "Failed to update memory: " ++ msg))
         | None =>
             if negb (truthy (Some (response_data r))) then
               ret (createErrorResult (str "Memory not found or not owned by user"))
             else
               memory <- lift (toMemoryOutput (response_data r)) ;;
               ret (json_result (JObject [
                      member "memory" memory;
                      member "updated" (JBool true)]))
         end)
        (on_failure "An unexpected error occurred while updating memory")
  end.

(** [null] ([None]) when [name] is not a memory tool. *)
Definition executeMemoryTool (name : jsstring) (args : option JSON)
  : Eff (option McpToolResult) :=
  if jsstring_eqb name (str "memory_save") then r <- memorySave args ;; ret (Some r)
  else if jsstring_eqb name (str "memory_search") then r <- memorySearch args ;; ret (Some r)
  else if jsstring_eqb name (str "memory_forget") then r <- memoryForget args ;; ret (Some r)
  else if jsstring_eqb name (str "memory_list") then r <- memoryList args ;; ret (Some r)
  else if jsstring_eqb name (str "memory_update") then r <- memoryUpdate args ;; ret (Some r)
  else ret None.

End Memory.

(* ================================================================== *)
(** * functions/mcp.ts: the JSON-RPC endpoint *)
(* ================================================================== *)

(** The HTTP event and response of the hosting runtime.  A body is either
    the empty string or the JSON text that denotes an envelope
    ([JsonBody], for an envelope as JSON writes it). *)
Record HandlerEvent : Type := mkEvent {
  httpMethod : jsstring;
  headers : list (jsstring * jsstring);
  body : option jsstring
}.

Inductive Body : Type :=
| EmptyBody
| JsonBody (response : JsonRpcResponse).

(** [JSON.stringify(response)]: the text that denotes the envelope as it
    is written. *)
Definition JSON_stringify_response (response : JsonRpcResponse) : Body :=
  JsonBody (written response).

Record HandlerResponse : Type := mkHandlerResponse {
  statusCode : Z;
  response_headers : list (jsstring * jsstring);
  response_body : Body
}.

Fixpoint header (k : jsstring) (hs : list (jsstring * jsstring)) : option jsstring :=
  match hs with
  | [] => None
  | (k', v) :: rest => if jsstring_eqb k k' then Some v else header k rest
  end.

(** [a || b] on optional strings. *)
Definition or_else (a b : option jsstring) : option jsstring :=
  if truthy_string a then a else b.

Module Mcp.

Import ErrorCodes McpMethods.

Definition SERVER_INFO : McpServerInfo :=
  mkServerInfo (str "chatgpt-mcp-server") (str "1.0.0").

Definition PROTOCOL_VERSION : jsstring := str "2024-11-05".

Definition ALLOWED_ORIGINS : list jsstring :=
  [str "https://chat.openai.com"; str "https://chatgpt.com"].

Definition getCorsHeaders (origin : option jsstring) : list (jsstring * jsstring) :=
  let allowedOrigin :=
    match origin with
    | Some (c :: o) =>
        if existsb (jsstring_eqb (c :: o)) ALLOWED_ORIGINS then c :: o
        else str "https://chat.openai.com"
    | _ => str "https://chat.openai.com"
    end in
  [(str "Access-Control-Allow-Origin", allowedOrigin);
   (str "Access-Control-Allow-Methods", str "POST, OPTIONS");
   (str "Access-Control-Allow-Headers", str "Content-Type, Authorization");
   (str "Access-Control-Allow-Credentials", str "true");
   (str "Content-Type", str "application/json")].

Definition createResponse (id : RequestId) (result : ResultValue) : JsonRpcResponse :=
  mkResponse (str "2.0") (Some id) (Some result) None.

Definition createErrorResponse (id : RequestId) (code : Z) (message : jsstring)
  (data : option ErrorData) : JsonRpcResponse :=
  mkResponse (str "2.0") (Some id) None (Some (mkError code message data)).

Definition handleInitialize (id : RequestId) : JsonRpcResponse :=
  createResponse id
    (InitializeResult (mkInitializeResult PROTOCOL_VERSION false SERVER_INFO)).

Definition handlePing (id : RequestId) : JsonRpcResponse :=
  createResponse id EmptyObject.

Section Endpoint.

(** [import { toolDefinitions, executeTool } from '../tools/index.js'] and
    the runtime's [JSON.parse] ([None] when it throws). *)
Variable toolDefinitions : list McpTool.
Variable executeTool : jsstring -> option JSON -> Eff McpToolResult.
Variable JSON_parse : jsstring -> option JSON.

Definition handleToolsList (id : RequestId) : JsonRpcResponse :=
  createResponse id (ToolsListResult toolDefinitions).

Definition handleToolsCall (id : RequestId)
  (params : option (list (jsstring * JSON))) : Eff JsonRpcResponse :=
  match params with
  | Some members =>
      match get (str "name") members with
      | Some (JString name) =>
          let arguments :=
            if truthy (get (str "arguments") members)
            then get (str "arguments") members
            else Some (JObject []) in
          let toolExists :=
            existsb (fun t => jsstring_eqb (Types.name t) name) toolDefinitions in
          if negb toolExists then
            ret (createErrorResponse id INVALID_PARAMS
                   (str "Unknown tool: " ++ name) None)
          else
            try_catch
              (result <- executeTool name arguments ;;
               ret (createResponse id (ToolCallResult result)))
              (fun error =>
                 match error with
                 | InvalidParamsError message =>
                     ret (createErrorResponse id INVALID_PARAMS
                            (str "Invalid params") (Some (DataString message)))
                 | _ =>
                     ret (createErrorResponse id INTERNAL_ERROR
                            (str "Internal error")
                            (Some (DataString
                               match exception_message error with
                               | Some m => m
                               | None => str "Unknown error"
                               end)))
                 end)
      | _ =>
          ret (createErrorResponse id INVALID_PARAMS
                 (str "Missing required parameter: name") None)
      end
  | None =>
      ret (createErrorResponse id INVALID_PARAMS
             (str "Missing required parameter: name") None)
  end.

(** The [switch (request.method)] of the handler. *)
Definition route (id : RequestId) (request : JsonRpcRequest) : Eff JsonRpcResponse :=
  if jsstring_eqb (method request) INITIALIZE then ret (handleInitialize id)
  else if jsstring_eqb (method request) TOOLS_LIST then ret (handleToolsList id)
  else if jsstring_eqb (method request) TOOLS_CALL then
    handleToolsCall id (params request)
  else if jsstring_eqb (method request) PING then ret (handlePing id)
  else ret (createErrorResponse id METHOD_NOT_FOUND
              (str "Method not found: " ++ method request) None).

Definition handler (event : HandlerEvent) : Eff HandlerResponse :=
  let origin := or_else (header (str "origin") (headers event))
                        (header (str "Origin") (headers event)) in
  let corsHeaders := getCorsHeaders origin in
  if jsstring_eqb (httpMethod event) (str "OPTIONS") then
    ret (mkHandlerResponse 204 corsHeaders EmptyBody)
  else if negb (jsstring_eqb (httpMethod event) (str "POST")) then
    ret (mkHandlerResponse 405 corsHeaders
           (JSON_stringify_response
              (createErrorResponse IdNull INVALID_REQUEST
                 (str "Method not allowed") None)))
  else
    match JSON_parse (match body event with
                      | Some (c :: b) => c :: b
                      | _ => str "{}"
                      end) with
    | None =>
        ret (mkHandlerResponse 400 corsHeaders
               (JSON_stringify_response
                  (createErrorResponse IdNull PARSE_ERROR
                     (str "Invalid JSON") None)))
    | Some parsed =>
        match safeParse JsonRpcRequestSchema (Some parsed) with
        | Failure issues =>
            ret (mkHandlerResponse 400 corsHeaders
                   (JSON_stringify_response
                      (createErrorResponse IdNull INVALID_REQUEST
                         (str "Invalid JSON-RPC request")
                         (Some (DataIssues issues)))))
        | Success request =>
            match id request with
            | None | Some IdNull =>
                ret (mkHandlerResponse 204 corsHeaders EmptyBody)
            | Some id =>
                response <- route id request ;;
                ret (mkHandlerResponse 200 corsHeaders
                       (JSON_stringify_response response))
            end
        end
    end.

End Endpoint.

End Mcp.

(** The second copy of the endpoint that follows in functions/mcp.ts
    (its lines 239-431).  It serves fixed CORS headers, routes every
    validated request, and calls the tool router without a [try].  The
    [id] it hands on can be [undefined] ([None]). *)
Module Mcp2.

Import ErrorCodes McpMethods.

Definition SERVER_INFO : McpServerInfo :=
  mkServerInfo (str "chatgpt-mcp-server") (str "1.0.0").

Definition PROTOCOL_VERSION : jsstring := str "2024-11-05".

Definition corsHeaders : list (jsstring * jsstring) :=
  [(str "Access-Control-Allow-Origin", str "*");
   (str "Access-Control-Allow-Methods", str "POST, OPTIONS");
   (str "Access-Control-Allow-Headers", str "Content-Type, Authorization");
   (str "Content-Type", str "application/json")].

Definition createResponse (id : option RequestId) (result : ResultValue)
  : JsonRpcResponse :=
  mkResponse (str "2.0") id (Some result) None.

Definition createErrorResponse (id : option RequestId) (code : Z)
  (message : jsstring) (data : option ErrorData) : JsonRpcResponse :=
  mkResponse (str "2.0") id None (Some (mkError code message data)).

Definition handleInitialize (id : option RequestId) : JsonRpcResponse :=
  createResponse id
    (InitializeResult (mkInitializeResult PROTOCOL_VERSION false SERVER_INFO)).

Definition handlePing (id : option RequestId) : JsonRpcResponse :=
  createResponse id EmptyObject.

Section Endpoint.

Variable toolDefinitions : list McpTool.
Variable executeTool : jsstring -> option JSON -> Eff McpToolResult.
Variable JSON_parse : jsstring -> option JSON.

Definition handleToolsList (id : option RequestId) : JsonRpcResponse :=
  createResponse id (ToolsListResult toolDefinitions).

Definition handleToolsCall (id : option RequestId)
  (params : option (list (jsstring * JSON))) : Eff JsonRpcResponse :=
  match params with
  | Some members =>
      match get (str "name") members with
      | Some (JString name) =>
          let arguments :=
            if truthy (get (str "arguments") members)
            then get (str "arguments") members
            else Some (JObject []) in
          let toolExists :=
            existsb (fun t => jsstring_eqb (Types.name t) name) toolDefinitions in
          if negb toolExists then
            ret (createErrorResponse id INVALID_PARAMS
                   (str "Unknown tool: " ++ name) None)
          else
            result <- executeTool name arguments ;;
            ret (createResponse id (ToolCallResult result))
      | _ =>
          ret (createErrorResponse id INVALID_PARAMS
                 (str "Missing required parameter: name") None)
      end
  | None =>
      ret (createErrorResponse id INVALID_PARAMS
             (str "Missing required parameter: name") None)
  end.

Definition route (request : JsonRpcRequest) : Eff JsonRpcResponse :=
  if jsstring_eqb (method request) INITIALIZE then
    ret (handleInitialize (id request))
  else if jsstring_eqb (method request) TOOLS_LIST then
    ret (handleToolsList (id request))
  else if jsstring_eqb (method request) TOOLS_CALL then
    handleToolsCall (id request) (params request)
  else if jsstring_eqb (method request) PING then
    ret (handlePing (id request))
  else ret (createErrorResponse (id request) METHOD_NOT_FOUND
              (str "Method not found: " ++ method request) None).

Definition handler (event : HandlerEvent) : Eff HandlerResponse :=
  if jsstring_eqb (httpMethod event) (str "OPTIONS") then
    ret (mkHandlerResponse 204 corsHeaders EmptyBody)
  else if negb (jsstring_eqb (httpMethod event) (str "POST")) then
    ret (mkHandlerResponse 405 corsHeaders
           (JSON_stringify_response
              (createErrorResponse (Some IdNull) INVALID_REQUEST
                 (str "Method not allowed") None)))
  else
    match JSON_parse (match body event with
                      | Some (c :: b) => c :: b
                      | _ => str "{}"
                      end) with
    | None =>
        ret (mkHandlerResponse 400 corsHeaders
               (JSON_stringify_response
                  (createErrorResponse (Some IdNull) PARSE_ERROR
                     (str "Invalid JSON") None)))
    | Some parsed =>
        match safeParse JsonRpcRequestSchema (Some parsed) with
        | Failure issues =>
            ret (mkHandlerResponse 400 corsHeaders
                   (JSON_stringify_response
                      (createErrorResponse (Some IdNull) INVALID_REQUEST
                         (str "Invalid JSON-RPC request")
                         (Some (DataIssues issues)))))
        | Success request =>
            response <- route request ;;
            ret (mkHandlerResponse 200 corsHeaders
                   (JSON_stringify_response response))
        end
    end.

End Endpoint.

End Mcp2.

(* ================================================================== *)
(** * The specification's wording of the text statistics and of the
      UUID pattern *)
(* ================================================================== *)

Module Spec.
Import Tools.

(** The maximal non-empty runs of characters that are not separators. *)
Fixpoint maximal_runs (sep : N -> bool) (s : jsstring) : list jsstring :=
  match s with
  | [] => []
  | c :: s' =>
      if sep c then maximal_runs sep s'
      else
        match s' with
        | [] => [[c]]
        | d :: _ =>
            if sep d then [c] :: maximal_runs sep s'
            else
              match maximal_runs sep s' with
              | run :: runs => (c :: run) :: runs
              | [] => [[c]]
              end
        end
  end.

(** "maximal whitespace-delimited non-empty tokens after trimming" *)
Definition words (text : jsstring) : list jsstring :=
  maximal_runs is_white_space (trim text).

Definition whitespace_only (s : jsstring) : bool := forallb is_white_space s.

(** "maximal runs separated by one or more of '.', '!', '?' excluding
    empty or whitespace-only runs" *)
Definition sentences (text : jsstring) : list jsstring :=
  filter (fun run => negb (whitespace_only run))
    (maximal_runs is_sentence_end text).

(** "the mean word length rounded to 2 decimal places (0 when there are no
    words)"; the mean is the quotient the number type yields and the
    rounding is that of [toFixed(2)]. *)
Definition mean_length (ws : list jsstring) : float :=
  (number_of_nat (list_sum (map (@List.length N) ws))
   / number_of_nat (List.length ws))%float.

Definition averageWordLength (text : jsstring) : float :=
  match words text with
  | [] => 0%float
  | ws => parseFloat_toFixed2 (mean_length ws)
  end.


(** xxxxxxxx-xxxx-4xxx-yxxx-xxxxxxxxxxxx: every x a hexadecimal digit, y
    one of 8, 9, a, b, every other character itself. *)
Definition is_hex (c : N) : bool :=
  ((48 <=? c) && (c <=? 57) || (97 <=? c) && (c <=? 102))%N.

Definition is_variant (c : N) : bool :=
  ((c =? 56) || (c =? 57) || (c =? 97) || (c =? 98))%N.

Definition pattern_char (p c : N) : bool :=
  if (p =? 120)%N then is_hex c
  else if (p =? 121)%N then is_variant c
  else (c =? p)%N.

Fixpoint matches (pattern s : jsstring) : bool :=
  match pattern, s with
  | [], [] => true
  | p :: pattern', c :: s' => pattern_char p c && matches pattern' s'
  | _, _ => false
  end.

Definition is_uuid_v4 (s : jsstring) : bool :=
  matches (str "xxxxxxxx-xxxx-4xxx-yxxx-xxxxxxxxxxxx") s.

(** [Math.random()] yields a double that is at least 0 and less than 1. *)
Definition unit_interval (x : float) : bool :=
  ((0 <=? x) && (x <? 1))%float.

(** Substring test, for messages that "mention" something. *)
Fixpoint starts_with (prefix s : jsstring) : bool :=
  match prefix, s with
  | [], _ => true
  | p :: prefix', c :: s' => (p =? c)%N && starts_with prefix' s'
  | _, [] => false
  end.


End Spec.

(** The tool's own input schema applied to [args]: the issues when the
    arguments violate it ([None] when they conform or the tool takes no
    arguments). *)
Module Validation.

Definition failure {A} (r : SafeParseReturnType A) : option (list ZodIssue) :=
  match r with
  | Failure issues => Some issues
  | Success _ => None
  end.

Definition is_memory_tool (name : jsstring) : bool :=
  existsb (jsstring_eqb name)
    [str "memory_save"; str "memory_search"; str "memory_forget";
     str "memory_list"; str "memory_update"].

Definition violations (name : jsstring) (args : option JSON)
  : option (list ZodIssue) :=
  if jsstring_eqb name (str "echo") then
    failure (safeParse Tools.EchoInputSchema args)
  else if jsstring_eqb name (str "calculate") then
    failure (safeParse Tools.CalculateInputSchema args)
  else if jsstring_eqb name (str "text_stats") then
    failure (safeParse Tools.TextStatsInputSchema args)
  else if jsstring_eqb name (str "memory_save") then
    failure (safeParse Memory.MemorySaveInputSchema args)
  else if jsstring_eqb name (str "memory_search") then
    failure (safeParse Memory.MemorySearchInputSchema args)
  else if jsstring_eqb name (str "memory_forget") then
    failure (safeParse Memory.MemoryForgetInputSchema args)
  else if jsstring_eqb name (str "memory_list") then
    failure (safeParse Memory.MemoryListInputSchema args)
  else if jsstring_eqb name (str "memory_update") then
    failure (safeParse Memory.MemoryUpdateInputSchema args)
  else None.

(** [name] is the name of one of [definitions]. *)
Definition registered (definitions : list McpTool) (name : jsstring) : bool :=
  existsb (fun t => jsstring_eqb (Types.name t) name) definitions.

(** [params.arguments || {}]. *)
Definition arguments_of (members : list (jsstring * JSON)) : option JSON :=
  if truthy (get (str "arguments") members)
  then get (str "arguments") members
  else Some (JObject []).

(** Exactly one of [result] and [error] is set. *)
Definition result_xor_error (r : JsonRpcResponse) : bool :=
  match result r, error r with
  | Some _, None | None, Some _ => true
  | _, _ => false
  end.

(** The text the handler parses: [event.body || '{}']. *)
Definition body_text (event : HandlerEvent) : jsstring :=
  match body event with
  | Some (c :: b) => c :: b
  | _ => str "{}"
  end.

(** The storage is configured: a client exists already, or both
    environment variables are set (and not empty), so that
    [getSupabaseClient] raises no [SupabaseConfigError]. *)
Definition storage_configured (w : World) : bool :=
  match supabaseInstance w with
  | Some _ => true
  | None => truthy_string (SUPABASE_URL w) && truthy_string (SUPABASE_ANON_KEY w)
  end.

(** The query [memoryUpdate] sends. *)
Definition update_query (userId id : jsstring) (values : list (jsstring * JSON))
  : Query :=
  mkQuery (str "memories") (Update values)
    [Eq (str "user_id") userId; Eq (str "id") id; Returning (str "*"); Single].

(** The client is at hand: it exists already, or both environment
    variables are set and [createClient] takes them. *)
Definition client_available (w : World) : bool :=
  match supabaseInstance w with
  | Some _ => true
  | None =>
      match SUPABASE_URL w, SUPABASE_ANON_KEY w with
      | Some (c :: url), Some (d :: key) =>
          match createClient w (c :: url) (d :: key) with
          | inr _ => true
          | inl _ => false
          end
      | _, _ => false
      end
  end.

(** A number that JSON writes as it is: finite and not the negative
    zero. *)
Definition writable (x : float) : bool :=
  match Prim2SF x with
  | S754_zero negative => negb negative
  | S754_finite _ _ _ => true
  | _ => false
  end.


(** The CORS headers the first copy of the endpoint answers with. *)
Definition cors_of (event : HandlerEvent) : list (jsstring * jsstring) :=
  Mcp.getCorsHeaders
    (or_else (header (str "origin") (headers event))
             (header (str "Origin") (headers event))).

End Validation.

(** Concrete inputs for the examples. *)
Module Sample.
Import Tools.

Definition quoted (s : string) : jsstring := [34%N] ++ str s ++ [34%N].
Arguments quoted s%_string.

(** [{"jsonrpc":"2.0","method":"ping"}] *)
Definition ping_notification : jsstring :=
  str "{" ++ quoted "jsonrpc" ++ str ":" ++ quoted "2.0" ++ str ","
    ++ quoted "method" ++ str ":" ++ quoted "ping" ++ str "}".

(** [{"jsonrpc":"2.0","id":null,"method":"initialize"}] *)
Definition initialize_null_id : jsstring :=
  str "{" ++ quoted "jsonrpc" ++ str ":" ++ quoted "2.0" ++ str ","
    ++ quoted "id" ++ str ":null," ++ quoted "method" ++ str ":"
    ++ quoted "initialize" ++ str "}".

(** [{"jsonrpc":"2.0","id":7,"method":"tools/list"}] *)
Definition list_request : jsstring :=
  str "{" ++ quoted "jsonrpc" ++ str ":" ++ quoted "2.0" ++ str ","
    ++ quoted "id" ++ str ":7," ++ quoted "method" ++ str ":"
    ++ quoted "tools/list" ++ str "}".

(** [{"jsonrpc":"2.0","id":1e400,"method":"ping"}]: the number is beyond
    the doubles and is read as [Infinity]. *)
Definition ping_huge_id : jsstring :=
  str "{" ++ quoted "jsonrpc" ++ str ":" ++ quoted "2.0" ++ str ","
    ++ quoted "id" ++ str ":1e400," ++ quoted "method" ++ str ":"
    ++ quoted "ping" ++ str "}".

(** What [JSON.parse] returns on the texts above and on [{}]; every other
    text is taken to be malformed. *)
Definition JSON_parse (s : jsstring) : option JSON :=
  if jsstring_eqb s (str "{}") then Some (JObject [])
  else if jsstring_eqb s ping_notification then
    Some (JObject [member "jsonrpc" (jstr "2.0"); member "method" (jstr "ping")])
  else if jsstring_eqb s initialize_null_id then
    Some (JObject [member "jsonrpc" (jstr "2.0"); member "id" JNull;
                   member "method" (jstr "initialize")])
  else if jsstring_eqb s list_request then
    Some (JObject [member "jsonrpc" (jstr "2.0"); member "id" (JNumber 7);
                   member "method" (jstr "tools/list")])
  else if jsstring_eqb s ping_huge_id then
    Some (JObject [member "jsonrpc" (jstr "2.0"); member "id" (JNumber infinity);
                   member "method" (jstr "ping")])
  else None.

Definition post (text : option jsstring) : HandlerEvent :=
  mkEvent (str "POST") [(str "origin", str "https://chatgpt.com")] text.

(** A store that has one record and answers every query with it. *)
Definition stored_record : JSON :=
  JObject [member "id" (jstr "m1"); member "user_id" (jstr "u1");
           member "type" (jstr "note"); member "content" (jstr "tea")].

(** A [createClient] that, like the library's, throws on a URL that is
    not an HTTP or HTTPS one. *)
Definition createClient (url key : jsstring) : Exception + SupabaseClient :=
  if Spec.starts_with (str "https://") url || Spec.starts_with (str "http://") url
  then inr (mkClient url key)
  else inl (OtherError
              (str "Invalid supabaseUrl: Must be a valid HTTP or HTTPS URL.")).

Definition world : World :=
  mkWorld (fun k => 1700000000000 + Z.of_nat k)%Z 0
    (fun k => (number_of_nat k / 32)%float) 0
    None None None
    (fun _ _ => inr (mkPostgrestResponse stored_record None None)) []
    createClient.

(** A random source that always draws one half. *)
Definition steady_world : World :=
  mkWorld (clock world) 0 (fun _ => 0.5%float) 0 None None None (remote world) []
    createClient.

Definition configured_world : World :=
  mkWorld (clock world) 0 (random world) 0
    (Some (str "https://project.supabase.co")) (Some (str "anon-key")) None
    (remote world) [] createClient.

(** Both variables are set, but the URL lacks its scheme. *)
Definition malformed_world : World :=
  mkWorld (clock world) 0 (random world) 0
    (Some (str "project.supabase.co")) (Some (str "anon-key")) None
    (remote world) [] createClient.

End Sample.

(** Names for what the further properties talk about. *)
Module Coverage.

(** The result of the router's [default] branch. *)
Definition unknown_tool_result (name : jsstring) : McpToolResult :=
  mkToolResult [Tools.text_content (Plain (str "Unknown tool: " ++ name))]
    (Some true).

(** [method] is one of the four methods of [McpMethods]. *)
Definition known_method (method : jsstring) : bool :=
  existsb (jsstring_eqb method)
    [McpMethods.INITIALIZE; McpMethods.TOOLS_LIST; McpMethods.TOOLS_CALL;
     McpMethods.PING].

(** A router that throws [e] whatever it is asked. *)
Definition failing_router (e : Exception)
  : jsstring -> option JSON -> Eff McpToolResult :=
  fun _ _ => throw e.

(** A [JSON.parse] that yields [v]. *)
Definition parse_as (v : JSON) : jsstring -> option JSON := fun _ => Some v.

(** The number of [x] and [y] in a template. *)
Definition count_xy (template : jsstring) : nat :=
  List.length (filter (fun c => ((c =? 120) || (c =? 121))%N) template).

(** The members of a request object. *)
Definition request_members (id : option JSON) (method : string)
  : list (jsstring * JSON) :=
  [Tools.member "jsonrpc" (Tools.jstr "2.0")]
  ++ Memory.optional_member "id" id
  ++ [Tools.member "method" (JString (str method))].
Arguments request_members id method%_string.

(** [memoryForget]'s delete: scoped to the user and narrowed by [narrow]. *)
Definition forget_query (userId : jsstring) (narrow : Modifier) : Query :=
  mkQuery (str "memories") Delete
    [Eq (str "user_id") userId; narrow; Returning (str "id")].

(** [memorySave]'s insert. *)
Definition save_query (row : list (jsstring * JSON)) : Query :=
  mkQuery (str "memories") (Insert row) [Returning (str "id"); Single].

(** The two messages of [SupabaseConfigError]. *)
Definition missing_url : jsstring :=
  str "Missing SUPABASE_URL environment variable. Please set it to your Supabase project URL.".

Definition missing_key : jsstring :=
  str "Missing SUPABASE_ANON_KEY environment variable. Please set it to your Supabase anon/public key.".

(** The world after [process.env] is changed to [url] and [key]. *)
Definition setenv (url key : option jsstring) (w : World) : World :=
  mkWorld (clock w) (clock_reads w) (random w) (random_draws w) url key
    (supabaseInstance w) (remote w) (sent w) (createClient w).

(** The message [getSupabaseClient] fails with in [w]. *)
Definition config_error (w : World) : jsstring :=
  if truthy_string (SUPABASE_URL w) then missing_key else missing_url.

(** The [userId] member of a tool's arguments. *)
Definition user_of (args : option JSON) : option jsstring :=
  match args with
  | Some (JObject members) =>
      match get (str "userId") members with
      | Some (JString u) => Some u
      | _ => None
      end
  | _ => None
  end.

(** [q] touches the records of [userId] only: an insert writes [userId]
    to [user_id], every other operation is filtered by it. *)
Definition scoped_to (userId : jsstring) (q : Query) : Prop :=
  table q = str "memories"
  /\ match operation q with
     | Insert row => get (str "user_id") row = Some (JString userId)
     | _ => In (Eq (str "user_id") userId) (modifiers q)
     end.

(** The request id a JSON value stands for. *)
Definition id_of (v : option JSON) : option RequestId :=
  match v with
  | Some (JString s) => Some (IdString s)
  | Some (JNumber x) => Some (IdNumber x)
  | Some JNull => Some IdNull
  | _ => None
  end.

(** The nine properties of a [MemoryOutput] and the column each is read
    from. *)
Definition output_columns : list (string * string) :=
  [("id", "id"); ("userId", "user_id"); ("sessionId", "session_id");
   ("type", "type"); ("content", "content"); ("tags", "tags");
   ("importance", "importance"); ("createdAt", "created_at");
   ("updatedAt", "updated_at")]%string.

(** A store that gives [answer] to every query. *)
Definition answering (answer : Exception + PostgrestResponse) (w : World)
  : World :=
  mkWorld (clock w) (clock_reads w) (random w) (random_draws w)
    (SUPABASE_URL w) (SUPABASE_ANON_KEY w) (supabaseInstance w)
    (fun _ _ => answer) (sent w) (createClient w).

End Coverage.

(* ================================================================== *)
(** * Properties *)
(* ================================================================== *)

Import Validation.

Lemma jsstring_eqb_refl (a : jsstring) : jsstring_eqb a a = true.
Proof.
  induction a as [|x a IH]; simpl; [reflexivity|].
  now rewrite N.eqb_refl, IH.
Qed.

Lemma jsstring_eqb_eq (a b : jsstring) : jsstring_eqb a b = true <-> a = b.
Proof.
  split.
  - revert b. induction a as [|x a IH]; destruct b as [|y b]; simpl;
      try discriminate; [reflexivity|].
    intros H. apply andb_true_iff in H as [Hx Hab].
    apply N.eqb_eq in Hx. subst. f_equal. now apply IH.
  - intros ->. apply jsstring_eqb_refl.
Qed.

(** ** The dispatcher: unknown tools (C4) *)

Section Dispatcher.

Variable toolDefinitions : list McpTool.
Variable executeTool : jsstring -> option JSON -> Eff McpToolResult.

Lemma handleToolsCall_named (id : RequestId) members name (w : World) :
  get (str "name") members = Some (JString name) ->
  Mcp.handleToolsCall toolDefinitions executeTool id (Some members) w =
  if negb (registered toolDefinitions name) then
    (Return (Mcp.createErrorResponse id ErrorCodes.INVALID_PARAMS
               (str "Unknown tool: " ++ name) None), w)
  else
    try_catch
      (result <- executeTool name (arguments_of members) ;;
       ret (Mcp.createResponse id (ToolCallResult result)))
      (fun error =>
         match error with
         | InvalidParamsError message =>
             ret (Mcp.createErrorResponse id ErrorCodes.INVALID_PARAMS
                    (str "Invalid params") (Some (DataString message)))
         | _ =>
             ret (Mcp.createErrorResponse id ErrorCodes.INTERNAL_ERROR
                    (str "Internal error")
                    (Some (DataString
                       match exception_message error with
                       | Some m => m
                       | None => str "Unknown error"
                       end)))
         end) w.
Proof.
  intros Hname. unfold Mcp.handleToolsCall. rewrite Hname.
  unfold registered, arguments_of.
  destruct (negb _); reflexivity.
Qed.

(** C4: a [tools/call] whose [params.name] is a string that names none of
    the registry's definitions is answered with the JSON-RPC error -32602
    "Unknown tool: <name>", and the world is left as it was.  The answer
    is the same whatever the tool router [executeTool] is: the router is
    not invoked. *)
Theorem unknown_tool_is_invalid_params (id : RequestId) members name (w : World) :
  get (str "name") members = Some (JString name) ->
  registered toolDefinitions name = false ->
  Mcp.handleToolsCall toolDefinitions executeTool id (Some members) w =
  (Return (mkResponse (str "2.0") (Some id) None
             (Some (mkError (-32602) (str "Unknown tool: " ++ name) None))), w).
Proof.
  intros Hname Hunknown.
  rewrite (handleToolsCall_named id members name w Hname), Hunknown.
  reflexivity.
Qed.

End Dispatcher.

Lemma unknown_tool_is_invalid_params_witness :
  get (str "name") [Tools.member "name" (Tools.jstr "nonexistent_tool")]
    = Some (JString (str "nonexistent_tool"))
  /\ registered Tools.toolDefinitions (str "nonexistent_tool") = false
  /\ Mcp.handleToolsCall Tools.toolDefinitions Tools.executeTool (IdNumber 1)
       (Some [Tools.member "name" (Tools.jstr "nonexistent_tool")]) Sample.world =
     (Return (mkResponse (str "2.0") (Some (IdNumber 1)) None
                (Some (mkError (-32602)
                         (str "Unknown tool: " ++ str "nonexistent_tool") None))),
      Sample.world).
Proof.
  split; [reflexivity|]. split; [reflexivity|].
  apply (unknown_tool_is_invalid_params Tools.toolDefinitions Tools.executeTool
           (IdNumber 1) _ (str "nonexistent_tool") Sample.world);
    reflexivity.
Defined.

(** ** The endpoint: notifications, echoed ids, empty bodies (C2, C3, C10) *)

Section Endpoint.

Variable toolDefinitions : list McpTool.
Variable executeTool : jsstring -> option JSON -> Eff McpToolResult.
Variable JSON_parse : jsstring -> option JSON.

Let handler := Mcp.handler toolDefinitions executeTool JSON_parse.

Lemma handler_post (event : HandlerEvent) (w : World) :
  httpMethod event = str "POST" ->
  handler event w =
  match JSON_parse (body_text event) with
  | None =>
      (Return (mkHandlerResponse 400 (cors_of event)
                 (JsonBody (Mcp.createErrorResponse IdNull ErrorCodes.PARSE_ERROR
                              (str "Invalid JSON") None))), w)
  | Some parsed =>
      match safeParse JsonRpcRequestSchema (Some parsed) with
      | Failure issues =>
          (Return (mkHandlerResponse 400 (cors_of event)
                     (JsonBody (Mcp.createErrorResponse IdNull
                                  ErrorCodes.INVALID_REQUEST
                                  (str "Invalid JSON-RPC request")
                                  (Some (DataIssues issues))))), w)
      | Success request =>
          match id request with
          | None | Some IdNull =>
              (Return (mkHandlerResponse 204 (cors_of event) EmptyBody), w)
          | Some rid =>
              (response <- Mcp.route toolDefinitions executeTool rid request ;;
               ret (mkHandlerResponse 200 (cors_of event)
                      (JSON_stringify_response response))) w
          end
      end
  end.
Proof.
  intros Hpost. unfold handler, Mcp.handler, cors_of, body_text.
  rewrite Hpost.
  change (jsstring_eqb (str "POST") (str "OPTIONS")) with false.
  change (jsstring_eqb (str "POST") (str "POST")) with true.
  cbv beta iota zeta. simpl negb. cbv iota.
  destruct (JSON_parse _) as [parsed|]; [|reflexivity].
  destruct (safeParse JsonRpcRequestSchema (Some parsed)) as [request|issues];
    [|reflexivity].
  destruct (id request) as [[s|x|]|]; reflexivity.
Qed.

(** The first copy of the endpoint acknowledges a notification with
    status 204 and an empty body before any routing: the answer mentions
    neither the method nor the registry, and the world is untouched. *)
Lemma notification_is_not_routed (event : HandlerEvent) parsed request (w : World) :
  httpMethod event = str "POST" ->
  JSON_parse (body_text event) = Some parsed ->
  safeParse JsonRpcRequestSchema (Some parsed) = Success request ->
  id request = None \/ id request = Some IdNull ->
  handler event w =
  (Return (mkHandlerResponse 204 (cors_of event) EmptyBody), w).
Proof.
  intros Hpost Hparse Hvalid Hid.
  rewrite (handler_post event w Hpost), Hparse, Hvalid.
  destruct Hid as [-> | ->]; reflexivity.
Qed.

Lemma handleToolsCall_envelope (rid : RequestId) params (w : World) :
  exists response w',
    Mcp.handleToolsCall toolDefinitions executeTool rid params w
      = (Return response, w')
    /\ response_id response = Some rid
    /\ result_xor_error response = true.
Proof.
  unfold Mcp.handleToolsCall.
  destruct params as [members|]; [|solve [eexists; eexists; repeat split]].
  destruct (get (str "name") members) as [[| | |name| |]|];
    try solve [eexists; eexists; repeat split].
  destruct (negb _); [solve [eexists; eexists; repeat split]|].
  unfold try_catch, bind.
  destruct (executeTool name _ w) as [[r|e] w'].
  - eexists; eexists; repeat split.
  - destruct e; eexists; eexists; repeat split.
Qed.

Lemma route_envelope (rid : RequestId) request (w : World) :
  exists response w',
    Mcp.route toolDefinitions executeTool rid request w = (Return response, w')
    /\ response_id response = Some rid
    /\ result_xor_error response = true.
Proof.
  unfold Mcp.route.
  destruct (jsstring_eqb _ _); [eexists; eexists; repeat split|].
  destruct (jsstring_eqb _ _); [eexists; eexists; repeat split|].
  destruct (jsstring_eqb _ _); [apply handleToolsCall_envelope|].
  destruct (jsstring_eqb _ _); eexists; eexists; repeat split.
Qed.

Lemma written_number_writable (x : float) :
  writable x = true -> written_number x = JNumber x.
Proof.
  unfold writable, written_number.
  destruct (Prim2SF x) as [[|]| | |] eqn:E; try discriminate;
    intros _; [|reflexivity].
  rewrite <- (SF2Prim_Prim2SF x), E. reflexivity.
Qed.

Lemma written_id_writable (x : float) :
  writable x = true -> written_id (IdNumber x) = IdNumber x.
Proof.
  intros H. unfold written_id. now rewrite (written_number_writable x H).
Qed.

Lemma written_envelope (response : JsonRpcResponse) rid :
  response_id response = Some rid ->
  response_id (written response) = Some (written_id rid)
  /\ result_xor_error (written response) = result_xor_error response.
Proof.
  intros Hrid. unfold written, result_xor_error.
  cbn [response_id result error]. rewrite Hrid.
  split; [reflexivity|]. now destruct (result response), (error response).
Qed.

(** C3 (as amended): a structurally valid request whose [id] is a string
    or a number is answered with status 200 and an envelope with exactly
    one of [result] and [error] set, whose [id] is the request's [id] as
    JSON writes it: the [id] itself when it is a string or a number that
    is finite and not the negative zero.  This holds for the four methods
    and for the method-not-found branch, whatever the registry and the
    router are. *)
Theorem response_echoes_id (event : HandlerEvent) parsed request rid (w : World) :
  httpMethod event = str "POST" ->
  JSON_parse (body_text event) = Some parsed ->
  safeParse JsonRpcRequestSchema (Some parsed) = Success request ->
  id request = Some rid ->
  rid <> IdNull ->
  exists response w',
    handler event w =
      (Return (mkHandlerResponse 200 (cors_of event) (JsonBody response)), w')
    /\ response_id response = Some (written_id rid)
    /\ ((forall x, rid = IdNumber x -> writable x = true) ->
        response_id response = id request)
    /\ result_xor_error response = true.
Proof.
  intros Hpost Hparse Hvalid Hid Hpresent.
  rewrite (handler_post event w Hpost), Hparse, Hvalid, Hid.
  destruct (route_envelope rid request w) as (response & w' & Hroute & Hrid & Hxor).
  destruct (written_envelope response rid Hrid) as [Hwritten Hsame].
  exists (written response), w'.
  assert (Hecho : (forall x, rid = IdNumber x -> writable x = true) ->
                  Some (written_id rid) = Some rid).
  { intros Hwritable. destruct rid as [s|x|]; [reflexivity| |reflexivity].
    now rewrite (written_id_writable x (Hwritable x eq_refl)). }
  destruct rid as [s|x|]; [| |contradiction];
    unfold bind; rewrite Hroute; unfold ret, JSON_stringify_response;
    (split; [reflexivity|]); (split; [exact Hwritten|]);
    (split; [intros Hwritable; rewrite Hwritten; now apply Hecho|]);
    now rewrite Hsame.
Qed.

(** C10: a POST without a body, or with the empty string as body, is
    parsed as the text [{}]; as the empty object has neither [jsonrpc] nor
    [method], the answer is status 400 with the Invalid Request error
    -32600 (never the parse error -32700), the missing [method] among the
    violations attached as data. *)
Theorem empty_body_is_invalid_request (event : HandlerEvent) (w : World) :
  httpMethod event = str "POST" ->
  body event = None \/ body event = Some [] ->
  JSON_parse (str "{}") = Some (JObject []) ->
  body_text event = str "{}"
  /\ handler event w =
     (Return (mkHandlerResponse 400 (cors_of event)
        (JsonBody (mkResponse (str "2.0") (Some IdNull) None
           (Some (mkError (-32600) (str "Invalid JSON-RPC request")
              (Some (DataIssues [
                 mkIssue invalid_literal [Key (str "jsonrpc")]
                   (str "Invalid literal value, expected " ++ [34%N]
                      ++ str "2.0" ++ [34%N]);
                 mkIssue invalid_type [Key (str "method")]
                   (str "Required")]))))))), w).
Proof.
  intros Hpost Hbody Hparse.
  assert (Htext : body_text event = str "{}").
  { unfold body_text. destruct Hbody as [-> | ->]; reflexivity. }
  split; [exact Htext|].
  rewrite (handler_post event w Hpost), Htext, Hparse.
  reflexivity.
Qed.

End Endpoint.

Lemma response_echoes_id_witness :
  exists response w',
    Mcp.handler Tools.toolDefinitions Tools.executeTool Sample.JSON_parse
      (Sample.post (Some Sample.list_request)) Sample.world =
      (Return (mkHandlerResponse 200
                 (cors_of (Sample.post (Some Sample.list_request)))
                 (JsonBody response)), w')
    /\ response_id response = Some (written_id (IdNumber 7))
    /\ ((forall x, IdNumber 7 = IdNumber x -> writable x = true) ->
        response_id response = Some (IdNumber 7))
    /\ result_xor_error response = true.
Proof.
  apply (response_echoes_id Tools.toolDefinitions Tools.executeTool
           Sample.JSON_parse (Sample.post (Some Sample.list_request))
           (JObject [Tools.member "jsonrpc" (Tools.jstr "2.0");
                     Tools.member "id" (JNumber 7);
                     Tools.member "method" (Tools.jstr "tools/list")])
           (mkRequest (str "2.0") (Some (IdNumber 7)) (str "tools/list") None)
           (IdNumber 7) Sample.world);
    try reflexivity.
  discriminate.
Defined.

(** C3, as it is stated, fails on an [id] that is not finite: the number
    [1e400] is read as [Infinity], passes the schema, and is written
    [null] in the answer. *)
Lemma response_echoes_id_counterexample :
  exists request response,
    safeParse JsonRpcRequestSchema
      (Sample.JSON_parse (body_text (Sample.post (Some Sample.ping_huge_id))))
      = Success request
    /\ id request = Some (IdNumber infinity)
    /\ Mcp.handler Tools.toolDefinitions Tools.executeTool Sample.JSON_parse
         (Sample.post (Some Sample.ping_huge_id)) Sample.world =
       (Return (mkHandlerResponse 200
                  (cors_of (Sample.post (Some Sample.ping_huge_id)))
                  (JsonBody response)), Sample.world)
    /\ response_id response = Some IdNull
    /\ response_id response <> id request.
Proof.
  exists (mkRequest (str "2.0") (Some (IdNumber infinity)) (str "ping") None),
    (mkResponse (str "2.0") (Some IdNull) (Some EmptyObject) None).
  repeat split; try reflexivity. discriminate.
Qed.

Lemma empty_body_is_invalid_request_witness :
  body_text (Sample.post None) = str "{}"
  /\ exists issues,
       Mcp.handler Tools.toolDefinitions Tools.executeTool Sample.JSON_parse
         (Sample.post None) Sample.world =
       (Return (mkHandlerResponse 400 (cors_of (Sample.post None))
          (JsonBody (mkResponse (str "2.0") (Some IdNull) None
             (Some (mkError (-32600) (str "Invalid JSON-RPC request")
                (Some (DataIssues issues))))))), Sample.world).
Proof.
  destruct (empty_body_is_invalid_request Tools.toolDefinitions Tools.executeTool
              Sample.JSON_parse (Sample.post None) Sample.world)
    as [Htext Hanswer]; [reflexivity | left; reflexivity | reflexivity |].
  split; [exact Htext|]. eexists. exact Hanswer.
Defined.

(** ** calculate: division (C5) *)

Lemma calculate_parsed members op o a b :
  get (str "operation") members = Some (JString op) ->
  enum_lookup op [(str "add", Tools.add); (str "subtract", Tools.subtract);
                  (str "multiply", Tools.multiply); (str "divide", Tools.divide)]
    = Some o ->
  get (str "a") members = Some (JNumber a) ->
  get (str "b") members = Some (JNumber b) ->
  Number_isNaN a = false ->
  Number_isNaN b = false ->
  safeParse Tools.CalculateInputSchema (Some (JObject members))
    = Success (Tools.mkCalculateInput o a b).
Proof.
  intros Hop Ho Ha Hb Hna Hnb.
  unfold safeParse, Tools.CalculateInputSchema, z_object, prop, z_enum, z_number.
  rewrite Hop, Ha, Hb, Ho, Hna, Hnb. reflexivity.
Qed.



(** 1 / 4 and 7 * 6, as the README shows them. *)
Example calculate_quarter :
  Tools.calculate (Some (JObject [
     Tools.member "operation" (Tools.jstr "divide");
     Tools.member "a" (JNumber 1); Tools.member "b" (JNumber 4)])) =
  mkToolResult
    [Tools.text_content (Stringified (JObject [
       Tools.member "operation" (Tools.jstr "divide");
       Tools.member "a" (JNumber 1); Tools.member "b" (JNumber 4);
       Tools.member "result" (JNumber 0.25)]))]
    None.
Proof. reflexivity. Qed.

Example calculate_multiply :
  Tools.calculate (Some (JObject [
     Tools.member "operation" (Tools.jstr "multiply");
     Tools.member "a" (JNumber 7); Tools.member "b" (JNumber 6)])) =
  mkToolResult
    [Tools.text_content (Stringified (JObject [
       Tools.member "operation" (Tools.jstr "multiply");
       Tools.member "a" (JNumber 7); Tools.member "b" (JNumber 6);
       Tools.member "result" (JNumber 42)]))]
    None.
Proof. reflexivity. Qed.

(** ** Arguments that violate the tool's schema (C1) *)

Lemma failure_inv {A} (r : SafeParseReturnType A) issues :
  failure r = Some issues -> r = Failure issues.
Proof. destruct r; simpl; congruence. Qed.

(** Reading [violations] at a tool's name. *)
Ltac at_the_tool name H :=
  unfold violations in H;
  repeat match type of H with
  | context [jsstring_eqb name ?lit] =>
      let E := fresh "E" in
      destruct (jsstring_eqb name lit) eqn:E;
      [apply jsstring_eqb_eq in E; subst name; apply failure_inv in H
      | clear E]
  end.

(** The utility tools are registered by tools/index.ts and report the
    violation in their result. *)
Lemma utility_violation name args issues (w : World) :
  is_memory_tool name = false ->
  violations name args = Some issues ->
  registered Tools.toolDefinitions name = true
  /\ Tools.executeTool name args w = (Return (Tools.invalid_input issues), w).
Proof.
  intros Hutility H. at_the_tool name H; try discriminate.
  - split; [reflexivity|].
    change (Tools.executeTool (str "echo") args w)
      with (Return (Tools.echo args), w).
    unfold Tools.echo. now rewrite H.
  - split; [reflexivity|].
    change (Tools.executeTool (str "calculate") args w)
      with (Return (Tools.calculate args), w).
    unfold Tools.calculate. now rewrite H.
  - split; [reflexivity|].
    change (Tools.executeTool (str "text_stats") args w)
      with (Return (Tools.textStats args), w).
    unfold Tools.textStats. now rewrite H.
Qed.

(** The storage-backed tools raise [InvalidParamsError]; tools/index.ts
    does not know them. *)
Lemma memory_violation name args issues (w : World) :
  is_memory_tool name = true ->
  violations name args = Some issues ->
  registered Tools.toolDefinitions name = false
  /\ Memory.executeMemoryTool name args w
     = (Throw (InvalidParamsError (Memory.validation_message issues)), w).
Proof.
  intros Hmemory H. at_the_tool name H; try discriminate;
    (split; [reflexivity|]).
  - change (Memory.executeMemoryTool (str "memory_save") args w)
      with ((r <- Memory.memorySave args ;; ret (Some r)) w).
    unfold bind, Memory.memorySave. now rewrite H.
  - change (Memory.executeMemoryTool (str "memory_search") args w)
      with ((r <- Memory.memorySearch args ;; ret (Some r)) w).
    unfold bind, Memory.memorySearch. now rewrite H.
  - change (Memory.executeMemoryTool (str "memory_forget") args w)
      with ((r <- Memory.memoryForget args ;; ret (Some r)) w).
    unfold bind, Memory.memoryForget. now rewrite H.
  - change (Memory.executeMemoryTool (str "memory_list") args w)
      with ((r <- Memory.memoryList args ;; ret (Some r)) w).
    unfold bind, Memory.memoryList. now rewrite H.
  - change (Memory.executeMemoryTool (str "memory_update") args w)
      with ((r <- Memory.memoryUpdate args ;; ret (Some r)) w).
    unfold bind, Memory.memoryUpdate. now rewrite H.
Qed.

(** No schema accepts the empty object that stands in for missing
    arguments. *)
Lemma empty_arguments_violate name args issues :
  violations name args = Some issues ->
  exists issues', violations name (Some (JObject [])) = Some issues'.
Proof.
  unfold violations.
  repeat match goal with
  | |- context [jsstring_eqb name ?lit] =>
      destruct (jsstring_eqb name lit);
      [intros _; vm_compute; eexists; reflexivity|]
  end.
  discriminate.
Qed.

Lemma arguments_violate params name issues :
  violations name (get (str "arguments") params) = Some issues ->
  exists issues', violations name (arguments_of params) = Some issues'.
Proof.
  intros H. unfold arguments_of.
  destruct (truthy _); [eauto|].
  eapply empty_arguments_violate; eassumption.
Qed.

(** C1: a [tools/call] whose arguments fail the named tool's input schema.
    The arguments the tool sees ([params.arguments || {}]) fail it as
    well.  For a utility tool ([echo], [calculate], [text_stats]) the
    answer is a successful envelope whose tool result has [isError: true]
    and the text "Invalid input: " followed by the description of the
    violations; [error] is unset.  For a storage-backed tool
    ([memory_save], [memory_search], [memory_forget], [memory_list],
    [memory_update]) the handler does raise [InvalidParamsError] with the
    issues' messages joined by ", ", and the dispatcher does turn an
    [InvalidParamsError] of its router into the JSON-RPC error -32602
    "Invalid params" with that message as [data]; but the registry and
    the router of tools/index.ts know no such tool, so the dispatcher
    answers -32602 "Unknown tool: <name>" and the validation failure is
    never seen. *)
Theorem schema_violation_channels (rid : RequestId) params name issues (w : World) :
  get (str "name") params = Some (JString name) ->
  violations name (get (str "arguments") params) = Some issues ->
  exists issues',
    violations name (arguments_of params) = Some issues'
    /\ (truthy (get (str "arguments") params) = true -> issues' = issues)
    /\ if is_memory_tool name then
         Memory.executeMemoryTool name (arguments_of params) w =
           (Throw (InvalidParamsError (join (str ", ") (map message issues'))), w)
         /\ (forall definitions router message (w1 : World),
               registered definitions name = true ->
               router name (arguments_of params) w
                 = (Throw (InvalidParamsError message), w1) ->
               Mcp.handleToolsCall definitions router rid (Some params) w =
               (Return (mkResponse (str "2.0") (Some rid) None
                  (Some (mkError (-32602) (str "Invalid params")
                     (Some (DataString message))))), w1))
         /\ Mcp.handleToolsCall Tools.toolDefinitions Tools.executeTool
              rid (Some params) w =
            (Return (mkResponse (str "2.0") (Some rid) None
               (Some (mkError (-32602) (str "Unknown tool: " ++ name) None))),
             w)
       else
         Mcp.handleToolsCall Tools.toolDefinitions Tools.executeTool
           rid (Some params) w =
         (Return (mkResponse (str "2.0") (Some rid)
            (Some (ToolCallResult
               (mkToolResult
                  [mkContent text_type
                     (Some (Concat (Plain (str "Invalid input: "))
                                   (ZodErrorMessage issues')))
                     None None]
                  (Some true))))
            None), w).
Proof.
  intros Hname Hraw.
  destruct (arguments_violate params name issues Hraw) as [issues' Hargs].
  exists issues'. split; [exact Hargs|]. split.
  { intros Htruthy. unfold arguments_of in Hargs. rewrite Htruthy in Hargs.
    congruence. }
  destruct (is_memory_tool name) eqn:Hkind.
  - destruct (memory_violation name (arguments_of params) issues' w Hkind Hargs)
      as [Hunregistered Hhandler].
    split; [exact Hhandler|]. split.
    + intros definitions router message w1 Hregistered Hthrows.
      rewrite (handleToolsCall_named definitions router rid params name w Hname),
        Hregistered.
      simpl negb. cbv iota. unfold try_catch, bind. now rewrite Hthrows.
    + rewrite (handleToolsCall_named Tools.toolDefinitions Tools.executeTool
                 rid params name w Hname), Hunregistered.
      reflexivity.
  - destruct (utility_violation name (arguments_of params) issues' w Hkind Hargs)
      as [Hregistered Hrouter].
    rewrite (handleToolsCall_named Tools.toolDefinitions Tools.executeTool
               rid params name w Hname), Hregistered.
    simpl negb. cbv iota. unfold try_catch, bind. now rewrite Hrouter.
Qed.

Lemma schema_violation_channels_witness :
  exists issues',
    violations (str "memory_save")
      (arguments_of [Tools.member "name" (Tools.jstr "memory_save");
                     Tools.member "arguments" (JObject [
                       Tools.member "userId" (Tools.jstr "")])])
      = Some issues'
    /\ Memory.executeMemoryTool (str "memory_save")
         (arguments_of [Tools.member "name" (Tools.jstr "memory_save");
                        Tools.member "arguments" (JObject [
                          Tools.member "userId" (Tools.jstr "")])])
         Sample.world =
       (Throw (InvalidParamsError (join (str ", ") (map message issues'))),
        Sample.world)
    /\ Mcp.handleToolsCall Tools.toolDefinitions Tools.executeTool
         (IdString (str "req-1"))
         (Some [Tools.member "name" (Tools.jstr "memory_save");
                Tools.member "arguments" (JObject [
                  Tools.member "userId" (Tools.jstr "")])]) Sample.world =
       (Return (mkResponse (str "2.0") (Some (IdString (str "req-1"))) None
          (Some (mkError (-32602)
                   (str "Unknown tool: " ++ str "memory_save") None))),
        Sample.world).
Proof.
  destruct (schema_violation_channels (IdString (str "req-1"))
              [Tools.member "name" (Tools.jstr "memory_save");
               Tools.member "arguments" (JObject [
                 Tools.member "userId" (Tools.jstr "")])]
              (str "memory_save")
              [mkIssue too_small [Key (str "userId")] (str "userId is required");
               mkIssue invalid_type [Key (str "content")] (str "Required")]
              Sample.world)
    as (issues' & Hviol & _ & Hanswer); [reflexivity | reflexivity |].
  exists issues'. split; [exact Hviol|].
  change (is_memory_tool (str "memory_save")) with true in Hanswer.
  destruct Hanswer as (Hhandler & _ & Hdispatcher). now split.
Defined.

(** The message the handler of [memory_save] raises on an empty [userId]
    and a missing [content]. *)
Example memory_save_violation_message :
  fst (Memory.memorySave
         (Some (JObject [Tools.member "userId" (Tools.jstr "")])) Sample.world) =
  Throw (InvalidParamsError (str "userId is required, Required")).
Proof. reflexivity. Qed.

(** With the registry of tools/index.ts a memory tool is an unknown tool,
    whatever its arguments. *)
Example memory_save_on_utility_registry :
  fst (Mcp.handleToolsCall Tools.toolDefinitions Tools.executeTool
         (IdNumber 1)
         (Some [Tools.member "name" (Tools.jstr "memory_save")]) Sample.world) =
  Return (mkResponse (str "2.0") (Some (IdNumber 1)) None
    (Some (mkError (-32602) (str "Unknown tool: memory_save") None))).
Proof. reflexivity. Qed.

Example echo_violation_in_band :
  fst (Mcp.handleToolsCall Tools.toolDefinitions Tools.executeTool
         (IdNumber 1)
         (Some [Tools.member "name" (Tools.jstr "echo");
                Tools.member "arguments" (JObject [
                  Tools.member "text" (JNumber 5)])]) Sample.world) =
  Return (mkResponse (str "2.0") (Some (IdNumber 1))
    (Some (ToolCallResult (Tools.invalid_input [
       mkIssue invalid_type [Key (str "text")]
         (str "Expected string, received number")])))
    None).
Proof. reflexivity. Qed.

(** ** text_stats against the specification's wording (C6) *)

Lemma filter_split_from (sep : N -> bool) (s : jsstring) (in_run : bool) :
  filter Tools.nonempty (split_from sep in_run s) = Spec.maximal_runs sep s.
Proof.
  revert in_run. induction s as [|c s IH]; intros in_run; [reflexivity|].
  cbn [split_from Spec.maximal_runs].
  destruct (sep c) eqn:Hc.
  - destruct in_run; cbn [filter]; apply IH.
  - specialize (IH false).
    destruct s as [|d s']; [reflexivity|].
    cbn [split_from] in *.
    destruct (sep d) eqn:Hd.
    + cbn [filter Tools.nonempty List.length Nat.ltb Nat.leb] in *.
      now rewrite IH.
    + destruct (split_from sep false s') as [|piece pieces];
        cbn [filter Tools.nonempty List.length Nat.ltb Nat.leb] in *;
        now rewrite <- IH.
Qed.

Lemma trimStart_all (s : jsstring) :
  forallb is_white_space s = true -> trimStart s = [].
Proof.
  induction s as [|c s IH]; [reflexivity|].
  cbn [forallb trimStart]. intros H. apply andb_true_iff in H as [Hc Hs].
  rewrite Hc. now apply IH.
Qed.

Lemma trimStart_some (s : jsstring) :
  forallb is_white_space s = false ->
  exists c t, trimStart s = c :: t /\ is_white_space c = false.
Proof.
  induction s as [|c s IH]; [discriminate|].
  cbn [forallb trimStart]. intros H.
  destruct (is_white_space c) eqn:Hc.
  - apply IH. exact H.
  - now exists c, s.
Qed.

Lemma nonempty_trim (s : jsstring) :
  Tools.nonempty (trim s) = negb (Spec.whitespace_only s).
Proof.
  unfold Spec.whitespace_only, trim, trimEnd, Tools.nonempty.
  rewrite length_rev.
  destruct (forallb is_white_space s) eqn:Hall.
  - now rewrite (trimStart_all s Hall).
  - destruct (trimStart_some s Hall) as (c & t & -> & Hc).
    assert (Hrev : forallb is_white_space (rev (c :: t)) = false).
    { cbn [rev]. rewrite forallb_app. cbn [forallb]. rewrite Hc.
      now rewrite andb_false_r. }
    destruct (trimStart_some _ Hrev) as (c' & t' & -> & _).
    reflexivity.
Qed.

Lemma filter_filter_implied {A} (f g : A -> bool) (l : list A) :
  (forall x, f x = true -> g x = true) ->
  filter f (filter g l) = filter f l.
Proof.
  intros Himp. induction l as [|x l IH]; [reflexivity|].
  cbn [filter]. destruct (g x) eqn:Hg; cbn [filter].
  - now rewrite IH.
  - destruct (f x) eqn:Hf; [|exact IH].
    apply Himp in Hf. congruence.
Qed.


Lemma code_words (text : jsstring) :
  filter Tools.nonempty (split_class is_white_space (trim text)) = Spec.words text.
Proof. apply filter_split_from. Qed.

Lemma code_sentences (text : jsstring) :
  filter (fun s => Tools.nonempty (trim s))
    (split_class Tools.is_sentence_end text) = Spec.sentences text.
Proof.
  unfold Spec.sentences, split_class.
  rewrite <- (filter_split_from Tools.is_sentence_end text false).
  rewrite <- (filter_filter_implied (fun s => Tools.nonempty (trim s))
                Tools.nonempty).
  - apply filter_ext. intros s. apply nonempty_trim.
  - intros [|c s]; [discriminate|reflexivity].
Qed.



(** ** generate_uuid (C7, C8) *)

(** *** Scaling a double of the unit interval by 16 *)

Local Open Scope Z_scope.

Lemma digits2_pos_bound (m : positive) : Zpos m < 2 ^ Zpos (digits2_pos m).
Proof.
  induction m as [m IH|m IH|]; cbn [digits2_pos];
    rewrite ?Pos2Z.inj_succ, ?Z.pow_succ_r by lia; lia.
Qed.

Lemma Zdigits2_double (z : Z) : 0 < z -> Zdigits2 (2 * z) = Zdigits2 z + 1.
Proof.
  destruct z as [|p|p]; try lia. intros _.
  cbn [Z.mul Pos.mul Zdigits2 digits2_pos]. now rewrite Pos2Z.inj_succ.
Qed.

Lemma Zdigits2_shift (z k : Z) : 0 < z -> 0 <= k ->
  Zdigits2 (z * 2 ^ k) = Zdigits2 z + k.
Proof.
  intros Hz Hk. revert k Hk.
  apply (natlike_ind (fun k => Zdigits2 (z * 2 ^ k) = Zdigits2 z + k)).
  - now rewrite Z.mul_1_r, Z.add_0_r.
  - intros k Hk IH. rewrite Z.pow_succ_r by lia.
    replace (z * (2 * 2 ^ k)) with (2 * (z * 2 ^ k)) by ring.
    rewrite Zdigits2_double by (apply Z.mul_pos_pos; [lia | apply Z.pow_pos_nonneg; lia]).
    lia.
Qed.

Lemma shr_1_double (q : Z) : 0 <= q ->
  shr_1 (Build_shr_record (q * 2) false false) = Build_shr_record q false false.
Proof.
  rewrite Z.mul_comm. destruct q as [|p|p]; try lia; intros _; reflexivity.
Qed.

Lemma pow2_xO (p : positive) : 2 ^ Zpos p~0 = 2 ^ Zpos p * 2 ^ Zpos p.
Proof. rewrite <- Z.pow_add_r by lia. f_equal. lia. Qed.

Lemma pow2_xI (p : positive) : 2 ^ Zpos p~1 = 2 ^ Zpos p * 2 ^ Zpos p * 2.
Proof.
  replace (Zpos p~1) with (Z.succ (Zpos p + Zpos p)) by lia.
  rewrite Z.pow_succ_r, Z.pow_add_r by lia. ring.
Qed.

Lemma iter_shr_1_exact (p : positive) : forall q, 0 <= q ->
  iter_pos shr_1 p (Build_shr_record (q * 2 ^ Zpos p) false false)
  = Build_shr_record q false false.
Proof.
  induction p as [p IH|p IH|]; intros q Hq; cbn [iter_pos].
  - assert (Hpow : 0 <= 2 ^ Zpos p) by (apply Z.pow_nonneg; lia).
    rewrite pow2_xI.
    replace (q * (2 ^ Zpos p * 2 ^ Zpos p * 2))
      with (q * 2 ^ Zpos p * 2 ^ Zpos p * 2) by ring.
    rewrite shr_1_double by (repeat apply Z.mul_nonneg_nonneg; lia).
    rewrite IH by (apply Z.mul_nonneg_nonneg; lia).
    now apply IH.
  - assert (Hpow : 0 <= 2 ^ Zpos p) by (apply Z.pow_nonneg; lia).
    rewrite pow2_xO.
    replace (q * (2 ^ Zpos p * 2 ^ Zpos p))
      with (q * 2 ^ Zpos p * 2 ^ Zpos p) by ring.
    rewrite IH by (apply Z.mul_nonneg_nonneg; lia).
    now apply IH.
  - change (2 ^ 1) with 2. now apply shr_1_double.
Qed.

Lemma shr_exact (q n e : Z) : 0 <= q -> 0 <= n ->
  shr (Build_shr_record (q * 2 ^ n) false false) e n
  = (Build_shr_record q false false, e + n).
Proof.
  intros Hq Hn. destruct n as [|p|p]; try lia; cbn [shr].
  - now rewrite Z.mul_1_r, Z.add_0_r.
  - now rewrite iter_shr_1_exact.
Qed.

Lemma mul16_bound (m : positive) (e : Z) :
  bounded prec emax m e = true ->
  Zpos m < 2 ^ (- e) -> e <= -52 ->
  exists m' e',
    SF64mul (S754_finite false m e) (S754_finite false 4503599627370496 (-48))
      = S754_finite false m' e'
    /\ e' < 0 /\ Zpos m' < 16 * 2 ^ (- e').
Proof.
  intros Hb Hm He.
  unfold bounded, canonical_mantissa, fexp, FloatOps.emin, SpecFloat.emin in Hb.
  apply andb_true_iff in Hb as [Hcan _]. apply Z.eqb_eq in Hcan.
  change prec with 53 in Hcan. change emax with 1024 in Hcan.
  pose proof (digits2_pos_bound m) as Hdig.
  assert (Hd : 1 <= Zpos (digits2_pos m) <= 53) by lia.
  set (d := Zpos (digits2_pos m)) in *.
  set (K := Z.max (d + e + 4 - 53) (-1074)).
  set (n1 := K - (e - 48)).
  assert (Hn1 : 0 <= n1 <= 52) by (unfold n1, K; lia).
  unfold SF64mul, SFmul. cbn [xorb].
  unfold binary_round_aux.
  assert (HM : Zpos (m * 4503599627370496) = (Zpos m * 2 ^ (52 - n1)) * 2 ^ n1).
  { rewrite Pos2Z.inj_mul. change (Zpos 4503599627370496) with (2 ^ 52).
    rewrite <- Z.mul_assoc, <- Z.pow_add_r by lia. do 2 f_equal. lia. }
  assert (Hdig1 : Zdigits2 (Zpos (m * 4503599627370496)) = d + 52).
  { rewrite Pos2Z.inj_mul. change (Zpos 4503599627370496) with (2 ^ 52).
    rewrite Zdigits2_shift by lia. reflexivity. }
  assert (Hs1 : shr_fexp prec emax (Zpos (m * 4503599627370496)) (e + -48) loc_Exact
                = (Build_shr_record (Zpos m * 2 ^ (52 - n1)) false false, K)).
  { unfold shr_fexp. rewrite Hdig1. cbn [shr_record_of_loc].
    unfold fexp, FloatOps.emin, SpecFloat.emin.
    change prec with 53. change emax with 1024.
    replace (Z.max (d + 52 + (e + -48) - 53) (3 - 1024 - 53) - (e + -48)) with n1
      by (unfold n1, K; lia).
    rewrite HM, shr_exact by (try apply Z.mul_nonneg_nonneg; try apply Z.pow_nonneg; lia).
    f_equal. unfold n1. lia. }
  rewrite Hs1. cbn [shr_m loc_of_shr_record round_nearest_even].
  assert (Hpos : 0 < Zpos m * 2 ^ (52 - n1))
    by (apply Z.mul_pos_pos; [lia | apply Z.pow_pos_nonneg; lia]).
  assert (Hs2 : shr_fexp prec emax (Zpos m * 2 ^ (52 - n1)) K loc_Exact
                = (Build_shr_record (Zpos m * 2 ^ (52 - n1)) false false, K)).
  { unfold shr_fexp. rewrite Zdigits2_shift by lia. cbn [shr_record_of_loc Zdigits2].
    unfold fexp, FloatOps.emin, SpecFloat.emin.
    change prec with 53. change emax with 1024. fold d.
    replace (Z.max (d + (52 - n1) + K - 53) (3 - 1024 - 53) - K) with 0
      by (unfold n1, K; lia).
    reflexivity. }
  rewrite Hs2. cbn [shr_m].
  destruct (Zpos m * 2 ^ (52 - n1)) as [|m'|m'] eqn:Hm'; try lia.
  assert (HK : K <= -48) by (unfold K; lia).
  replace (K <=? emax - prec) with true
    by (symmetry; apply Z.leb_le; change emax with 1024; change prec with 53; lia).
  exists m', K. split; [reflexivity|]. split; [lia|].
  rewrite <- Hm'.
  replace (16 * 2 ^ (- K)) with (2 ^ (- e) * 2 ^ (52 - n1)).
  2:{ change 16 with (2 ^ 4). rewrite <- !Z.pow_add_r by lia. f_equal. unfold n1. lia. }
  apply Z.mul_lt_mono_pos_r; [apply Z.pow_pos_nonneg; lia | exact Hm].
Qed.

Lemma SFltb_finite (m1 m2 : positive) (e1 e2 : Z) :
  SFltb (S754_finite false m1 e1) (S754_finite false m2 e2) = true ->
  e1 < e2 \/ (e1 = e2 /\ Zpos m1 < Zpos m2).
Proof.
  unfold SFltb, SFcompare.
  destruct (e1 ?= e2) eqn:Hcmp; try discriminate.
  - apply Z.compare_eq in Hcmp.
    destruct (Pos.compare_cont Datatypes.Eq m1 m2) eqn:Hm; try discriminate.
    intros _. right. split; [exact Hcmp|]. apply Pos2Z.pos_lt_pos. exact Hm.
  - intros _. left. exact Hcmp.
Qed.

Lemma below_one (m : positive) (e : Z) :
  bounded prec emax m e = true ->
  SFltb (S754_finite false m e) (S754_finite false 4503599627370496 (-52)) = true ->
  Zpos m < 2 ^ (- e) /\ e <= -52.
Proof.
  intros Hvalid Hlt. apply SFltb_finite in Hlt.
  destruct Hlt as [Hlow | [-> Hm]].
  - pose proof (digits2_pos_bound m) as Hdig.
    unfold bounded, canonical_mantissa, fexp, FloatOps.emin, SpecFloat.emin
      in Hvalid.
    apply andb_true_iff in Hvalid as [Hcan _]. apply Z.eqb_eq in Hcan.
    change prec with 53 in Hcan. change emax with 1024 in Hcan.
    split; [|lia].
    apply Z.lt_le_trans with (2 ^ Zpos (digits2_pos m)); [exact Hdig|].
    apply Z.pow_le_mono_r; lia.
  - split; [|lia]. exact Hm.
Qed.

(** A double of the unit interval is a zero or a positive double below
    one. *)
Lemma unit_interval_inv (rnd : float) :
  Spec.unit_interval rnd = true ->
  (exists s, Prim2SF rnd = S754_zero s)
  \/ (exists m e, Prim2SF rnd = S754_finite false m e
        /\ bounded prec emax m e = true /\ Zpos m < 2 ^ (- e) /\ e <= -52).
Proof.
  unfold Spec.unit_interval. intros H. apply andb_true_iff in H as [Hle Hlt].
  rewrite leb_spec in Hle. rewrite ltb_spec in Hlt.
  change (Prim2SF 0) with (S754_zero false) in Hle.
  change (Prim2SF 1) with (S754_finite false 4503599627370496 (-52)) in Hlt.
  pose proof (Prim2SF_valid rnd) as Hvalid.
  destruct (Prim2SF rnd) as [s|s| |s m e].
  - left. now exists s.
  - destruct s; discriminate.
  - discriminate.
  - destruct s; [discriminate|]. right. exists m, e.
    destruct (below_one m e Hvalid Hlt). auto.
Qed.

(** [(Math.random() * 16) | 0] is one of 0, ..., 15. *)
Lemma random_nibble (rnd : float) :
  Spec.unit_interval rnd = true -> 0 <= ToInt32 (rnd * 16) <= 15.
Proof.
  intros H. unfold ToInt32, truncate. rewrite mul_spec.
  change (Prim2SF 16) with (S754_finite false 4503599627370496 (-48)).
  destruct (unit_interval_inv rnd H) as [[s ->] | (m & e & -> & Hvalid & Hm & He)].
  - cbn [SF64mul SFmul]. rewrite Z.mod_0_l by lia.
    change (0 <? 2 ^ 31) with true. lia.
  - destruct (mul16_bound m e Hvalid Hm He) as (m' & e' & -> & He' & Hm').
    replace (0 <=? e') with false by (symmetry; apply Z.leb_gt; lia).
    assert (Hq : 0 <= Zpos m' / 2 ^ (- e') <= 15).
    { assert (0 < 2 ^ (- e')) by (apply Z.pow_pos_nonneg; lia).
      split; [apply Z.div_pos; lia|].
      apply Z.lt_succ_r. apply Z.div_lt_upper_bound; lia. }
    rewrite Z.mod_small by lia.
    replace (Zpos m' / 2 ^ (- e') <? 2 ^ 31) with true
      by (symmetry; apply Z.ltb_lt; lia).
    lia.
Qed.

Local Close Scope Z_scope.

Local Open Scope Z_scope.

Lemma toString16_digit (v : Z) : 0 <= v <= 15 -> toString16 v = [hex_digit v].
Proof.
  intros Hv. unfold toString16.
  replace (v <? 0) with false by (symmetry; apply Z.ltb_ge; lia).
  cbn [hex_digits].
  now replace (v <? 16) with true by (symmetry; apply Z.ltb_lt; lia).
Qed.

Lemma hex_digit_is_hex (v : Z) : 0 <= v <= 15 -> Spec.is_hex (hex_digit v) = true.
Proof.
  intros Hv.
  assert (H : v = 0 \/ v = 1 \/ v = 2 \/ v = 3 \/ v = 4 \/ v = 5 \/ v = 6
              \/ v = 7 \/ v = 8 \/ v = 9 \/ v = 10 \/ v = 11 \/ v = 12
              \/ v = 13 \/ v = 14 \/ v = 15) by lia.
  repeat (destruct H as [-> | H]; [reflexivity|]). now subst.
Qed.

Lemma variant_bits (r : Z) : 8 <= Z.lor (Z.land r 3) 8 <= 11.
Proof.
  change 3 with (Z.ones 2). rewrite Z.land_ones by lia.
  pose proof (Z.mod_pos_bound r (2 ^ 2) eq_refl) as Hmod.
  change (2 ^ 2) with 4 in *.
  assert (H : r mod 4 = 0 \/ r mod 4 = 1 \/ r mod 4 = 2 \/ r mod 4 = 3) by lia.
  destruct H as [-> | [-> | [-> | ->]]]; cbn; lia.
Qed.

Lemma hex_digit_is_variant (v : Z) :
  8 <= v <= 11 -> Spec.is_variant (hex_digit v) = true.
Proof.
  intros Hv. assert (H : v = 8 \/ v = 9 \/ v = 10 \/ v = 11) by lia.
  destruct H as [-> | [-> | [-> | ->]]]; reflexivity.
Qed.

Local Close Scope Z_scope.

(** The character written for an [x] is a hexadecimal digit when the draw
    lies in the unit interval; the one written for a [y] is one of 8, 9,
    a, b whatever the draw. *)
Lemma uuid_digit_x (rnd : float) :
  Spec.unit_interval rnd = true ->
  exists d, Tools.uuid_digit 120 rnd = [d] /\ Spec.is_hex d = true.
Proof.
  intros H. pose proof (random_nibble rnd H) as Hr.
  exists (hex_digit (ToInt32 (rnd * 16))). split.
  - unfold Tools.uuid_digit. change (120 =? 120)%N with true. cbv iota.
    now apply toString16_digit.
  - now apply hex_digit_is_hex.
Qed.

Lemma uuid_digit_y (rnd : float) :
  exists d, Tools.uuid_digit 121 rnd = [d] /\ Spec.is_variant d = true.
Proof.
  pose proof (variant_bits (ToInt32 (rnd * 16))) as Hv.
  exists (hex_digit (Z.lor (Z.land (ToInt32 (rnd * 16)) 3) 8)). split.
  - unfold Tools.uuid_digit. change (121 =? 120)%N with false. cbv iota.
    apply toString16_digit. lia.
  - now apply hex_digit_is_variant.
Qed.

Lemma replace_xy_matches (template : jsstring) : forall w : World,
  (forall k, Spec.unit_interval (random w k) = true) ->
  exists uuid w',
    Tools.replace_xy template w = (Return uuid, w')
    /\ Spec.matches template uuid = true
    /\ random w' = random w.
Proof.
  induction template as [|c rest IH]; intros w Hrandom.
  - exists [], w. repeat split.
  - cbn [Tools.replace_xy].
    destruct ((c =? 120) || (c =? 121))%N eqn:Hxy.
    + unfold bind at 1. cbn [Math_random].
      set (w1 := mkWorld _ _ _ _ _ _ _ _ _ _).
      destruct (IH w1 Hrandom) as (tail & w' & Htail & Hmatch & Hsame).
      unfold bind, ret. rewrite Htail.
      assert (Hdigit : exists d,
                Tools.uuid_digit c (random w (random_draws w)) = [d]
                /\ Spec.pattern_char c d = true).
      { unfold Spec.pattern_char.
        destruct (c =? 120)%N eqn:Hx.
        - apply N.eqb_eq in Hx. subst c. apply uuid_digit_x, Hrandom.
        - cbn [orb] in Hxy. rewrite Hxy.
          apply N.eqb_eq in Hxy. subst c. apply uuid_digit_y. }
      destruct Hdigit as (d & -> & Hd).
      exists (d :: tail), w'. repeat split; [|exact Hsame].
      cbn [app Spec.matches]. now rewrite Hd, Hmatch.
    + destruct (IH w Hrandom) as (tail & w' & Htail & Hmatch & Hsame).
      unfold bind, ret. rewrite Htail.
      exists (c :: tail), w'. repeat split; [|exact Hsame].
      cbn [Spec.matches]. unfold Spec.pattern_char.
      apply orb_false_iff in Hxy as [-> ->].
      now rewrite N.eqb_refl, Hmatch.
Qed.

(** C7: whatever values of the unit interval the random source produces,
    [generate_uuid] returns a uuid that matches
    xxxxxxxx-xxxx-4xxx-yxxx-xxxxxxxxxxxx with every x a hexadecimal digit,
    the version nibble 4 and the variant nibble y one of 8, 9, a, b. *)
Theorem generated_uuid_matches_pattern (w : World) :
  (forall k, Spec.unit_interval (random w k) = true) ->
  exists uuid w',
    Tools.generateUuid w =
      (Return (mkToolResult
                 [Tools.text_content (Stringified (JObject [
                    Tools.member "uuid" (JString uuid)]))] None), w')
    /\ Spec.is_uuid_v4 uuid = true.
Proof.
  intros Hrandom.
  destruct (replace_xy_matches Tools.uuid_template w Hrandom)
    as (uuid & w' & Huuid & Hmatch & _).
  exists uuid, w'. split; [|exact Hmatch].
  unfold Tools.generateUuid, bind, ret. now rewrite Huuid.
Qed.

Example generated_uuid_sample :
  fst (Tools.replace_xy Tools.uuid_template Sample.world)
  = Return (str "00112233-4455-4667-b889-9aabbccddeef").
Proof. vm_compute. reflexivity. Qed.

(** The uuid is a function of the results of [Math.random()] alone: two
    worlds in which the coming draws agree yield the same uuid, whatever
    else they hold. *)
Lemma replace_xy_draws (template : jsstring) : forall w1 w2 : World,
  (forall k, random w1 (random_draws w1 + k) = random w2 (random_draws w2 + k)) ->
  fst (Tools.replace_xy template w1) = fst (Tools.replace_xy template w2).
Proof.
  induction template as [|c rest IH]; intros w1 w2 Hdraws; [reflexivity|].
  cbn [Tools.replace_xy].
  destruct ((c =? 120) || (c =? 121))%N.
  - unfold bind at 1 3. cbn [Math_random].
    set (v1 := mkWorld _ _ _ _ _ _ _ _ _ _).
    set (v2 := mkWorld (clock w2) _ _ _ _ _ _ _ _ _).
    assert (Hnext : forall k,
              random v1 (random_draws v1 + k) = random v2 (random_draws v2 + k)).
    { intros k. subst v1 v2. cbn [random random_draws].
      rewrite !Nat.add_succ_l, <- !Nat.add_succ_r. apply Hdraws. }
    specialize (IH v1 v2 Hnext).
    pose proof (Hdraws 0) as H0. rewrite !Nat.add_0_r in H0. rewrite H0.
    unfold bind, ret.
    destruct (Tools.replace_xy rest v1) as [[t1|e1] u1],
             (Tools.replace_xy rest v2) as [[t2|e2] u2];
      cbn [fst] in *; congruence.
  - specialize (IH w1 w2 Hdraws). unfold bind, ret.
    destruct (Tools.replace_xy rest w1) as [[t1|e1] u1],
             (Tools.replace_xy rest w2) as [[t2|e2] u2];
      cbn [fst] in *; congruence.
Qed.

(** C8: the only source of randomness of [generate_uuid] is
    [Math.random()]: when the coming draws of two worlds agree, so do the
    uuids.  The draws of the world used in the examples are 0/32, 1/32,
    ... and give 00112233-4455-4667-b889-9aabbccddeef. *)
Theorem uuid_is_drawn_from_Math_random :
  (forall w1 w2 : World,
     (forall k, random w1 (random_draws w1 + k) = random w2 (random_draws w2 + k)) ->
     fst (Tools.generateUuid w1) = fst (Tools.generateUuid w2))
  /\ fst (Tools.generateUuid Sample.world) =
     Return (mkToolResult
               [Tools.text_content (Stringified (JObject [
                  Tools.member "uuid"
                    (Tools.jstr "00112233-4455-4667-b889-9aabbccddeef")]))]
               None).
Proof.
  split; [|vm_compute; reflexivity].
  intros w1 w2 Hdraws.
  pose proof (replace_xy_draws Tools.uuid_template w1 w2 Hdraws) as H.
  unfold Tools.generateUuid, bind, ret.
  destruct (Tools.replace_xy Tools.uuid_template w1) as [[t1|e1] u1],
           (Tools.replace_xy Tools.uuid_template w2) as [[t2|e2] u2];
    cbn [fst] in *; congruence.
Qed.

Lemma generated_uuid_matches_pattern_witness :
  exists uuid w',
    Tools.generateUuid Sample.steady_world =
      (Return (mkToolResult
                 [Tools.text_content (Stringified (JObject [
                    Tools.member "uuid" (JString uuid)]))] None), w')
    /\ Spec.is_uuid_v4 uuid = true.
Proof.
  apply (generated_uuid_matches_pattern Sample.steady_world).
  intros k. reflexivity.
Defined.

(** ** memory_update (C9) *)

(** With the client at hand [getSupabaseClient] returns it, stored. *)
Lemma getSupabaseClient_available (w : World) :
  client_available w = true ->
  exists client,
    getSupabaseClient w =
    (Return client,
     mkWorld (clock w) (clock_reads w) (random w) (random_draws w)
       (SUPABASE_URL w) (SUPABASE_ANON_KEY w) (Some client)
       (remote w) (sent w) (createClient w)).
Proof.
  unfold client_available, getSupabaseClient.
  destruct (supabaseInstance w) as [client|] eqn:Hinstance.
  - intros _. exists client. rewrite <- Hinstance. now destruct w.
  - destruct (SUPABASE_URL w) as [[|c url]|]; try discriminate.
    destruct (SUPABASE_ANON_KEY w) as [[|d key]|]; try discriminate.
    cbn [truthy_string negb].
    destruct (createClient w (c :: url) (d :: key)) as [e|client];
      [discriminate|].
    intros _. now exists client.
Qed.

Section MemoryUpdate.

Variables (userId id : jsstring) (content : option jsstring)
  (type : option Memory.MemoryType) (tags : option (list jsstring))
  (importance : option float).




Lemma memoryUpdate_sends args (w : World) :
  safeParse Memory.MemoryUpdateInputSchema args
    = Success (Memory.mkMemoryUpdateInput userId id content type tags importance) ->
  client_available w = true ->
  sent (snd (Memory.memoryUpdate args w)) =
  sent w ++ [update_query userId id
               (Memory.updateData (clock w (clock_reads w))
                  content type tags importance)].
Proof.
  intros Hparsed Havailable.
  unfold Memory.memoryUpdate. rewrite Hparsed.
  destruct (getSupabaseClient_available w Havailable) as [client Hclient].
  unfold try_catch, bind. rewrite Hclient.
  cbn [Date_now]. unfold await. cbn [clock clock_reads sent remote].
  destruct (remote w (sent w) _) as [e|r].
  - destruct e; reflexivity.
  - destruct (response_error r); [reflexivity|].
    destruct (negb _); [reflexivity|].
    unfold Memory.lift.
    destruct (Memory.toMemoryOutput _) as [o|e]; [reflexivity|].
    destruct e; reflexivity.
Qed.


End MemoryUpdate.


(** When [createClient] throws, as on a URL without its scheme, the
    handler catches it: nothing is sent and the answer is the unexpected
    error. *)
Example memoryUpdate_on_malformed_url :
  Memory.memoryUpdate
    (Some (JObject [Tools.member "userId" (Tools.jstr "u1");
                    Tools.member "id" (Tools.jstr "m1");
                    Tools.member "content" (Tools.jstr "coffee")]))
    Sample.malformed_world =
  (Return (Memory.createErrorResult
             (str "An unexpected error occurred while updating memory")),
   Sample.malformed_world).
Proof. reflexivity. Qed.

(** The years beyond 9999 are written with a sign and six digits. *)
Example toISOString_year_10000 :
  toISOString 253402300800000 = str "+010000-01-01T00:00:00.000Z".
Proof. reflexivity. Qed.

(** ** The second copy of the endpoint and notifications (C2) *)

Section SecondCopy.

Variable toolDefinitions : list McpTool.
Variable executeTool : jsstring -> option JSON -> Eff McpToolResult.
Variable JSON_parse : jsstring -> option JSON.

(** The second copy routes every structurally valid request, whether or
    not it carries an [id]. *)
Lemma second_copy_routes_every_request (event : HandlerEvent) parsed request
  (w : World) :
  httpMethod event = str "POST" ->
  JSON_parse (body_text event) = Some parsed ->
  safeParse JsonRpcRequestSchema (Some parsed) = Success request ->
  Mcp2.handler toolDefinitions executeTool JSON_parse event w =
  (response <- Mcp2.route toolDefinitions executeTool request ;;
   ret (mkHandlerResponse 200 Mcp2.corsHeaders
          (JSON_stringify_response response))) w.
Proof.
  intros Hpost Hparse Hvalid. unfold Mcp2.handler. rewrite Hpost.
  change (jsstring_eqb (str "POST") (str "OPTIONS")) with false.
  change (jsstring_eqb (str "POST") (str "POST")) with true.
  cbv beta iota zeta. simpl negb. cbv iota.
  fold (body_text event). now rewrite Hparse, Hvalid.
Qed.

End SecondCopy.

(** C2: the second copy of the endpoint answers notifications.  The body
    [{"jsonrpc":"2.0","method":"ping"}], which has no [id], is routed to
    [ping] and answered with status 200 and an envelope that has a
    [result]; [{"jsonrpc":"2.0","id":null,"method":"initialize"}] is
    routed to [initialize] and answered as well.  (The first copy returns
    status 204 and an empty body on both: [notification_is_not_routed].) *)
Theorem second_copy_answers_notifications :
  Mcp2.handler Tools.toolDefinitions Tools.executeTool Sample.JSON_parse
    (Sample.post (Some Sample.ping_notification)) Sample.world =
  (Return (mkHandlerResponse 200 Mcp2.corsHeaders
             (JsonBody (mkResponse (str "2.0") None (Some EmptyObject) None))),
   Sample.world)
  /\ Mcp2.handler Tools.toolDefinitions Tools.executeTool Sample.JSON_parse
       (Sample.post (Some Sample.initialize_null_id)) Sample.world =
     (Return (mkHandlerResponse 200 Mcp2.corsHeaders
                (JsonBody (mkResponse (str "2.0") (Some IdNull)
                   (Some (InitializeResult
                      (mkInitializeResult (str "2024-11-05") false
                         (mkServerInfo (str "chatgpt-mcp-server") (str "1.0.0")))))
                   None))),
      Sample.world)
  /\ Mcp.handler Tools.toolDefinitions Tools.executeTool Sample.JSON_parse
       (Sample.post (Some Sample.ping_notification)) Sample.world =
     (Return (mkHandlerResponse 204
                (cors_of (Sample.post (Some Sample.ping_notification)))
                EmptyBody),
      Sample.world).
Proof. repeat split. Qed.

(** ** Rounding to two decimals *)

(** [toFixed(2)] picks a nearest hundredth: for a double of exact value
    [m * 2^e] with [e < 0] the integer [n] it prints satisfies
    [|n - 100 * m * 2^e| <= 1/2]. *)
Lemma hundredths_nearest (m : positive) (e : Z) :
  (e < 0)%Z ->
  (2 * Z.abs (hundredths m e * 2 ^ (- e) - 100 * Zpos m) <= 2 ^ (- e))%Z.
Proof.
  intros He. unfold hundredths.
  replace (0 <=? e)%Z with false by (symmetry; apply Z.leb_gt; lia).
  replace (1 - e)%Z with (Z.succ (- e)) by lia.
  rewrite Z.pow_succ_r by lia.
  assert (Hp : (0 < 2 ^ (- e))%Z) by (apply Z.pow_pos_nonneg; lia).
  set (P := (2 ^ (- e))%Z) in *.
  pose proof (Z.div_mod (200 * Zpos m + P) (2 * P) ltac:(lia)) as Hdiv.
  pose proof (Z.mod_pos_bound (200 * Zpos m + P) (2 * P) ltac:(lia)) as Hmod.
  set (n := ((200 * Zpos m + P) / (2 * P))%Z) in *.
  nia.
Qed.

(** 23 / 6 is printed as 3.83; 203 / 200, whose double lies just below
    1.015, as 1.01. *)
Example toFixed2_samples :
  parseFloat_toFixed2 (23 / 6) = (383 / 100)%float
  /\ parseFloat_toFixed2 (203 / 200) = (101 / 100)%float
  /\ parseFloat_toFixed2 (9 / 8) = (113 / 100)%float.
Proof. repeat split. Qed.

(* ================================================================== *)
(** * Further properties of the code *)
(* ================================================================== *)

Import Coverage.

Lemma jsstring_eqb_sym (a b : jsstring) : jsstring_eqb a b = jsstring_eqb b a.
Proof.
  destruct (jsstring_eqb a b) eqn:Hab, (jsstring_eqb b a) eqn:Hba; try reflexivity.
  - apply jsstring_eqb_eq in Hab. subst. now rewrite jsstring_eqb_refl in Hba.
  - apply jsstring_eqb_eq in Hba. subst. now rewrite jsstring_eqb_refl in Hab.
Qed.

(** ** The endpoint as a whole *)

Section EndpointCoverage.

Variable toolDefinitions : list McpTool.
Variable executeTool : jsstring -> option JSON -> Eff McpToolResult.
Variable JSON_parse : jsstring -> option JSON.

(** The handler never throws: whatever the event, the registry, the
    router (even one that throws) and the parser, it returns a response
    whose status is 200, 204, 400 or 405 and whose headers are the CORS
    headers. *)
Theorem handler_always_responds (event : HandlerEvent) (w : World) :
  exists response w',
    Mcp.handler toolDefinitions executeTool JSON_parse event w
      = (Return response, w')
    /\ In (statusCode response) [200; 204; 400; 405]%Z
    /\ response_headers response = cors_of event.
Proof.
  destruct (jsstring_eqb (httpMethod event) (str "OPTIONS")) eqn:Hoptions.
  { unfold Mcp.handler. rewrite Hoptions.
    eexists; eexists; split; [reflexivity|]. split; [cbn [statusCode In]; auto 8 | reflexivity]. }
  destruct (jsstring_eqb (httpMethod event) (str "POST")) eqn:Hpost.
  2:{ unfold Mcp.handler. rewrite Hoptions, Hpost.
      eexists; eexists; split; [reflexivity|]. split; [cbn [statusCode In]; auto 8 | reflexivity]. }
  apply jsstring_eqb_eq in Hpost.
  rewrite (handler_post toolDefinitions executeTool JSON_parse event w Hpost).
  destruct (JSON_parse _) as [parsed|];
    [|eexists; eexists; split; [reflexivity|]; split; [cbn [statusCode In]; auto 8 | reflexivity]].
  destruct (safeParse _ _) as [request|issues];
    [|eexists; eexists; split; [reflexivity|]; split; [cbn [statusCode In]; auto 8 | reflexivity]].
  destruct (id request) as [rid|];
    [|eexists; eexists; split; [reflexivity|]; split; [cbn [statusCode In]; auto 8 | reflexivity]].
  destruct (route_envelope toolDefinitions executeTool rid request w)
    as (response & w' & Hroute & _).
  destruct rid as [s|x|];
    try (unfold bind; rewrite Hroute; eexists; eexists;
         split; [reflexivity|]; split; [cbn [statusCode In]; auto 8 | reflexivity]).
  eexists; eexists; split; [reflexivity|]; split; [cbn [statusCode In]; auto 8 | reflexivity].
Qed.

(** A response with status 200 is given only to a POST whose body was
    parsed and validated and carries a string or number [id]; its body is
    then an envelope whose [id] is that [id] as JSON writes it.  With any
    other status the world is as it was before: nothing was routed. *)
Theorem status_200_means_routed (event : HandlerEvent) response (w w' : World) :
  Mcp.handler toolDefinitions executeTool JSON_parse event w
    = (Return response, w') ->
  (statusCode response = 200%Z ->
     exists parsed request rid envelope,
       httpMethod event = str "POST"
       /\ JSON_parse (body_text event) = Some parsed
       /\ safeParse JsonRpcRequestSchema (Some parsed) = Success request
       /\ id request = Some rid /\ rid <> IdNull
       /\ response_body response = JsonBody envelope
       /\ response_id envelope = Some (written_id rid))
  /\ (statusCode response <> 200%Z -> w' = w).
Proof.
  intros Hrun.
  destruct (jsstring_eqb (httpMethod event) (str "OPTIONS")) eqn:Hoptions.
  { unfold Mcp.handler in Hrun. rewrite Hoptions in Hrun.
    inversion Hrun; subst. split; [discriminate|reflexivity]. }
  destruct (jsstring_eqb (httpMethod event) (str "POST")) eqn:Hpost.
  2:{ unfold Mcp.handler in Hrun. rewrite Hoptions, Hpost in Hrun.
      inversion Hrun; subst. split; [discriminate|reflexivity]. }
  apply jsstring_eqb_eq in Hpost.
  rewrite (handler_post toolDefinitions executeTool JSON_parse event w Hpost)
    in Hrun.
  destruct (JSON_parse _) as [parsed|] eqn:Hparse;
    [|inversion Hrun; subst; split; [discriminate|reflexivity]].
  destruct (safeParse _ _) as [request|issues] eqn:Hvalid;
    [|inversion Hrun; subst; split; [discriminate|reflexivity]].
  destruct (id request) as [rid|] eqn:Hid;
    [|inversion Hrun; subst; split; [discriminate|reflexivity]].
  destruct (route_envelope toolDefinitions executeTool rid request w)
    as (envelope & w1 & Hroute & Hrid & _).
  destruct (written_envelope envelope rid Hrid) as [Hwritten _].
  destruct rid as [s|x|];
    [| |inversion Hrun; subst; split; [discriminate|reflexivity]];
    unfold bind in Hrun; rewrite Hroute in Hrun; inversion Hrun; subst;
    (split; [intros _|intros H; now contradiction H]);
    exists parsed, request; eexists; exists (written envelope);
    repeat split; try eassumption; try reflexivity; discriminate.
Qed.

(** A method that is none of [initialize], [tools/list], [tools/call] and
    [ping] is answered, with HTTP status 200, by the JSON-RPC error -32601
    whose message ends with the method name, under the [id] as JSON
    writes it (the [id] itself when it is a string or a number that is
    finite and not the negative zero); the world is untouched. *)
Theorem unknown_method_is_not_found (event : HandlerEvent) parsed request rid
  (w : World) :
  httpMethod event = str "POST" ->
  JSON_parse (body_text event) = Some parsed ->
  safeParse JsonRpcRequestSchema (Some parsed) = Success request ->
  id request = Some rid ->
  rid <> IdNull ->
  known_method (method request) = false ->
  Mcp.handler toolDefinitions executeTool JSON_parse event w =
  (Return (mkHandlerResponse 200 (cors_of event)
     (JsonBody (mkResponse (str "2.0") (Some (written_id rid)) None
        (Some (mkError (-32601)
                 (str "Method not found: " ++ method request) None))))), w)
  /\ ((forall x, rid = IdNumber x -> writable x = true) ->
      Mcp.handler toolDefinitions executeTool JSON_parse event w =
      (Return (mkHandlerResponse 200 (cors_of event)
         (JsonBody (mkResponse (str "2.0") (Some rid) None
            (Some (mkError (-32601)
                     (str "Method not found: " ++ method request) None))))), w)).
Proof.
  intros Hpost Hparse Hvalid Hid Hpresent Hunknown.
  assert (Hecho : (forall x, rid = IdNumber x -> writable x = true) ->
                  written_id rid = rid).
  { intros Hwritable. destruct rid as [s|x|]; [reflexivity| |reflexivity].
    exact (written_id_writable x (Hwritable x eq_refl)). }
  cut (Mcp.handler toolDefinitions executeTool JSON_parse event w =
       (Return (mkHandlerResponse 200 (cors_of event)
          (JsonBody (mkResponse (str "2.0") (Some (written_id rid)) None
             (Some (mkError (-32601)
                      (str "Method not found: " ++ method request) None))))), w)).
  { intros Hanswer. split; [exact Hanswer|].
    intros Hwritable. rewrite Hanswer. now rewrite (Hecho Hwritable). }
  rewrite (handler_post toolDefinitions executeTool JSON_parse event w Hpost),
    Hparse, Hvalid, Hid.
  unfold known_method in Hunknown. cbn [existsb] in Hunknown.
  repeat (apply orb_false_iff in Hunknown as [? Hunknown]).
  assert (Hroute : Mcp.route toolDefinitions executeTool rid request w =
            (Return (Mcp.createErrorResponse rid ErrorCodes.METHOD_NOT_FOUND
                       (str "Method not found: " ++ method request) None), w)).
  { unfold Mcp.route.
    repeat match goal with
    | H : jsstring_eqb _ _ = false |- _ => rewrite H; clear H
    end. reflexivity. }
  destruct rid as [s|x|]; [| |contradiction];
    unfold bind; rewrite Hroute; reflexivity.
Qed.

(** Only [tools/call] can touch the world or consult the router: for
    every other method the routed answer leaves the world as it was and
    is the same whatever the router is. *)
Theorem only_tools_call_has_effects (rid : RequestId) request (w : World) :
  jsstring_eqb (method request) McpMethods.TOOLS_CALL = false ->
  snd (Mcp.route toolDefinitions executeTool rid request w) = w
  /\ forall router,
       Mcp.route toolDefinitions router rid request w
       = Mcp.route toolDefinitions executeTool rid request w.
Proof.
  intros Hcall. unfold Mcp.route. rewrite Hcall.
  destruct (jsstring_eqb (method request) McpMethods.INITIALIZE);
    [split; reflexivity|].
  destruct (jsstring_eqb (method request) McpMethods.TOOLS_LIST);
    [split; reflexivity|].
  destruct (jsstring_eqb (method request) McpMethods.PING); split; reflexivity.
Qed.

(** A [tools/call] without [params], or whose [params.name] is missing or
    not a string, is answered with -32602 "Missing required parameter:
    name"; the registry and the router are not consulted. *)
Theorem missing_tool_name_is_invalid_params (rid : RequestId) params (w : World) :
  match params with
  | Some members =>
      match get (str "name") members with
      | Some (JString _) => false
      | _ => true
      end
  | None => true
  end = true ->
  Mcp.handleToolsCall toolDefinitions executeTool rid params w =
  (Return (mkResponse (str "2.0") (Some rid) None
     (Some (mkError (-32602) (str "Missing required parameter: name") None))),
   w).
Proof.
  intros Hmissing. unfold Mcp.handleToolsCall.
  destruct params as [members|]; [|reflexivity].
  destruct (get (str "name") members) as [[| | |name| |]|];
    try reflexivity. discriminate.
Qed.

(** When the router throws anything but [InvalidParamsError] on a
    registered tool, the first copy answers with -32603 "Internal error"
    carrying the error's message (or "Unknown error" for a value that is
    not an Error), while the second copy lets the exception escape. *)
Theorem router_failure_is_internal_error (rid : RequestId) members name e
  (w w' : World) :
  get (str "name") members = Some (JString name) ->
  registered toolDefinitions name = true ->
  executeTool name (arguments_of members) w = (Throw e, w') ->
  match e with InvalidParamsError _ => false | _ => true end = true ->
  Mcp.handleToolsCall toolDefinitions executeTool rid (Some members) w =
    (Return (mkResponse (str "2.0") (Some rid) None
       (Some (mkError (-32603) (str "Internal error")
          (Some (DataString match exception_message e with
                            | Some m => m
                            | None => str "Unknown error"
                            end))))), w')
  /\ Mcp2.handleToolsCall toolDefinitions executeTool (Some rid) (Some members) w
     = (Throw e, w').
Proof.
  intros Hname Hregistered Hthrow Hother. split.
  - rewrite (handleToolsCall_named toolDefinitions executeTool rid members
               name w Hname), Hregistered.
    cbn [negb]. unfold try_catch, bind. rewrite Hthrow.
    destruct e; try reflexivity. discriminate.
  - unfold Mcp2.handleToolsCall. rewrite Hname.
    fold (registered toolDefinitions name). rewrite Hregistered.
    cbn [negb]. fold (arguments_of members). unfold bind. now rewrite Hthrow.
Qed.

(** For a request that carries an [id], the two copies of the dispatcher
    give the same answer to a [tools/call] whenever the router returns. *)
Theorem copies_agree_when_router_returns (rid : RequestId) members name result
  (w w' : World) :
  get (str "name") members = Some (JString name) ->
  executeTool name (arguments_of members) w = (Return result, w') ->
  Mcp2.handleToolsCall toolDefinitions executeTool (Some rid) (Some members) w
  = Mcp.handleToolsCall toolDefinitions executeTool rid (Some members) w.
Proof.
  intros Hname Hreturn.
  rewrite (handleToolsCall_named toolDefinitions executeTool rid members
             name w Hname).
  unfold Mcp2.handleToolsCall. rewrite Hname.
  fold (registered toolDefinitions name). fold (arguments_of members).
  destruct (negb _); [reflexivity|].
  unfold try_catch, bind. now rewrite Hreturn.
Qed.

End EndpointCoverage.

(** The origin the endpoint allows is always one of [ALLOWED_ORIGINS]: the
    caller's own origin when it is on the list, the first entry
    otherwise. *)
Theorem allowed_origin_is_listed (origin : option jsstring) :
  exists allowed,
    header (str "Access-Control-Allow-Origin") (Mcp.getCorsHeaders origin)
      = Some allowed
    /\ In allowed Mcp.ALLOWED_ORIGINS
    /\ (forall o, origin = Some o -> In o Mcp.ALLOWED_ORIGINS -> allowed = o)
    /\ ((forall o, origin = Some o -> ~ In o Mcp.ALLOWED_ORIGINS) ->
        hd_error Mcp.ALLOWED_ORIGINS = Some allowed).
Proof.
  unfold Mcp.getCorsHeaders.
  set (fallback := str "https://chat.openai.com").
  assert (Hfallback : In fallback Mcp.ALLOWED_ORIGINS) by (left; reflexivity).
  assert (Hheader : forall v rest,
            header (str "Access-Control-Allow-Origin")
              ((str "Access-Control-Allow-Origin", v) :: rest) = Some v)
    by reflexivity.
  destruct origin as [[|c o]|].
  - exists fallback. rewrite Hheader.
    split; [reflexivity|]. split; [exact Hfallback|]. split; [|reflexivity].
    intros o [= <-] Hin. cbn in Hin. intuition discriminate.
  - destruct (existsb (jsstring_eqb (c :: o)) Mcp.ALLOWED_ORIGINS) eqn:Hlisted.
    + assert (Hin : In (c :: o) Mcp.ALLOWED_ORIGINS).
      { apply existsb_exists in Hlisted as (x & Hin & Heq).
        apply jsstring_eqb_eq in Heq. now subst x. }
      exists (c :: o). rewrite Hheader.
      split; [reflexivity|]. split; [exact Hin|]. split.
      * now intros o' [= <-] _.
      * intros Hunlisted. now contradiction (Hunlisted (c :: o) eq_refl).
    + exists fallback. rewrite Hheader.
      split; [reflexivity|]. split; [exact Hfallback|]. split; [|reflexivity].
      intros o' [= <-] Hin.
      assert (Hyes : existsb (jsstring_eqb (c :: o)) Mcp.ALLOWED_ORIGINS = true).
      { apply existsb_exists. exists (c :: o). split; [exact Hin|].
        apply jsstring_eqb_refl. }
      congruence.
  - exists fallback. rewrite Hheader.
    split; [reflexivity|]. split; [exact Hfallback|]. split; [|reflexivity].
    discriminate.
Qed.

Lemma status_200_means_routed_witness :
  exists parsed request rid envelope,
    httpMethod (Sample.post (Some Sample.list_request)) = str "POST"
    /\ Sample.JSON_parse (body_text (Sample.post (Some Sample.list_request)))
       = Some parsed
    /\ safeParse JsonRpcRequestSchema (Some parsed) = Success request
    /\ id request = Some rid /\ rid <> IdNull
    /\ JsonBody (mkResponse (str "2.0") (Some (IdNumber 7))
                   (Some (ToolsListResult Tools.toolDefinitions)) None)
       = JsonBody envelope
    /\ response_id envelope = Some (written_id rid).
Proof.
  apply (proj1 (status_200_means_routed Tools.toolDefinitions Tools.executeTool
                  Sample.JSON_parse (Sample.post (Some Sample.list_request))
                  (mkHandlerResponse 200
                     (cors_of (Sample.post (Some Sample.list_request)))
                     (JsonBody (mkResponse (str "2.0") (Some (IdNumber 7))
                        (Some (ToolsListResult Tools.toolDefinitions)) None)))
                  Sample.world Sample.world eq_refl)).
  reflexivity.
Defined.

Lemma unknown_method_is_not_found_witness :
  Mcp.handler Tools.toolDefinitions Tools.executeTool
    (parse_as (JObject (request_members (Some (JNumber 4)) "foo/bar")))
    (Sample.post None) Sample.world =
  (Return (mkHandlerResponse 200 (cors_of (Sample.post None))
     (JsonBody (mkResponse (str "2.0") (Some (IdNumber 4)) None
        (Some (mkError (-32601)
                 (str "Method not found: " ++ str "foo/bar") None))))),
   Sample.world).
Proof.
  apply (proj1 (unknown_method_is_not_found Tools.toolDefinitions
                  Tools.executeTool
                  (parse_as (JObject (request_members (Some (JNumber 4)) "foo/bar")))
                  (Sample.post None)
                  (JObject (request_members (Some (JNumber 4)) "foo/bar"))
                  (mkRequest (str "2.0") (Some (IdNumber 4)) (str "foo/bar") None)
                  (IdNumber 4) Sample.world
                  eq_refl eq_refl eq_refl eq_refl ltac:(discriminate) eq_refl)).
Defined.

Lemma only_tools_call_has_effects_witness :
  snd (Mcp.route Tools.toolDefinitions Tools.executeTool (IdNumber 1)
         (mkRequest (str "2.0") (Some (IdNumber 1)) (str "ping") None)
         Sample.world) = Sample.world.
Proof.
  apply (only_tools_call_has_effects Tools.toolDefinitions Tools.executeTool
           (IdNumber 1)
           (mkRequest (str "2.0") (Some (IdNumber 1)) (str "ping") None)
           Sample.world).
  reflexivity.
Defined.

Lemma missing_tool_name_is_invalid_params_witness :
  Mcp.handleToolsCall Tools.toolDefinitions Tools.executeTool (IdNumber 1)
    (Some [Tools.member "name" (JNumber 5)]) Sample.world =
  (Return (mkResponse (str "2.0") (Some (IdNumber 1)) None
     (Some (mkError (-32602) (str "Missing required parameter: name") None))),
   Sample.world).
Proof.
  apply (missing_tool_name_is_invalid_params Tools.toolDefinitions
           Tools.executeTool (IdNumber 1)
           (Some [Tools.member "name" (JNumber 5)]) Sample.world).
  reflexivity.
Defined.

Lemma router_failure_is_internal_error_witness :
  Mcp.handleToolsCall Tools.toolDefinitions
    (failing_router (OtherError (str "store unreachable"))) (IdNumber 1)
    (Some [Tools.member "name" (Tools.jstr "echo")]) Sample.world =
  (Return (mkResponse (str "2.0") (Some (IdNumber 1)) None
     (Some (mkError (-32603) (str "Internal error")
        (Some (DataString (str "store unreachable")))))), Sample.world)
  /\ Mcp2.handleToolsCall Tools.toolDefinitions
       (failing_router (OtherError (str "store unreachable")))
       (Some (IdNumber 1))
       (Some [Tools.member "name" (Tools.jstr "echo")]) Sample.world
     = (Throw (OtherError (str "store unreachable")), Sample.world).
Proof.
  apply (router_failure_is_internal_error Tools.toolDefinitions
           (failing_router (OtherError (str "store unreachable"))) (IdNumber 1)
           [Tools.member "name" (Tools.jstr "echo")] (str "echo")
           (OtherError (str "store unreachable")) Sample.world Sample.world);
    reflexivity.
Defined.

Lemma copies_agree_when_router_returns_witness :
  Mcp2.handleToolsCall Tools.toolDefinitions Tools.executeTool
    (Some (IdNumber 1))
    (Some [Tools.member "name" (Tools.jstr "echo");
           Tools.member "arguments" (JObject [
             Tools.member "text" (Tools.jstr "hi")])]) Sample.world
  = Mcp.handleToolsCall Tools.toolDefinitions Tools.executeTool (IdNumber 1)
      (Some [Tools.member "name" (Tools.jstr "echo");
             Tools.member "arguments" (JObject [
               Tools.member "text" (Tools.jstr "hi")])]) Sample.world.
Proof.
  apply (copies_agree_when_router_returns Tools.toolDefinitions
           Tools.executeTool (IdNumber 1)
           [Tools.member "name" (Tools.jstr "echo");
            Tools.member "arguments" (JObject [
              Tools.member "text" (Tools.jstr "hi")])]
           (str "echo")
           (mkToolResult [Tools.text_content (Plain (str "hi"))] None)
           Sample.world Sample.world);
    reflexivity.
Defined.

(** ** The utility tools and their router *)

Lemma replace_xy_world (template : jsstring) : forall w : World,
  exists uuid,
    Tools.replace_xy template w =
    (Return uuid,
     mkWorld (clock w) (clock_reads w) (random w)
       (random_draws w + count_xy template)
       (SUPABASE_URL w) (SUPABASE_ANON_KEY w) (supabaseInstance w)
       (remote w) (sent w) (createClient w)).
Proof.
  induction template as [|c rest IH]; intros w.
  - exists []. cbn [Tools.replace_xy ret count_xy filter List.length].
    rewrite Nat.add_0_r. now destruct w.
  - cbn [Tools.replace_xy]. unfold count_xy in *. cbn [filter].
    destruct ((c =? 120) || (c =? 121))%N.
    + unfold bind at 1. cbn [Math_random].
      set (w1 := mkWorld _ _ _ _ _ _ _ _ _ _).
      destruct (IH w1) as [tail Htail].
      unfold bind, ret. rewrite Htail. subst w1.
      cbn [clock clock_reads random random_draws SUPABASE_URL
           SUPABASE_ANON_KEY supabaseInstance remote sent List.length].
      rewrite Nat.add_succ_r. eexists. reflexivity.
    + destruct (IH w) as [tail Htail].
      unfold bind, ret. rewrite Htail. eexists. reflexivity.
Qed.

Lemma matches_length (pattern s : jsstring) :
  Spec.matches pattern s = true -> List.length s = List.length pattern.
Proof.
  revert s. induction pattern as [|p pattern IH]; intros [|c s] H;
    cbn [Spec.matches] in H; try discriminate; [reflexivity|].
  apply andb_true_iff in H as [_ H]. cbn [List.length]. f_equal. now apply IH.
Qed.

Lemma generateUuid_world (w : World) :
  exists result,
    Tools.generateUuid w =
    (Return result,
     mkWorld (clock w) (clock_reads w) (random w) (random_draws w + 31)
       (SUPABASE_URL w) (SUPABASE_ANON_KEY w) (supabaseInstance w)
       (remote w) (sent w) (createClient w)).
Proof.
  destruct (replace_xy_world Tools.uuid_template w) as [uuid Huuid].
  unfold Tools.generateUuid, bind, ret. rewrite Huuid.
  eexists. reflexivity.
Qed.

(** [generate_uuid] draws exactly 31 random numbers and touches nothing
    else in the world; when the draws lie in the unit interval the uuid
    has 36 code units. *)
Theorem generate_uuid_draws_31 :
  (forall w : World,
     exists result,
       Tools.generateUuid w =
       (Return result,
        mkWorld (clock w) (clock_reads w) (random w) (random_draws w + 31)
          (SUPABASE_URL w) (SUPABASE_ANON_KEY w) (supabaseInstance w)
          (remote w) (sent w) (createClient w)))
  /\ (forall w : World,
        (forall k, Spec.unit_interval (random w k) = true) ->
        exists uuid,
          fst (Tools.generateUuid w) =
            Return (mkToolResult
                      [Tools.text_content (Stringified (JObject [
                         Tools.member "uuid" (JString uuid)]))] None)
          /\ List.length uuid = 36).
Proof.
  split; [exact generateUuid_world|].
  intros w Hrandom.
  {
    destruct (replace_xy_matches Tools.uuid_template w Hrandom)
      as (uuid & w' & Huuid & Hmatch & _).
    exists uuid. split.
    + unfold Tools.generateUuid, bind, ret. now rewrite Huuid.
    + now apply matches_length in Hmatch. }
Qed.

Lemma generate_uuid_draws_31_witness :
  exists uuid,
    fst (Tools.generateUuid Sample.steady_world) =
      Return (mkToolResult
                [Tools.text_content (Stringified (JObject [
                   Tools.member "uuid" (JString uuid)]))] None)
    /\ List.length uuid = 36.
Proof.
  apply (proj2 generate_uuid_draws_31 Sample.steady_world).
  intros k. reflexivity.
Defined.

Lemma registered_utility (name : jsstring) :
  registered Tools.toolDefinitions name =
  (jsstring_eqb name (str "echo") || jsstring_eqb name (str "get_current_time")
   || jsstring_eqb name (str "calculate") || jsstring_eqb name (str "generate_uuid")
   || jsstring_eqb name (str "text_stats")).
Proof.
  unfold registered, Tools.toolDefinitions. cbn [existsb Types.name].
  rewrite !(jsstring_eqb_sym _ name), orb_false_r, !orb_assoc. reflexivity.
Qed.

Lemma utility_router_returns (name : jsstring) args (w : World) :
  exists result w', Tools.executeTool name args w = (Return result, w').
Proof.
  unfold Tools.executeTool.
  destruct (jsstring_eqb name (str "echo"));
    [unfold ret; eexists; eexists; reflexivity|].
  destruct (jsstring_eqb name (str "get_current_time"));
    [cbv [Tools.getCurrentTime bind Date_now ret]; eexists; eexists; reflexivity|].
  destruct (jsstring_eqb name (str "calculate"));
    [unfold ret; eexists; eexists; reflexivity|].
  destruct (jsstring_eqb name (str "generate_uuid"));
    [destruct (generateUuid_world w) as [result ->]; eexists; eexists; reflexivity|].
  destruct (jsstring_eqb name (str "text_stats"));
    unfold ret; eexists; eexists; reflexivity.
Qed.

Lemma echo_is_known args name : Tools.echo args <> unknown_tool_result name.
Proof.
  unfold Tools.echo, unknown_tool_result.
  destruct (safeParse _ _); discriminate.
Qed.

Lemma getCurrentTime_is_known (w : World) name :
  exists result w',
    Tools.getCurrentTime w = (Return result, w')
    /\ result <> unknown_tool_result name.
Proof.
  cbv [Tools.getCurrentTime bind Date_now ret]. unfold unknown_tool_result.
  eexists; eexists; split; [reflexivity|]. discriminate.
Qed.

Lemma calculate_is_known args name :
  Tools.calculate args <> unknown_tool_result name.
Proof.
  unfold Tools.calculate, unknown_tool_result.
  destruct (safeParse _ _) as [[op a b]|]; [|discriminate].
  destruct op; try discriminate.
  destruct (b =? 0)%float; [|discriminate].
  intros H. injection H as H. discriminate H.
Qed.

Lemma generateUuid_is_known (w : World) name :
  exists result w',
    Tools.generateUuid w = (Return result, w')
    /\ result <> unknown_tool_result name.
Proof.
  destruct (replace_xy_world Tools.uuid_template w) as [uuid Huuid].
  unfold Tools.generateUuid, bind, ret. rewrite Huuid.
  eexists; eexists; split; [reflexivity|].
  unfold unknown_tool_result. discriminate.
Qed.

Lemma textStats_is_known args name :
  Tools.textStats args <> unknown_tool_result name.
Proof.
  unfold Tools.textStats, unknown_tool_result.
  destruct (safeParse _ _); discriminate.
Qed.

(** The router and the definition list of tools/index.ts agree: a name
    that is not listed gets the "Unknown tool" result and leaves the world
    alone; a listed name is routed to its tool, whose result is never the
    "Unknown tool" one.  The router never throws. *)
Theorem utility_router_matches_definitions (name : jsstring) args (w : World) :
  (registered Tools.toolDefinitions name = false ->
     Tools.executeTool name args w = (Return (unknown_tool_result name), w))
  /\ (registered Tools.toolDefinitions name = true ->
        exists result w',
          Tools.executeTool name args w = (Return result, w')
          /\ result <> unknown_tool_result name).
Proof.
  rewrite registered_utility. unfold Tools.executeTool.
  destruct (jsstring_eqb name (str "echo")).
  { split; [discriminate|intros _]. unfold ret.
    eexists; eexists; split; [reflexivity|apply echo_is_known]. }
  destruct (jsstring_eqb name (str "get_current_time")).
  { split; [discriminate|intros _]. apply getCurrentTime_is_known. }
  destruct (jsstring_eqb name (str "calculate")).
  { split; [discriminate|intros _]. unfold ret.
    eexists; eexists; split; [reflexivity|apply calculate_is_known]. }
  destruct (jsstring_eqb name (str "generate_uuid")).
  { split; [discriminate|intros _]. apply generateUuid_is_known. }
  destruct (jsstring_eqb name (str "text_stats")).
  { split; [discriminate|intros _]. unfold ret.
    eexists; eexists; split; [reflexivity|apply textStats_is_known]. }
  split; [reflexivity|discriminate].
Qed.

Lemma utility_router_matches_definitions_witness :
  Tools.executeTool (str "memory_list") None Sample.world
  = (Return (unknown_tool_result (str "memory_list")), Sample.world).
Proof.
  apply (proj1 (utility_router_matches_definitions (str "memory_list") None
                  Sample.world)).
  reflexivity.
Defined.

(** With the registry and router of tools/index.ts the only protocol error
    a [tools/call] can end in is -32602: the answer is never
    -32603 "Internal error". *)
Theorem utility_tools_call_errors (rid : RequestId) params (w : World) :
  exists response w',
    Mcp.handleToolsCall Tools.toolDefinitions Tools.executeTool rid params w
      = (Return response, w')
    /\ forall e, error response = Some e -> error_code e = (-32602)%Z.
Proof.
  unfold Mcp.handleToolsCall.
  destruct params as [members|];
    [|eexists; eexists; split; [reflexivity|]; now intros e [= <-]].
  destruct (get (str "name") members) as [[| | |name| |]|];
    try (eexists; eexists; split; [reflexivity|]; now intros e [= <-]).
  destruct (negb _);
    [eexists; eexists; split; [reflexivity|]; now intros e [= <-]|].
  match goal with
  | |- context [Tools.executeTool name ?a] =>
      destruct (utility_router_returns name a w) as (result & w' & Hrun)
  end.
  unfold try_catch, bind. rewrite Hrun.
  eexists; eexists; split; [reflexivity|]. discriminate.
Qed.

(** [echo] returns a text of 1 to 10000 code units verbatim and without
    the error flag; an empty or longer text gives a result with
    [isError: true]. *)
Theorem echo_returns_text (members : list (jsstring * JSON)) (text : jsstring) :
  get (str "text") members = Some (JString text) ->
  ((1 <= Z.of_nat (List.length text) <= 10000)%Z ->
     Tools.echo (Some (JObject members)) =
       mkToolResult [Tools.text_content (Plain text)] None)
  /\ ((Z.of_nat (List.length text) < 1 \/ 10000 < Z.of_nat (List.length text))%Z ->
        isError (Tools.echo (Some (JObject members))) = Some true).
Proof.
  intros Hget. unfold Tools.echo, safeParse, Tools.EchoInputSchema, z_object,
    prop, z_string. rewrite Hget. cbn [flat_map string_check app].
  split.
  - intros [Hmin Hmax].
    replace (Z.of_nat (List.length text) <? 1)%Z with false
      by (symmetry; apply Z.ltb_ge; lia).
    replace (10000 <? Z.of_nat (List.length text))%Z with false
      by (symmetry; apply Z.ltb_ge; lia).
    reflexivity.
  - intros [Hshort | Hlong].
    + replace (Z.of_nat (List.length text) <? 1)%Z with true
        by (symmetry; apply Z.ltb_lt; lia).
      destruct (10000 <? _)%Z; reflexivity.
    + replace (10000 <? Z.of_nat (List.length text))%Z with true
        by (symmetry; apply Z.ltb_lt; lia).
      destruct (_ <? 1)%Z; reflexivity.
Qed.

Lemma echo_returns_text_witness :
  Tools.echo (Some (JObject [Tools.member "text" (Tools.jstr "Hello MCP!")])) =
  mkToolResult [Tools.text_content (Plain (str "Hello MCP!"))] None.
Proof.
  apply (proj1 (echo_returns_text [Tools.member "text" (Tools.jstr "Hello MCP!")]
                  (str "Hello MCP!") eq_refl)).
  vm_compute. split; discriminate.
Defined.

(** [calculate] on two numbers: [add], [subtract] and [multiply] answer,
    without the error flag, with [JSON.stringify({operation, a, b,
    result})], [result] being the sum, the difference and the product of
    the doubles.  That text denotes the object itself when the operands
    and the result are numbers JSON writes as they are; a number that is
    not finite (an infinite operand, a sum that overflows) is written
    [null].  An operation outside the four names gives a result with
    [isError: true]. *)
Theorem calculate_arithmetic (members : list (jsstring * JSON)) (op : jsstring)
  (a b : float) :
  get (str "operation") members = Some (JString op) ->
  get (str "a") members = Some (JNumber a) ->
  get (str "b") members = Some (JNumber b) ->
  Number_isNaN a = false ->
  Number_isNaN b = false ->
  let answer result :=
    mkToolResult
      [Tools.text_content (JSON_stringify (JObject [
         Tools.member "operation" (JString op);
         Tools.member "a" (JNumber a);
         Tools.member "b" (JNumber b);
         Tools.member "result" (JNumber result)]))] None in
  (op = str "add" ->
     Tools.calculate (Some (JObject members)) = answer (a + b)%float)
  /\ (op = str "subtract" ->
        Tools.calculate (Some (JObject members)) = answer (a - b)%float)
  /\ (op = str "multiply" ->
        Tools.calculate (Some (JObject members)) = answer (a * b)%float)
  /\ (existsb (jsstring_eqb op)
        [str "add"; str "subtract"; str "multiply"; str "divide"] = false ->
        isError (Tools.calculate (Some (JObject members))) = Some true)
  /\ (forall result,
        writable a = true -> writable b = true -> writable result = true ->
        answer result =
        mkToolResult
          [Tools.text_content (Stringified (JObject [
             Tools.member "operation" (JString op);
             Tools.member "a" (JNumber a);
             Tools.member "b" (JNumber b);
             Tools.member "result" (JNumber result)]))] None)
  /\ (forall result,
        writable a = true -> writable b = true ->
        written_number result = JNull ->
        answer result =
        mkToolResult
          [Tools.text_content (Stringified (JObject [
             Tools.member "operation" (JString op);
             Tools.member "a" (JNumber a);
             Tools.member "b" (JNumber b);
             Tools.member "result" JNull]))] None).
Proof.
  intros Hop Ha Hb Hna Hnb answer.
  split; [|split; [|split; [|split; [|split]]]].
  - intros ->. unfold Tools.calculate.
    now rewrite (calculate_parsed members (str "add") Tools.add a b).
  - intros ->. unfold Tools.calculate.
    now rewrite (calculate_parsed members (str "subtract") Tools.subtract a b).
  - intros ->. unfold Tools.calculate.
    now rewrite (calculate_parsed members (str "multiply") Tools.multiply a b).
  - intros Hunknown. cbn [existsb] in Hunknown.
    repeat (apply orb_false_iff in Hunknown as [? Hunknown]).
    unfold Tools.calculate, safeParse, Tools.CalculateInputSchema, z_object,
      prop, z_enum, z_number.
    rewrite Hop, Ha, Hb, Hna, Hnb. cbn [enum_lookup].
    repeat match goal with
    | H : jsstring_eqb _ _ = false |- _ => rewrite H; clear H
    end. reflexivity.
  - intros result Hwa Hwb Hwr. subst answer. unfold JSON_stringify.
    cbn [as_written map fst snd Tools.member].
    now rewrite (written_number_writable a Hwa), (written_number_writable b Hwb),
      (written_number_writable result Hwr).
  - intros result Hwa Hwb Hnull. subst answer. unfold JSON_stringify.
    cbn [as_written map fst snd Tools.member].
    now rewrite (written_number_writable a Hwa), (written_number_writable b Hwb),
      Hnull.
Qed.

(** A sum beyond the doubles is [Infinity], which is written [null]. *)
Example calculate_overflow :
  Tools.calculate (Some (JObject [
     Tools.member "operation" (Tools.jstr "add");
     Tools.member "a" (JNumber 0x1p+1023);
     Tools.member "b" (JNumber 0x1p+1023)])) =
  mkToolResult
    [Tools.text_content (Stringified (JObject [
       Tools.member "operation" (Tools.jstr "add");
       Tools.member "a" (JNumber 0x1p+1023);
       Tools.member "b" (JNumber 0x1p+1023);
       Tools.member "result" JNull]))] None.
Proof. reflexivity. Qed.

Lemma calculate_arithmetic_witness :
  Tools.calculate (Some (JObject [
     Tools.member "operation" (Tools.jstr "subtract");
     Tools.member "a" (JNumber 10); Tools.member "b" (JNumber 4)])) =
  mkToolResult
    [Tools.text_content (Stringified (JObject [
       Tools.member "operation" (Tools.jstr "subtract");
       Tools.member "a" (JNumber 10); Tools.member "b" (JNumber 4);
       Tools.member "result" (JNumber (10 - 4))]))] None.
Proof.
  apply (calculate_arithmetic
           [Tools.member "operation" (Tools.jstr "subtract");
            Tools.member "a" (JNumber 10); Tools.member "b" (JNumber 4)]
           (str "subtract") 10%float 4%float);
    reflexivity.
Defined.

(** ** text_stats: what the counts can be *)

Lemma runs_count (sep : N -> bool) (s : jsstring) :
  List.length (Spec.maximal_runs sep s) <= List.length s.
Proof.
  induction s as [|c s IH]; [apply Nat.le_refl|].
  cbn [Spec.maximal_runs List.length].
  destruct (sep c); [now apply Nat.le_le_succ_r|].
  destruct s as [|d s']; [apply Nat.le_refl|].
  remember (Spec.maximal_runs sep (d :: s')) as runs eqn:Hruns.
  cbn [List.length] in IH.
  destruct (sep d).
  - cbn [List.length]. now apply le_n_S.
  - destruct runs as [|run runs]; cbn [List.length] in *; lia.
Qed.

Lemma runs_empty (sep : N -> bool) (s : jsstring) :
  Spec.maximal_runs sep s = [] <-> forallb sep s = true.
Proof.
  induction s as [|c s IH]; [now split|].
  cbn [Spec.maximal_runs forallb].
  destruct (sep c); [exact IH|].
  cbn [andb]. split; [|discriminate].
  destruct s as [|d s']; [discriminate|].
  destruct (sep d); [discriminate|].
  destruct (Spec.maximal_runs sep (d :: s')); discriminate.
Qed.

Lemma runs_forall (sep keep : N -> bool) (s : jsstring) :
  forallb keep s = true ->
  Forall (fun run => forallb keep run = true) (Spec.maximal_runs sep s).
Proof.
  induction s as [|c s IH]; [constructor|].
  cbn [forallb]. intros H. apply andb_true_iff in H as [Hc Hs].
  specialize (IH Hs).
  cbn [Spec.maximal_runs].
  destruct (sep c); [exact IH|].
  assert (Hone : forallb keep [c] = true) by (cbn [forallb]; now rewrite Hc).
  destruct s as [|d s']; [now repeat constructor|].
  remember (Spec.maximal_runs sep (d :: s')) as runs eqn:Hruns.
  destruct (sep d).
  - now constructor.
  - destruct runs as [|run runs]; [now repeat constructor|].
    inversion IH as [|? ? Hrun Hrest]; subst.
    constructor; [|exact Hrest].
    cbn [forallb]. now rewrite Hc, Hrun.
Qed.

Lemma filter_none {A} (f : A -> bool) (l : list A) :
  Forall (fun x => f x = false) l -> filter f l = [].
Proof.
  induction 1 as [|x l Hx _ IH]; [reflexivity|].
  cbn [filter]. now rewrite Hx.
Qed.

Lemma length_trimStart (s : jsstring) :
  List.length (trimStart s) <= List.length s.
Proof.
  induction s as [|c s IH]; [apply Nat.le_refl|].
  cbn [trimStart]. destruct (is_white_space c); [|apply Nat.le_refl].
  cbn [List.length]. now apply Nat.le_le_succ_r.
Qed.

Lemma length_trim (s : jsstring) : List.length (trim s) <= List.length s.
Proof.
  unfold trim, trimEnd. rewrite length_rev.
  eapply Nat.le_trans; [apply length_trimStart|].
  rewrite length_rev. apply length_trimStart.
Qed.

Lemma trimStart_head (s : jsstring) c t :
  trimStart s = c :: t -> is_white_space c = false.
Proof.
  induction s as [|a s IH]; [discriminate|].
  cbn [trimStart]. destruct (is_white_space a) eqn:Ha; [exact IH|].
  now intros [= <- <-].
Qed.

Lemma trim_whitespace (s : jsstring) :
  forallb is_white_space (trim s) = true <-> forallb is_white_space s = true.
Proof.
  pose proof (nonempty_trim s) as Hne.
  unfold Spec.whitespace_only in Hne.
  split.
  - intros Hall. destruct (forallb is_white_space s); [reflexivity|].
    unfold trim, trimEnd in *.
    destruct (trimStart (rev (trimStart s))) as [|c t] eqn:Hstart;
      [discriminate Hne|].
    apply trimStart_head in Hstart.
    cbn [rev] in Hall. rewrite forallb_app in Hall. cbn [forallb] in Hall.
    rewrite Hstart, andb_false_r in Hall. discriminate.
  - intros Hall. rewrite Hall in Hne.
    destruct (trim s); [reflexivity|discriminate Hne].
Qed.

Lemma text_stats_parsed (members : list (jsstring * JSON)) (text : jsstring) :
  get (str "text") members = Some (JString text) ->
  (1 <= Z.of_nat (List.length text) <= 50000)%Z ->
  safeParse Tools.TextStatsInputSchema (Some (JObject members)) = Success text.
Proof.
  intros Hget [Hmin Hmax].
  unfold safeParse, Tools.TextStatsInputSchema, z_object, prop, z_string.
  rewrite Hget. cbn [flat_map string_check app].
  replace (Z.of_nat (List.length text) <? 1)%Z with false
    by (symmetry; apply Z.ltb_ge; lia).
  replace (50000 <? Z.of_nat (List.length text))%Z with false
    by (symmetry; apply Z.ltb_ge; lia).
  reflexivity.
Qed.

(** The counts [text_stats] reports never exceed the number of characters;
    it counts no word exactly when the text is whitespace only, and then
    it reports no sentence and an average of 0. *)
Theorem text_stats_counts (members : list (jsstring * JSON)) (text : jsstring) :
  get (str "text") members = Some (JString text) ->
  (1 <= Z.of_nat (List.length text) <= 50000)%Z ->
  exists words sentences average,
    Tools.textStats (Some (JObject members)) =
      mkToolResult
        [Tools.text_content (Stringified (JObject [
           Tools.member "characters"
             (JNumber (Tools.number_of_nat (List.length text)));
           Tools.member "words" (JNumber (Tools.number_of_nat words));
           Tools.member "sentences" (JNumber (Tools.number_of_nat sentences));
           Tools.member "averageWordLength" (JNumber average)]))] None
    /\ words <= List.length text
    /\ sentences <= List.length text
    /\ (words = 0 <-> forallb is_white_space text = true)
    /\ (words = 0 -> sentences = 0 /\ average = 0%float).
Proof.
  intros Hget Hlength.
  unfold Tools.textStats. rewrite (text_stats_parsed members text Hget Hlength).
  eexists; eexists; eexists. split; [reflexivity|].
  rewrite code_words, code_sentences.
  unfold Spec.words, Spec.sentences.
  assert (Hzero : List.length (Spec.maximal_runs is_white_space (trim text)) = 0
                  <-> forallb is_white_space text = true).
  { rewrite <- trim_whitespace, <- runs_empty.
    destruct (Spec.maximal_runs _ _); split; (reflexivity || discriminate). }
  split; [eapply Nat.le_trans; [apply runs_count|apply length_trim]|].
  split; [eapply Nat.le_trans; [apply filter_length_le|apply runs_count]|].
  split; [exact Hzero|].
  intros Hwords. split.
  - apply Hzero in Hwords.
    rewrite filter_none; [reflexivity|].
    eapply Forall_impl;
      [|apply (runs_forall Tools.is_sentence_end is_white_space text Hwords)].
    intros run Hrun. unfold Spec.whitespace_only. now rewrite Hrun.
  - now rewrite Hwords.
Qed.

Lemma text_stats_counts_witness :
  exists words sentences average,
    Tools.textStats (Some (JObject [Tools.member "text" (Tools.jstr " ")])) =
      mkToolResult
        [Tools.text_content (Stringified (JObject [
           Tools.member "characters" (JNumber (Tools.number_of_nat 1));
           Tools.member "words" (JNumber (Tools.number_of_nat words));
           Tools.member "sentences" (JNumber (Tools.number_of_nat sentences));
           Tools.member "averageWordLength" (JNumber average)]))] None
    /\ words <= 1
    /\ sentences <= 1
    /\ (words = 0 <-> forallb is_white_space (str " ") = true)
    /\ (words = 0 -> sentences = 0 /\ average = 0%float).
Proof.
  apply (text_stats_counts [Tools.member "text" (Tools.jstr " ")] (str " ")).
  - reflexivity.
  - vm_compute. split; discriminate.
Defined.

(** ** The storage client *)

Lemma getSupabaseClient_unconfigured (w : World) :
  storage_configured w = false ->
  getSupabaseClient w = (Throw (SupabaseConfigError (config_error w)), w).
Proof.
  unfold storage_configured, getSupabaseClient, config_error, missing_url,
    missing_key.
  destruct (supabaseInstance w); [discriminate|].
  destruct (truthy_string (SUPABASE_URL w)); cbn [andb negb].
  - now intros ->.
  - reflexivity.
Qed.

(** [getSupabaseClient] throws [SupabaseConfigError] (naming the variable
    that is missing, the URL first) and leaves everything as it was when
    there is no client yet and a variable is unset or empty.  With both
    variables set it hands them to [createClient]: what that throws goes
    through and nothing is stored.  With the client at hand (it exists,
    or [createClient] returns one) the call returns it, it is then the
    stored one, and nothing is sent. *)
Theorem client_needs_configuration (w : World) :
  (storage_configured w = false ->
     getSupabaseClient w = (Throw (SupabaseConfigError (config_error w)), w))
  /\ (forall url key e,
        supabaseInstance w = None ->
        SUPABASE_URL w = Some url -> url <> [] ->
        SUPABASE_ANON_KEY w = Some key -> key <> [] ->
        createClient w url key = inl e ->
        getSupabaseClient w = (Throw e, w))
  /\ (client_available w = true ->
        exists client,
          fst (getSupabaseClient w) = Return client
          /\ supabaseInstance (snd (getSupabaseClient w)) = Some client
          /\ sent (snd (getSupabaseClient w)) = sent w).
Proof.
  split; [apply getSupabaseClient_unconfigured|]. split.
  - intros url key e Hnone Hurl Hnonempty Hkey Hnonempty' Hthrows.
    unfold getSupabaseClient. rewrite Hnone, Hurl, Hkey.
    destruct url; [now contradiction Hnonempty|].
    destruct key; [now contradiction Hnonempty'|].
    cbn [truthy_string negb]. now rewrite Hthrows.
  - intros H. destruct (getSupabaseClient_available w H) as [client ->].
    exists client. repeat split.
Qed.

Lemma client_needs_configuration_witness :
  getSupabaseClient Sample.malformed_world
  = (Throw (OtherError
              (str "Invalid supabaseUrl: Must be a valid HTTP or HTTPS URL.")),
     Sample.malformed_world).
Proof.
  apply (proj1 (proj2 (client_needs_configuration Sample.malformed_world))
           (str "project.supabase.co") (str "anon-key"));
    (reflexivity || discriminate).
Defined.

(** The client is created once: after a call that returned it, every
    later call returns the same client and changes nothing, whatever the
    environment variables have become. *)
Theorem client_created_once (w : World) client (w1 : World) :
  getSupabaseClient w = (Return client, w1) ->
  forall url key,
    getSupabaseClient (setenv url key w1) = (Return client, setenv url key w1).
Proof.
  intros H url key.
  assert (Hinstance : supabaseInstance w1 = Some client).
  { unfold getSupabaseClient in H.
    destruct (supabaseInstance w) eqn:E.
    - inversion H; subst. exact E.
    - destruct (negb _); [discriminate|].
      destruct (negb _); [discriminate|].
      destruct (createClient w _ _); [discriminate|].
      now inversion H. }
  unfold getSupabaseClient, setenv. cbn [supabaseInstance].
  now rewrite Hinstance.
Qed.

Lemma client_created_once_witness :
  getSupabaseClient
    (setenv None None (snd (getSupabaseClient Sample.configured_world)))
  = (Return (mkClient (str "https://project.supabase.co") (str "anon-key")),
     setenv None None (snd (getSupabaseClient Sample.configured_world))).
Proof.
  apply (client_created_once Sample.configured_world
           (mkClient (str "https://project.supabase.co") (str "anon-key"))
           (snd (getSupabaseClient Sample.configured_world))).
  reflexivity.
Defined.

(** After [resetSupabaseClient] the next call hands the environment's
    variables to [createClient] anew, whatever client there was: it
    stores and returns the client [createClient] returns, and when
    [createClient] throws the error goes through and no client is
    stored. *)
Theorem reset_rereads_environment (w : World) (url key : jsstring) :
  SUPABASE_URL w = Some url -> url <> [] ->
  SUPABASE_ANON_KEY w = Some key -> key <> [] ->
  (_ <- resetSupabaseClient ;; getSupabaseClient) w =
  match createClient w url key with
  | inr client =>
      (Return client,
       mkWorld (clock w) (clock_reads w) (random w) (random_draws w)
         (Some url) (Some key) (Some client) (remote w) (sent w)
         (createClient w))
  | inl e =>
      (Throw e,
       mkWorld (clock w) (clock_reads w) (random w) (random_draws w)
         (Some url) (Some key) None (remote w) (sent w) (createClient w))
  end.
Proof.
  intros Hurl Hnonempty Hkey Hnonempty'.
  unfold bind, resetSupabaseClient, getSupabaseClient.
  cbn [supabaseInstance SUPABASE_URL SUPABASE_ANON_KEY clock clock_reads
       random random_draws remote sent createClient].
  rewrite Hurl, Hkey.
  destruct url; [now contradiction Hnonempty|].
  destruct key; [now contradiction Hnonempty'|].
  cbn [truthy_string negb].
  destruct (createClient w _ _); reflexivity.
Qed.

Lemma reset_rereads_environment_witness :
  (_ <- resetSupabaseClient ;; getSupabaseClient)
    (snd (getSupabaseClient Sample.configured_world)) =
  (Return (mkClient (str "https://project.supabase.co") (str "anon-key")),
   snd (getSupabaseClient Sample.configured_world)).
Proof.
  apply (reset_rereads_environment
           (snd (getSupabaseClient Sample.configured_world))
           (str "https://project.supabase.co") (str "anon-key"));
    (reflexivity || discriminate).
Defined.

(** ** The memory tools *)

Lemma failure_none {A} (r : SafeParseReturnType A) :
  failure r = None -> exists data, r = Success data.
Proof. destruct r as [data|issues]; [now exists data|discriminate]. Qed.

Lemma is_memory_tool_cases (name : jsstring) :
  is_memory_tool name = true ->
  name = str "memory_save" \/ name = str "memory_search"
  \/ name = str "memory_forget" \/ name = str "memory_list"
  \/ name = str "memory_update".
Proof.
  unfold is_memory_tool. cbn [existsb].
  repeat match goal with
  | |- context [jsstring_eqb name ?lit] =>
      destruct (jsstring_eqb name lit) eqn:E;
      [apply jsstring_eqb_eq in E; tauto|clear E]
  end.
  discriminate.
Qed.

Lemma catch_returns (body : Eff McpToolResult) (unexpected : string) (w : World) :
  exists result w',
    try_catch body (Memory.on_failure unexpected) w = (Return result, w').
Proof.
  unfold try_catch. destruct (body w) as [[result|e] w1].
  - now exists result, w1.
  - destruct e; unfold Memory.on_failure, ret; eexists; eexists; reflexivity.
Qed.

(** A handler throws only what its validation throws. *)
Ltac handler_throws H :=
  match type of H with
  | context [safeParse ?schema ?args] =>
      destruct (safeParse schema args) as [[]|]
  end;
  [ cbv beta iota in H;
    match type of H with
    | try_catch ?body (Memory.on_failure ?m) ?w = _ =>
        destruct (catch_returns body m w) as (? & ? & Hreturns);
        rewrite Hreturns in H; discriminate H
    end
  | unfold throw in H; injection H as <- <-; split; [reflexivity|];
    eexists; split; reflexivity ].

Lemma memorySave_throws args (w : World) e w' :
  Memory.memorySave args w = (Throw e, w') ->
  w' = w /\ exists issues,
    failure (safeParse Memory.MemorySaveInputSchema args) = Some issues
    /\ e = InvalidParamsError (Memory.validation_message issues).
Proof. unfold Memory.memorySave. intros H. handler_throws H. Qed.

Lemma memorySearch_throws args (w : World) e w' :
  Memory.memorySearch args w = (Throw e, w') ->
  w' = w /\ exists issues,
    failure (safeParse Memory.MemorySearchInputSchema args) = Some issues
    /\ e = InvalidParamsError (Memory.validation_message issues).
Proof. unfold Memory.memorySearch. intros H. handler_throws H. Qed.

Lemma memoryForget_throws args (w : World) e w' :
  Memory.memoryForget args w = (Throw e, w') ->
  w' = w /\ exists issues,
    failure (safeParse Memory.MemoryForgetInputSchema args) = Some issues
    /\ e = InvalidParamsError (Memory.validation_message issues).
Proof. unfold Memory.memoryForget. intros H. handler_throws H. Qed.

Lemma memoryList_throws args (w : World) e w' :
  Memory.memoryList args w = (Throw e, w') ->
  w' = w /\ exists issues,
    failure (safeParse Memory.MemoryListInputSchema args) = Some issues
    /\ e = InvalidParamsError (Memory.validation_message issues).
Proof. unfold Memory.memoryList. intros H. handler_throws H. Qed.

Lemma memoryUpdate_throws args (w : World) e w' :
  Memory.memoryUpdate args w = (Throw e, w') ->
  w' = w /\ exists issues,
    failure (safeParse Memory.MemoryUpdateInputSchema args) = Some issues
    /\ e = InvalidParamsError (Memory.validation_message issues).
Proof. unfold Memory.memoryUpdate. intros H. handler_throws H. Qed.

Lemma executeMemoryTool_save args :
  Memory.executeMemoryTool (str "memory_save") args
  = (r <- Memory.memorySave args ;; ret (Some r)).
Proof. reflexivity. Qed.

Lemma executeMemoryTool_search args :
  Memory.executeMemoryTool (str "memory_search") args
  = (r <- Memory.memorySearch args ;; ret (Some r)).
Proof. reflexivity. Qed.

Lemma executeMemoryTool_forget args :
  Memory.executeMemoryTool (str "memory_forget") args
  = (r <- Memory.memoryForget args ;; ret (Some r)).
Proof. reflexivity. Qed.

Lemma executeMemoryTool_list args :
  Memory.executeMemoryTool (str "memory_list") args
  = (r <- Memory.memoryList args ;; ret (Some r)).
Proof. reflexivity. Qed.

Lemma executeMemoryTool_update args :
  Memory.executeMemoryTool (str "memory_update") args
  = (r <- Memory.memoryUpdate args ;; ret (Some r)).
Proof. reflexivity. Qed.

Lemma violations_save args :
  violations (str "memory_save") args
  = failure (safeParse Memory.MemorySaveInputSchema args).
Proof. reflexivity. Qed.

Lemma violations_search args :
  violations (str "memory_search") args
  = failure (safeParse Memory.MemorySearchInputSchema args).
Proof. reflexivity. Qed.

Lemma violations_forget args :
  violations (str "memory_forget") args
  = failure (safeParse Memory.MemoryForgetInputSchema args).
Proof. reflexivity. Qed.

Lemma violations_list args :
  violations (str "memory_list") args
  = failure (safeParse Memory.MemoryListInputSchema args).
Proof. reflexivity. Qed.

Lemma violations_update args :
  violations (str "memory_update") args
  = failure (safeParse Memory.MemoryUpdateInputSchema args).
Proof. reflexivity. Qed.

Lemma executeMemoryTool_other (name : jsstring) args (w : World) :
  is_memory_tool name = false ->
  Memory.executeMemoryTool name args w = (Return None, w).
Proof.
  unfold is_memory_tool, Memory.executeMemoryTool. cbn [existsb].
  repeat match goal with
  | |- context [jsstring_eqb name ?lit] =>
      destruct (jsstring_eqb name lit); [discriminate|]
  end.
  reflexivity.
Qed.

(** Splitting on the five names, with the router and the validation
    brought to the handler and the schema of each. *)
Ltac memory_tool_cases Hname :=
  apply is_memory_tool_cases in Hname;
  destruct Hname as [-> | [-> | [-> | [-> | ->]]]];
  [ rewrite ?executeMemoryTool_save, ?violations_save in *
  | rewrite ?executeMemoryTool_search, ?violations_search in *
  | rewrite ?executeMemoryTool_forget, ?violations_forget in *
  | rewrite ?executeMemoryTool_list, ?violations_list in *
  | rewrite ?executeMemoryTool_update, ?violations_update in * ].

(** The memory router throws nothing but the [InvalidParamsError] of a
    failed validation, and then it has changed nothing: whatever goes
    wrong later, in the configuration or at the store, ends in a result. *)
Theorem memory_tools_throw_only_invalid_params (name : jsstring) args
  (w : World) e (w' : World) :
  Memory.executeMemoryTool name args w = (Throw e, w') ->
  w' = w
  /\ exists issues,
       violations name args = Some issues
       /\ e = InvalidParamsError (Memory.validation_message issues).
Proof.
  intros H.
  destruct (is_memory_tool name) eqn:Hname;
    [|rewrite (executeMemoryTool_other name args w Hname) in H; discriminate].
  memory_tool_cases Hname;
    unfold bind in H;
    match type of H with
    | context [?handler args w] =>
        destruct (handler args w) as [[result|e0] w0] eqn:Hhandler
    end;
    try discriminate H; injection H as <- <-.
  - now apply memorySave_throws.
  - now apply memorySearch_throws.
  - now apply memoryForget_throws.
  - now apply memoryList_throws.
  - now apply memoryUpdate_throws.
Qed.

Lemma memory_tools_throw_only_invalid_params_witness :
  Sample.world = Sample.world
  /\ exists issues,
       violations (str "memory_save") None = Some issues
       /\ InvalidParamsError (str "Required")
          = InvalidParamsError (Memory.validation_message issues).
Proof.
  apply (memory_tools_throw_only_invalid_params (str "memory_save") None
           Sample.world (InvalidParamsError (str "Required")) Sample.world).
  reflexivity.
Defined.

(** The definitions of tools/memory.ts and its router agree: the router
    answers [null] exactly for the names that are not defined. *)
Theorem memory_router_matches_definitions (name : jsstring) args (w : World) :
  registered Memory.memoryToolDefinitions name = is_memory_tool name
  /\ (is_memory_tool name = false ->
        Memory.executeMemoryTool name args w = (Return None, w))
  /\ (is_memory_tool name = true ->
        forall w', Memory.executeMemoryTool name args w <> (Return None, w')).
Proof.
  split; [|split; [apply executeMemoryTool_other|]].
  - unfold registered, Memory.memoryToolDefinitions, is_memory_tool.
    cbn [existsb Types.name].
    now rewrite !(jsstring_eqb_sym _ name).
  - intros Hname w'.
    memory_tool_cases Hname; unfold bind, ret;
      match goal with
      | |- context [?handler args w] =>
          destruct (handler args w) as [[result|e0] w0]
      end; discriminate.
Qed.

Lemma memory_router_matches_definitions_witness :
  Memory.executeMemoryTool (str "echo") None Sample.world
  = (Return None, Sample.world).
Proof.
  apply (proj1 (proj2 (memory_router_matches_definitions (str "echo") None
                         Sample.world))).
  reflexivity.
Defined.

(** Without a usable configuration a valid call of a memory tool ends in
    a result with [isError: true] that carries the configuration error;
    nothing is sent and nothing else changes. *)
Theorem unconfigured_storage_is_in_band (name : jsstring) args (w : World) :
  is_memory_tool name = true ->
  violations name args = None ->
  storage_configured w = false ->
  Memory.executeMemoryTool name args w
  = (Return (Some (Memory.createErrorResult (config_error w))), w).
Proof.
  intros Hname Hvalid Hconfigured.
  pose proof (getSupabaseClient_unconfigured w Hconfigured) as Hclient.
  memory_tool_cases Hname;
    apply failure_none in Hvalid as [data Hparsed];
    unfold bind at 1;
    match goal with
    | |- context [?handler args w] => unfold handler
    end;
    rewrite Hparsed; destruct data;
    unfold try_catch, bind; rewrite Hclient; reflexivity.
Qed.

Lemma unconfigured_storage_is_in_band_witness :
  Memory.executeMemoryTool (str "memory_list")
    (Some (JObject [Tools.member "userId" (Tools.jstr "u1")])) Sample.world
  = (Return (Some (Memory.createErrorResult (config_error Sample.world))),
     Sample.world).
Proof.
  apply (unconfigured_storage_is_in_band (str "memory_list")
           (Some (JObject [Tools.member "userId" (Tools.jstr "u1")]))
           Sample.world);
    reflexivity.
Defined.

(** *** What a schema lets through *)

Lemma safeParse_valid {A} (schema : Schema A) input (a : A) :
  safeParse schema input = Success a -> schema [] input = Valid a.
Proof.
  unfold safeParse. destruct (schema [] input); congruence.
Qed.

Lemma z_object_valid {A}
  (shape : list PathElem -> list (jsstring * JSON) -> ParseResult A) p input a :
  z_object shape p input = Valid a ->
  exists members, input = Some (JObject members) /\ shape p members = Valid a.
Proof.
  unfold z_object. destruct input as [[| | | | |members]|]; try discriminate.
  intros H. now exists members.
Qed.

Lemma ap_valid {A B} (f : ParseResult (A -> B)) (x : ParseResult A) (b : B) :
  f <*> x = Valid b -> exists g a, f = Valid g /\ x = Valid a /\ b = g a.
Proof.
  destruct f as [g|g i|i], x as [a|a j|j]; try discriminate.
  intros [= <-]. now exists g, a.
Qed.

Lemma fmap_valid {A B} (f : A -> B) (x : ParseResult A) (b : B) :
  f <$> x = Valid b -> exists a, x = Valid a /\ b = f a.
Proof.
  destruct x as [a|a i|i]; try discriminate.
  intros [= <-]. now exists a.
Qed.

Lemma refine_valid {A} (schema : Schema A) (check : A -> bool) msg input a :
  safeParse (refine schema check msg) input = Success a ->
  safeParse schema input = Success a /\ check a = true.
Proof.
  unfold safeParse, refine.
  destruct (schema [] input) as [x|x i|i]; [|destruct (check x)|];
    try discriminate.
  destruct (check x) eqn:Hcheck; [|discriminate].
  now intros [= <-].
Qed.

Lemma required_string_valid p members key msg (s : jsstring) :
  prop p members key (z_string [SMin 1 msg]) = Valid s ->
  get key members = Some (JString s) /\ s <> [].
Proof.
  unfold prop, z_string.
  destruct (get key members) as [[| | |s'| |]|]; try discriminate.
  cbn [flat_map string_check app].
  destruct (Z.of_nat (List.length s') <? 1)%Z eqn:Hshort; [discriminate|].
  intros [= <-]. split; [reflexivity|].
  intros ->. discriminate Hshort.
Qed.

(** Taking the parse of an object apart, member by member. *)
Ltac invert_object H :=
  apply safeParse_valid, z_object_valid in H as (members & -> & H);
  repeat (apply ap_valid in H as (? & ? & H & ? & ->));
  apply fmap_valid in H as (? & H & ->).

Lemma save_user args data :
  safeParse Memory.MemorySaveInputSchema args = Success data ->
  user_of args = Some (Memory.save_userId data) /\ Memory.save_userId data <> [].
Proof.
  intros H. unfold Memory.MemorySaveInputSchema in H. invert_object H.
  apply required_string_valid in H as [Hget Hnonempty].
  cbn [user_of Memory.save_userId]. now rewrite Hget.
Qed.

Lemma search_user args data :
  safeParse Memory.MemorySearchInputSchema args = Success data ->
  user_of args = Some (Memory.search_userId data)
  /\ Memory.search_userId data <> [].
Proof.
  intros H. unfold Memory.MemorySearchInputSchema in H. invert_object H.
  apply required_string_valid in H as [Hget Hnonempty].
  cbn [user_of Memory.search_userId]. now rewrite Hget.
Qed.

Lemma forget_user args data :
  safeParse Memory.MemoryForgetInputSchema args = Success data ->
  user_of args = Some (Memory.forget_userId data)
  /\ Memory.forget_userId data <> [].
Proof.
  intros H. unfold Memory.MemoryForgetInputSchema in H.
  apply refine_valid in H as [H _]. invert_object H.
  apply required_string_valid in H as [Hget Hnonempty].
  cbn [user_of Memory.forget_userId]. now rewrite Hget.
Qed.

Lemma list_user args data :
  safeParse Memory.MemoryListInputSchema args = Success data ->
  user_of args = Some (Memory.list_userId data) /\ Memory.list_userId data <> [].
Proof.
  intros H. unfold Memory.MemoryListInputSchema in H. invert_object H.
  apply required_string_valid in H as [Hget Hnonempty].
  cbn [user_of Memory.list_userId]. now rewrite Hget.
Qed.

Lemma update_user args data :
  safeParse Memory.MemoryUpdateInputSchema args = Success data ->
  user_of args = Some (Memory.update_userId data)
  /\ Memory.update_userId data <> [].
Proof.
  intros H. unfold Memory.MemoryUpdateInputSchema in H. invert_object H.
  apply required_string_valid in H as [Hget Hnonempty].
  cbn [user_of Memory.update_userId]. now rewrite Hget.
Qed.

(** *** What a handler sends *)

(** Running a handler on parsed arguments up to the store's answer. *)
Ltac to_the_store Hparsed Havailable :=
  rewrite Hparsed;
  match type of Havailable with
  | client_available ?w = true =>
      destruct (getSupabaseClient_available w Havailable) as [client Hclient];
      unfold try_catch, bind; rewrite Hclient;
      cbn [Date_now]; unfold await;
      cbn [clock clock_reads sent remote]
  end.

Lemma memorySave_sends args (w : World) userId content type tags importance
  sessionId :
  safeParse Memory.MemorySaveInputSchema args
    = Success (Memory.mkMemorySaveInput userId content type tags importance
                 sessionId) ->
  client_available w = true ->
  sent (snd (Memory.memorySave args w)) =
  sent w ++ [save_query [
    Tools.member "user_id" (JString userId);
    Tools.member "content" (JString content);
    Tools.member "type" (JString (Memory.memory_type_name type));
    Tools.member "tags"
      (JArray (map JString (match tags with Some t => t | None => [] end)));
    Tools.member "importance" (JNumber importance);
    Tools.member "session_id"
      (match sessionId with Some (c :: s) => JString (c :: s) | _ => JNull end)]].
Proof.
  intros Hparsed Havailable.
  unfold Memory.memorySave. to_the_store Hparsed Havailable.
  replace (if truthy_string sessionId
           then match sessionId with Some s => JString s | None => JNull end
           else JNull)
    with (match sessionId with Some (c :: s) => JString (c :: s) | _ => JNull end)
    by (now destruct sessionId as [[|c s]|]).
  destruct (remote w (sent w) _) as [e|r]; [destruct e; reflexivity|].
  destruct (response_error r); [reflexivity|].
  unfold Memory.lift.
  destruct (Memory.property _ _) as [o|e]; [reflexivity|destruct e; reflexivity].
Qed.

Lemma memorySearch_sends args (w : World) userId query limit type sessionId :
  safeParse Memory.MemorySearchInputSchema args
    = Success (Memory.mkMemorySearchInput userId query limit type sessionId) ->
  client_available w = true ->
  exists q,
    sent (snd (Memory.memorySearch args w)) = sent w ++ [q]
    /\ scoped_to userId q
    /\ In (Limit limit) (modifiers q).
Proof.
  intros Hparsed Havailable.
  unfold Memory.memorySearch. to_the_store Hparsed Havailable.
  match goal with
  | |- context [remote w (sent w) ?q] => exists q
  end.
  split.
  - destruct (remote w (sent w) _) as [e|r]; [destruct e; reflexivity|].
    destruct (response_error r); [reflexivity|].
    unfold Memory.lift.
    destruct (Memory.memories_of _) as [o|e]; [reflexivity|destruct e; reflexivity].
  - unfold scoped_to.
    destruct type, sessionId as [[|c s]|]; cbn; auto 12.
Qed.

Lemma memoryForget_sends args (w : World) userId id contentMatch :
  safeParse Memory.MemoryForgetInputSchema args
    = Success (Memory.mkMemoryForgetInput userId id contentMatch) ->
  client_available w = true ->
  sent (snd (Memory.memoryForget args w)) =
  sent w ++ [chain
    (match id, contentMatch with
     | Some (c :: s), _ =>
         chain (chain (from (str "memories") Delete) (Eq (str "user_id") userId))
           (Eq (str "id") (c :: s))
     | _, Some (c :: s) =>
         chain (chain (from (str "memories") Delete) (Eq (str "user_id") userId))
           (Ilike (str "content") (str "%" ++ (c :: s) ++ str "%"))
     | _, _ => chain (from (str "memories") Delete) (Eq (str "user_id") userId)
     end) (Returning (str "id"))].
Proof.
  intros Hparsed Havailable.
  unfold Memory.memoryForget. to_the_store Hparsed Havailable.
  destruct (remote w (sent w) _) as [e|r]; [destruct e; reflexivity|].
  destruct (response_error r); reflexivity.
Qed.

Lemma memoryList_sends args (w : World) userId type limit offset :
  safeParse Memory.MemoryListInputSchema args
    = Success (Memory.mkMemoryListInput userId type limit offset) ->
  client_available w = true ->
  exists q,
    sent (snd (Memory.memoryList args w)) = sent w ++ [q]
    /\ scoped_to userId q.
Proof.
  intros Hparsed Havailable.
  unfold Memory.memoryList. to_the_store Hparsed Havailable.
  match goal with
  | |- context [remote w (sent w) ?q] => exists q
  end.
  split.
  - destruct (remote w (sent w) _) as [e|r]; [destruct e; reflexivity|].
    destruct (response_error r); [reflexivity|].
    unfold Memory.lift.
    destruct (Memory.memories_of _) as [o|e]; [reflexivity|destruct e; reflexivity].
  - unfold scoped_to. destruct type; cbn; auto 12.
Qed.

(** The delete [memory_forget] sends (with the storage client at hand)
    is filtered by [user_id] and carries one more filter: the [id] when a
    non-empty one is given, and otherwise the pattern [%contentMatch%] on
    [content], for a [contentMatch] that is not empty.  The match is put
    into the pattern as it is, so a match made of wildcards, as "%",
    selects every memory of the user. *)
Theorem forget_sends_second_filter args (w : World) userId id contentMatch :
  safeParse Memory.MemoryForgetInputSchema args
    = Success (Memory.mkMemoryForgetInput userId id contentMatch) ->
  client_available w = true ->
  exists narrow,
    sent (snd (Memory.memoryForget args w))
      = sent w ++ [forget_query userId narrow]
    /\ ((exists i, id = Some i /\ i <> [] /\ narrow = Eq (str "id") i)
        \/ (truthy_string id = false
            /\ exists m, contentMatch = Some m /\ m <> []
                 /\ narrow = Ilike (str "content") (str "%" ++ m ++ str "%"))).
Proof.
  intros Hparsed Havailable.
  rewrite (memoryForget_sends args w userId id contentMatch Hparsed Havailable).
  apply refine_valid in Hparsed as [_ Hcheck].
  cbn [Memory.forget_id Memory.forget_contentMatch] in Hcheck.
  destruct id as [[|c s]|].
  - destruct contentMatch as [[|c s]|]; try discriminate Hcheck.
    eexists. split; [reflexivity|]. right. split; [reflexivity|].
    eexists. repeat split. discriminate.
  - eexists. split; [reflexivity|]. left.
    eexists. repeat split. discriminate.
  - destruct contentMatch as [[|c s]|]; try discriminate Hcheck.
    eexists. split; [reflexivity|]. right. split; [reflexivity|].
    eexists. repeat split. discriminate.
Qed.

Lemma forget_sends_second_filter_witness :
  exists narrow,
    sent (snd (Memory.memoryForget
                 (Some (JObject [Tools.member "userId" (Tools.jstr "u1");
                                 Tools.member "contentMatch" (Tools.jstr "tea")]))
                 Sample.configured_world))
      = sent Sample.configured_world ++ [forget_query (str "u1") narrow]
    /\ ((exists i, None = Some i /\ i <> [] /\ narrow = Eq (str "id") i)
        \/ (truthy_string None = false
            /\ exists m, Some (str "tea") = Some m /\ m <> []
                 /\ narrow = Ilike (str "content") (str "%" ++ m ++ str "%"))).
Proof.
  apply (forget_sends_second_filter
           (Some (JObject [Tools.member "userId" (Tools.jstr "u1");
                           Tools.member "contentMatch" (Tools.jstr "tea")]))
           Sample.configured_world (str "u1") None (Some (str "tea")));
    reflexivity.
Defined.

(** The pattern of a content match that is itself a wildcard. *)
Example forget_by_wildcard :
  sent (snd (Memory.memoryForget
               (Some (JObject [Tools.member "userId" (Tools.jstr "u1");
                               Tools.member "contentMatch" (Tools.jstr "%")]))
               Sample.configured_world))
  = [forget_query (str "u1") (Ilike (str "content") (str "%%%"))].
Proof. reflexivity. Qed.

(** [memory_save] with only [userId] and [content] (and the storage
    client at hand) inserts the defaults: type [note], no tags, importance
    0 and no session; an empty [sessionId] is stored as no session too. *)
Theorem save_fills_defaults (members : list (jsstring * JSON))
  (userId content : jsstring) (w : World) :
  get (str "userId") members = Some (JString userId) ->
  get (str "content") members = Some (JString content) ->
  (1 <= Z.of_nat (List.length userId))%Z ->
  (1 <= Z.of_nat (List.length content) <= 50000)%Z ->
  get (str "type") members = None ->
  get (str "tags") members = None ->
  get (str "importance") members = None ->
  (get (str "sessionId") members = None
   \/ get (str "sessionId") members = Some (JString [])) ->
  client_available w = true ->
  sent (snd (Memory.memorySave (Some (JObject members)) w)) =
  sent w ++ [save_query [
    Tools.member "user_id" (JString userId);
    Tools.member "content" (JString content);
    Tools.member "type" (Tools.jstr "note");
    Tools.member "tags" (JArray []);
    Tools.member "importance" (JNumber 0);
    Tools.member "session_id" JNull]].
Proof.
  intros Huser Hcontent Hu [Hmin Hmax] Htype Htags Himportance Hsession
    Havailable.
  assert (exists sessionId,
            safeParse Memory.MemorySaveInputSchema (Some (JObject members))
            = Success (Memory.mkMemorySaveInput userId content Memory.note None
                         0%float sessionId)
            /\ truthy_string sessionId = false) as (sessionId & Hparsed & Hfalsy).
  { unfold safeParse, Memory.MemorySaveInputSchema, z_object, prop, z_string,
      z_default, z_optional.
    rewrite Huser, Hcontent, Htype, Htags, Himportance.
    cbn [flat_map string_check app].
    replace (Z.of_nat (List.length userId) <? 1)%Z with false
      by (symmetry; apply Z.ltb_ge; lia).
    replace (Z.of_nat (List.length content) <? 1)%Z with false
      by (symmetry; apply Z.ltb_ge; lia).
    replace (50000 <? Z.of_nat (List.length content))%Z with false
      by (symmetry; apply Z.ltb_ge; lia).
    destruct Hsession as [-> | ->].
    - exists None. split; reflexivity.
    - exists (Some []). split; reflexivity. }
  rewrite (memorySave_sends _ w _ _ _ _ _ _ Hparsed Havailable).
  now destruct sessionId as [[|c s]|].
Qed.

Lemma save_fills_defaults_witness :
  sent (snd (Memory.memorySave
               (Some (JObject [Tools.member "userId" (Tools.jstr "u1");
                               Tools.member "content" (Tools.jstr "likes tea")]))
               Sample.configured_world)) =
  sent Sample.configured_world ++ [save_query [
    Tools.member "user_id" (Tools.jstr "u1");
    Tools.member "content" (Tools.jstr "likes tea");
    Tools.member "type" (Tools.jstr "note");
    Tools.member "tags" (JArray []);
    Tools.member "importance" (JNumber 0);
    Tools.member "session_id" JNull]].
Proof.
  apply (save_fills_defaults
           [Tools.member "userId" (Tools.jstr "u1");
            Tools.member "content" (Tools.jstr "likes tea")]
           (str "u1") (str "likes tea") Sample.configured_world);
    try reflexivity.
  - vm_compute. discriminate.
  - vm_compute. split; discriminate.
  - left. reflexivity.
Defined.

(** With the storage client at hand (it exists, or both variables are
    set and [createClient] takes them) every valid call of a memory tool
    sends exactly one query, on the table [memories], and that query is
    tied to the caller's [userId] (which is not empty): an insert writes
    it to [user_id], every other operation is filtered by [user_id]. *)
Theorem queries_are_scoped_to_user (name : jsstring) args (w : World) :
  is_memory_tool name = true ->
  violations name args = None ->
  client_available w = true ->
  exists userId q,
    user_of args = Some userId /\ userId <> []
    /\ sent (snd (Memory.executeMemoryTool name args w)) = sent w ++ [q]
    /\ scoped_to userId q.
Proof.
  intros Hname Hvalid Havailable.
  assert (Hsnd : forall (handler : Eff McpToolResult),
            snd ((r <- handler ;; ret (Some r)) w) = snd (handler w)).
  { intros handler. unfold bind, ret.
    now destruct (handler w) as [[r|e] w1]. }
  memory_tool_cases Hname; rewrite Hsnd;
    apply failure_none in Hvalid as [data Hparsed].
  - destruct (save_user args data Hparsed) as [Huser Hnonempty].
    destruct data as [userId content type tags importance sessionId].
    eexists; eexists. split; [exact Huser|]. split; [exact Hnonempty|].
    split; [apply (memorySave_sends _ _ _ _ _ _ _ _ Hparsed Havailable)|].
    split; reflexivity.
  - destruct (search_user args data Hparsed) as [Huser Hnonempty].
    destruct data as [userId query limit type sessionId].
    destruct (memorySearch_sends _ _ _ _ _ _ _ Hparsed Havailable)
      as (q & Hsent & Hscoped & _).
    now exists userId, q.
  - destruct (forget_user args data Hparsed) as [Huser Hnonempty].
    destruct data as [userId id contentMatch].
    eexists; eexists. split; [exact Huser|]. split; [exact Hnonempty|].
    split; [apply (memoryForget_sends _ _ _ _ _ Hparsed Havailable)|].
    unfold scoped_to.
    destruct id as [[|c s]|], contentMatch as [[|c' s']|]; cbn; auto.
  - destruct (list_user args data Hparsed) as [Huser Hnonempty].
    destruct data as [userId type limit offset].
    destruct (memoryList_sends _ _ _ _ _ _ Hparsed Havailable)
      as (q & Hsent & Hscoped).
    now exists userId, q.
  - destruct (update_user args data Hparsed) as [Huser Hnonempty].
    destruct data as [userId id content type tags importance].
    eexists; eexists. split; [exact Huser|]. split; [exact Hnonempty|].
    split; [apply (memoryUpdate_sends _ _ _ _ _ _ _ _ Hparsed Havailable)|].
    unfold scoped_to, update_query. cbn. auto.
Qed.

Lemma queries_are_scoped_to_user_witness :
  exists userId q,
    user_of (Some (JObject [Tools.member "userId" (Tools.jstr "u1")]))
      = Some userId /\ userId <> []
    /\ sent (snd (Memory.executeMemoryTool (str "memory_list")
                    (Some (JObject [Tools.member "userId" (Tools.jstr "u1")]))
                    Sample.configured_world))
       = sent Sample.configured_world ++ [q]
    /\ scoped_to userId q.
Proof.
  apply (queries_are_scoped_to_user (str "memory_list")
           (Some (JObject [Tools.member "userId" (Tools.jstr "u1")]))
           Sample.configured_world);
    reflexivity.
Defined.

Lemma bounded_integer_valid p members key (lo hi : Z) (d x : float) :
  prop p members key
    (z_default (z_optional (z_number [NInt; NMin lo; NMax hi])) (JNumber d) d)
    = Valid x ->
  ((get key members = None /\ x = d) \/ get key members = Some (JNumber x))
  /\ Number_isInteger x = true
  /\ (x <? Number_of_Z lo)%float = false
  /\ (Number_of_Z hi <? x)%float = false.
Proof.
  unfold prop, z_default, z_optional, z_number.
  destruct (get key members) as [[| |v| | |]|]; try discriminate.
  - destruct (Number_isNaN v); [discriminate|].
    cbn [flat_map number_check app].
    destruct (Number_isInteger v) eqn:Hint, (v <? Number_of_Z lo)%float eqn:Hlo,
      (Number_of_Z hi <? v)%float eqn:Hhi; try discriminate.
    intros [= <-]. split; [now right|]. now repeat split.
  - destruct (Number_isNaN d); [discriminate|].
    cbn [flat_map number_check app].
    destruct (Number_isInteger d) eqn:Hint, (d <? Number_of_Z lo)%float eqn:Hlo,
      (Number_of_Z hi <? d)%float eqn:Hhi; try discriminate.
    intros [= <-]. split; [now left|]. now repeat split.
Qed.

(** What [memory_search] accepts is bounded: a user, a query of 1 to 1000
    code units, and a limit that is an integer from 1 to 100 -- the
    given one, or 10 when none is given. *)
Theorem search_input_is_bounded (members : list (jsstring * JSON)) data :
  safeParse Memory.MemorySearchInputSchema (Some (JObject members))
    = Success data ->
  Memory.search_userId data <> []
  /\ get (str "query") members = Some (JString (Memory.search_query data))
  /\ (1 <= Z.of_nat (List.length (Memory.search_query data)) <= 1000)%Z
  /\ ((get (str "limit") members = None /\ Memory.search_limit data = 10%float)
      \/ get (str "limit") members = Some (JNumber (Memory.search_limit data)))
  /\ Number_isInteger (Memory.search_limit data) = true
  /\ (Memory.search_limit data <? 1)%float = false
  /\ (100 <? Memory.search_limit data)%float = false.
Proof.
  intros H. unfold Memory.MemorySearchInputSchema in H.
  apply safeParse_valid, z_object_valid in H as (members' & [= <-] & H).
  apply ap_valid in H as (? & sessionId & H & _ & ->).
  apply ap_valid in H as (? & type & H & _ & ->).
  apply ap_valid in H as (? & limit & H & Hlimit & ->).
  apply ap_valid in H as (? & query & H & Hquery & ->).
  apply fmap_valid in H as (userId & Huser & ->).
  cbn [Memory.search_userId Memory.search_query Memory.search_limit].
  apply required_string_valid in Huser as [_ Hnonempty].
  split; [exact Hnonempty|].
  assert (Hq : get (str "query") members = Some (JString query)
               /\ (1 <= Z.of_nat (List.length query) <= 1000)%Z).
  { unfold prop, z_string in Hquery.
    destruct (get (str "query") members) as [[| | |s| |]|]; try discriminate.
    cbn [flat_map string_check app] in Hquery.
    destruct (Z.of_nat (List.length s) <? 1)%Z eqn:Hmin; [discriminate|].
    destruct (1000 <? Z.of_nat (List.length s))%Z eqn:Hmax; [discriminate|].
    injection Hquery as <-.
    apply Z.ltb_ge in Hmin, Hmax. now repeat split. }
  destruct Hq as [Hget Hbounds].
  split; [exact Hget|]. split; [exact Hbounds|].
  exact (bounded_integer_valid _ _ _ 1 100 10%float limit Hlimit).
Qed.

Lemma search_input_is_bounded_witness :
  str "u1" <> []
  /\ get (str "query") [Tools.member "userId" (Tools.jstr "u1");
                        Tools.member "query" (Tools.jstr "tea")]
     = Some (JString (str "tea"))
  /\ (1 <= Z.of_nat (List.length (str "tea")) <= 1000)%Z
  /\ ((get (str "limit") [Tools.member "userId" (Tools.jstr "u1");
                          Tools.member "query" (Tools.jstr "tea")] = None
       /\ 10%float = 10%float)
      \/ get (str "limit") [Tools.member "userId" (Tools.jstr "u1");
                            Tools.member "query" (Tools.jstr "tea")]
         = Some (JNumber 10))
  /\ Number_isInteger 10 = true
  /\ (10 <? 1)%float = false
  /\ (100 <? 10)%float = false.
Proof.
  apply (search_input_is_bounded
           [Tools.member "userId" (Tools.jstr "u1");
            Tools.member "query" (Tools.jstr "tea")]
           (Memory.mkMemorySearchInput (str "u1") (str "tea") 10 None None)).
  reflexivity.
Defined.

(** A failure of the store stays in band.  With the storage client at
    hand a valid call reaches the store: when the store answers with an
    error, the call ends in a result with [isError: true] whose message
    ends with the store's; when the request itself fails, it ends in a
    result with [isError: true] as well.  Neither is thrown. *)
Theorem store_failure_is_in_band (name : jsstring) args (w : World) answer :
  is_memory_tool name = true ->
  violations name args = None ->
  client_available w = true ->
  (forall history q, remote w history q = answer) ->
  match answer with
  | inl e =>
      exists message w',
        Memory.executeMemoryTool name args w
        = (Return (Some (Memory.createErrorResult message)), w')
  | inr r =>
      forall message, response_error r = Some message ->
      exists prefix w',
        Memory.executeMemoryTool name args w
        = (Return (Some (Memory.createErrorResult (prefix ++ message))), w')
  end.
Proof.
  intros Hname Hvalid Havailable Hremote.
  memory_tool_cases Hname;
    apply failure_none in Hvalid as [data Hparsed]; destruct data;
    unfold bind at 1;
    match goal with
    | |- context [?handler args w] => unfold handler
    end;
    to_the_store Hparsed Havailable; cbv beta iota zeta;
    rewrite Hremote;
    (destruct answer as [e|r];
     [ destruct e; unfold Memory.on_failure, ret; eexists; eexists; reflexivity
     | intros message Hmessage; rewrite Hmessage;
       unfold ret; eexists; eexists; reflexivity ]).
Qed.

Lemma store_failure_is_in_band_witness :
  exists prefix w',
    Memory.executeMemoryTool (str "memory_list")
      (Some (JObject [Tools.member "userId" (Tools.jstr "u1")]))
      (answering (inr (mkPostgrestResponse JNull (Some (str "timeout")) None))
         Sample.configured_world)
    = (Return (Some (Memory.createErrorResult (prefix ++ str "timeout"))), w').
Proof.
  apply (store_failure_is_in_band (str "memory_list")
           (Some (JObject [Tools.member "userId" (Tools.jstr "u1")]))
           (answering (inr (mkPostgrestResponse JNull (Some (str "timeout")) None))
              Sample.configured_world)
           (inr (mkPostgrestResponse JNull (Some (str "timeout")) None))
           eq_refl eq_refl eq_refl (fun _ _ => eq_refl) (str "timeout"));
    reflexivity.
Defined.

(** When [createClient] refuses the variables, a valid call of a memory
    tool sends nothing and changes nothing: the handler catches the error
    and returns a result with [isError: true]. *)
Theorem createClient_failure_is_in_band (name : jsstring) args (w : World)
  (url key : jsstring) e :
  is_memory_tool name = true ->
  violations name args = None ->
  supabaseInstance w = None ->
  SUPABASE_URL w = Some url -> url <> [] ->
  SUPABASE_ANON_KEY w = Some key -> key <> [] ->
  createClient w url key = inl e ->
  exists message,
    Memory.executeMemoryTool name args w
    = (Return (Some (Memory.createErrorResult message)), w).
Proof.
  intros Hname Hvalid Hnone Hurl Hnonempty Hkey Hnonempty' Hthrows.
  assert (Hclient : getSupabaseClient w = (Throw e, w)).
  { unfold getSupabaseClient. rewrite Hnone, Hurl, Hkey.
    destruct url; [now contradiction Hnonempty|].
    destruct key; [now contradiction Hnonempty'|].
    cbn [truthy_string negb]. now rewrite Hthrows. }
  memory_tool_cases Hname;
    apply failure_none in Hvalid as [data Hparsed]; destruct data;
    unfold bind at 1;
    match goal with
    | |- context [?handler args w] => unfold handler
    end;
    rewrite Hparsed; unfold try_catch, bind; rewrite Hclient;
    destruct e; unfold Memory.on_failure, ret; eexists; reflexivity.
Qed.

Lemma createClient_failure_is_in_band_witness :
  exists message,
    Memory.executeMemoryTool (str "memory_list")
      (Some (JObject [Tools.member "userId" (Tools.jstr "u1")]))
      Sample.malformed_world
    = (Return (Some (Memory.createErrorResult message)), Sample.malformed_world).
Proof.
  apply (createClient_failure_is_in_band (str "memory_list")
           (Some (JObject [Tools.member "userId" (Tools.jstr "u1")]))
           Sample.malformed_world (str "project.supabase.co") (str "anon-key")
           (OtherError
              (str "Invalid supabaseUrl: Must be a valid HTTP or HTTPS URL.")));
    (reflexivity || discriminate).
Defined.

(** ** Records on their way out *)

Lemma get_optional_member (k : jsstring) (k' : string) v rest :
  get k (Memory.optional_member k' v ++ rest) =
  if jsstring_eqb k (str k')
  then match v with Some x => Some x | None => get k rest end
  else get k rest.
Proof.
  destruct v; cbn [Memory.optional_member Tools.member app get];
    destruct (jsstring_eqb k (str k')); reflexivity.
Qed.

Lemma get_optional_member_key (k : jsstring) (k' : string) v rest :
  get k (Memory.optional_member k' v ++ rest) <> None ->
  k = str k' \/ get k rest <> None.
Proof.
  rewrite get_optional_member.
  destruct (jsstring_eqb k (str k')) eqn:E;
    [left; now apply jsstring_eqb_eq|now right].
Qed.

(** [toMemoryOutput] renames and drops nothing else: each of the nine
    properties of the output is the record's column of [output_columns],
    absent exactly when the column is, and the output has no other
    property. *)
Theorem output_renames_columns (record : list (jsstring * JSON)) :
  exists output,
    Memory.toMemoryOutput (JObject record) = Return (JObject output)
    /\ (forall property column,
          In (property, column) output_columns ->
          get (str property) output = get (str column) record)
    /\ (forall k, get k output <> None ->
          In k (map (fun pc => str (fst pc)) output_columns)).
Proof.
  eexists. split; [reflexivity|].
  rewrite <- (app_nil_r (Memory.optional_member "updatedAt" _)).
  split.
  - intros property column Hin. cbn [In output_columns] in Hin.
    repeat (destruct Hin as [[= <- <-] | Hin];
            [rewrite !get_optional_member; lazy;
             match goal with
             | |- context [match ?g with Some _ => _ | None => _ end] =>
                 now destruct g
             end|]).
    contradiction.
  - intros k H.
    repeat (apply get_optional_member_key in H as [-> | H];
            [cbn [map In output_columns fst]; auto 12|]).
    now contradiction H.
Qed.

(** ** The request schema *)

(** A request that passes [JsonRpcRequestSchema] is an object whose
    [jsonrpc] is "2.0" and whose [method] is a string; its [id] is the
    string, number or [null] given, and is absent exactly when the object
    has no [id] -- so a notification is told by the missing member. *)
Theorem request_schema_sound (v : JSON) request :
  safeParse JsonRpcRequestSchema (Some v) = Success request ->
  exists members,
    v = JObject members
    /\ get (str "jsonrpc") members = Some (JString (str "2.0"))
    /\ jsonrpc request = str "2.0"
    /\ get (str "method") members = Some (JString (method request))
    /\ id request = id_of (get (str "id") members)
    /\ (id request = None <-> get (str "id") members = None).
Proof.
  intros H. unfold JsonRpcRequestSchema in H.
  apply safeParse_valid, z_object_valid in H as (members & [= ->] & H).
  apply ap_valid in H as (? & params & H & _ & ->).
  apply ap_valid in H as (? & method & H & Hmethod & ->).
  apply ap_valid in H as (? & id & H & Hid & ->).
  apply fmap_valid in H as (version & Hversion & ->).
  cbn [jsonrpc Types.method Types.id].
  exists members. split; [reflexivity|].
  assert (Hv : get (str "jsonrpc") members = Some (JString version)
               /\ version = str "2.0").
  { unfold prop, z_literal in Hversion.
    destruct (get (str "jsonrpc") members) as [[| | |s| |]|]; try discriminate.
    destruct (jsstring_eqb s (str "2.0")) eqn:Hs; [|discriminate].
    injection Hversion as <-. apply jsstring_eqb_eq in Hs. now subst. }
  destruct Hv as [Hget ->].
  split; [exact Hget|]. split; [reflexivity|].
  split.
  { unfold prop, z_string in Hmethod.
    destruct (get (str "method") members) as [[| | |s| |]|]; try discriminate.
    now injection Hmethod as <-. }
  unfold prop, z_optional, z_union, z_string, z_number, z_null in Hid.
  destruct (get (str "id") members) as [[| |x| | |]|];
    cbn [map first_valid first_dirty fmap with_issues flat_map] in Hid;
    try discriminate.
  - injection Hid as <-. split; [reflexivity|]. split; discriminate.
  - destruct (Number_isNaN x); [discriminate|].
    cbn [map first_valid first_dirty fmap with_issues flat_map] in Hid.
    injection Hid as <-. split; [reflexivity|]. split; discriminate.
  - injection Hid as <-. split; [reflexivity|]. split; discriminate.
  - injection Hid as <-. now split.
Qed.

Lemma request_schema_sound_witness :
  exists members,
    JObject (request_members None "ping") = JObject members
    /\ get (str "jsonrpc") members = Some (JString (str "2.0"))
    /\ str "2.0" = str "2.0"
    /\ get (str "method") members = Some (JString (str "ping"))
    /\ None = id_of (get (str "id") members)
    /\ (@None RequestId = None <-> get (str "id") members = None).
Proof.
  apply (request_schema_sound (JObject (request_members None "ping"))
           (mkRequest (str "2.0") None (str "ping") None)).
  reflexivity.
Defined.
